(** * Analytics aggregation engine of powerbi-manager

    A shallow embedding of the pure computations of [src/app.py]
    ([build_summary], [build_performance], [filter_refreshes_by_window],
    [build_capacity_series], [performance_sets],
    [compute_avg_interval_hours]) and the properties stated about them.

    Modelling conventions.
    - A Python [dict] is an association list in insertion order: the
      order of [items()] decides the order of the lists the engine
      returns.  [dict_set] is [d[k] = v]: it overwrites in place when the
      key is present and appends otherwise.
    - A record read with [.get(key)] is a Rocq record of [option] fields,
      [None] standing for a missing key or a stored [None].
    - An aware UTC [datetime] is the number of microseconds of its
      instant, a [Z]; durations, averages and hours are exact rationals
      ([Q]) where Python computes with binary floating point, and the
      factor [1.1] is [11 # 10].
    - [datetime.fromisoformat] belongs to the Python library: the engine
      is a [Section] over it, and [Iso.fromisoformat] is an executable
      model of it on the extended ISO-8601 format, used for concrete
      runs. *)

From Stdlib Require Import List String Ascii Bool Arith ZArith QArith Lia.
From Stdlib Require Import Permutation Sorted RelationClasses Lqa.
Import ListNotations.

Local Open Scope string_scope.
Local Open Scope list_scope.

(** ** Python values *)

Module Py.

(** Truth value of an optional string: [None] and [""] are falsy. *)
Definition truthy (o : option string) : bool :=
  match o with
  | Some s => negb (s =? "")
  | None => false
  end.

(** [a or b] on optional strings. *)
Definition or_else (a b : option string) : option string :=
  if truthy a then a else b.

(** [a or d] where [d] is a string: the result is a string. *)
Definition or_default (a : option string) (d : string) : string :=
  match a with
  | Some s => if s =? "" then d else s
  | None => d
  end.

(** [x or 0] on an optional number: [None] and [0] both give [0]. *)
Definition or_zero (x : option Q) : Q :=
  match x with
  | Some q => if Qeq_bool q 0 then 0%Q else q
  | None => 0%Q
  end.

(** The string of a truthy optional string. *)
Definition text (o : option string) : string :=
  match o with
  | Some s => s
  | None => ""
  end.

(** [str(x)] inside an f-string, for an optional string. *)
Definition str (o : option string) : string :=
  match o with
  | Some s => s
  | None => "None"
  end.

Definition lower_ascii (c : ascii) : ascii :=
  let n := nat_of_ascii c in
  if (65 <=? n)%nat && (n <=? 90)%nat then ascii_of_nat (n + 32) else c.

Definition upper_ascii (c : ascii) : ascii :=
  let n := nat_of_ascii c in
  if (97 <=? n)%nat && (n <=? 122)%nat then ascii_of_nat (n - 32) else c.

(** [s.lower()] and [s.upper()] on the ASCII letters; the other bytes
    are kept.  No character outside ASCII lowers to a letter of
    ["completed"], so the comparison with that word is the one Python
    makes. *)
Fixpoint lower (s : string) : string :=
  match s with
  | EmptyString => EmptyString
  | String c s' => String (lower_ascii c) (lower s')
  end.

Fixpoint upper (s : string) : string :=
  match s with
  | EmptyString => EmptyString
  | String c s' => String (upper_ascii c) (upper s')
  end.

(** [s.replace("Z", "+00:00")]: every occurrence is replaced. *)
Fixpoint replace_Z (s : string) : string :=
  match s with
  | EmptyString => EmptyString
  | String c s' =>
      if Ascii.eqb c "Z"%char then "+00:00" ++ replace_Z s'
      else String c (replace_Z s')
  end.

(** [sum(l)] and [sum(l) / len(l)] on numbers. *)
Definition sum (l : list Q) : Q := fold_left Qplus l 0%Q.

Definition mean (l : list Q) : Q :=
  (sum l / inject_Z (Z.of_nat (List.length l)))%Q.

End Py.

(** ** Dictionaries in insertion order *)

Class PyKey (K : Type) := {
  key_eqb : K -> K -> bool;
  key_eqb_eq : forall a b, key_eqb a b = true <-> a = b
}.

#[export] Instance string_key : PyKey string :=
  {| key_eqb := String.eqb; key_eqb_eq := String.eqb_eq |}.

Definition option_eqb {K} `{PyKey K} (a b : option K) : bool :=
  match a, b with
  | Some x, Some y => key_eqb x y
  | None, None => true
  | _, _ => false
  end.

Lemma option_eqb_eq {K} `{PyKey K} (a b : option K) :
  option_eqb a b = true <-> a = b.
Proof.
  destruct a as [x|], b as [y|]; simpl; try (split; congruence).
  rewrite key_eqb_eq. split; congruence.
Qed.

#[export] Instance option_key {K} `{PyKey K} : PyKey (option K) :=
  {| key_eqb := option_eqb; key_eqb_eq := option_eqb_eq |}.

Section Dict.
Context {K V : Type} `{PyKey K}.

Definition dict := list (K * V).

(** [d.get(k)] *)
Fixpoint dict_get (k : K) (d : dict) : option V :=
  match d with
  | [] => None
  | (k', v) :: d' => if key_eqb k' k then Some v else dict_get k d'
  end.

(** [d[k] = v] *)
Fixpoint dict_set (k : K) (v : V) (d : dict) : dict :=
  match d with
  | [] => [(k, v)]
  | (k', v') :: d' =>
      if key_eqb k' k then (k', v) :: d' else (k', v') :: dict_set k v d'
  end.

Definition keys (d : dict) : list K := map fst d.

(** A list of pairs is the [items()] of a dictionary when its keys are
    pairwise distinct. *)
Definition is_dict (d : dict) : Prop := NoDup (keys d).

End Dict.

Arguments dict : clear implicits.

(** ** Stable sorting

    [sorted] and [list.sort] are stable, with [reverse=True] too: records
    with equal keys keep their relative order.  [before y x] says that
    the key of [y] is strictly ahead of the key of [x]; [x] is inserted
    behind exactly the elements that are strictly ahead of it. *)

Section StableSort.
Context {A : Type} (before : A -> A -> bool).

Fixpoint insert_stable (x : A) (l : list A) : list A :=
  match l with
  | [] => [x]
  | y :: l' => if before y x then y :: insert_stable x l' else x :: l
  end.

Definition sort_stable (l : list A) : list A :=
  fold_right insert_stable [] l.

End StableSort.

(** ** Instants

    A [datetime] as [fromisoformat] returns it: the wall-clock reading in
    microseconds since 1970-01-01T00:00:00 and the offset of its
    [tzinfo], [None] for a naive value. *)

Record datetime := {
  wall : Z;
  utcoffset : option Z
}.

Definition usec_per_second : Z := 1000000.
Definition usec_per_hour : Z := 3600 * usec_per_second.
Definition usec_per_day : Z := 24 * usec_per_hour.

(** [dt.replace(tzinfo=timezone.utc)] for a naive value,
    [dt.astimezone(timezone.utc)] otherwise: the UTC instant. *)
Definition to_utc (dt : datetime) : Z :=
  match utcoffset dt with
  | None => wall dt
  | Some off => wall dt - off
  end.

(** An executable model of [datetime.fromisoformat] on the strings
    [YYYY-MM-DD(T| )HH:MM:SS[.fff[fff]][(+|-)HH:MM]]; every other string
    is rejected, which is what Python does with a string that is not a
    timestamp at all. *)

Module Iso.

Definition bind {A B} (o : option A) (f : A -> option B) : option B :=
  match o with
  | Some a => f a
  | None => None
  end.

Notation "x <- e ;; k" := (bind e (fun x => k))
  (at level 61, e at next level, right associativity).
Notation "' p <- e ;; k" := (bind e (fun p => k))
  (at level 61, p pattern, e at next level, right associativity).

Definition digit (c : ascii) : option Z :=
  let n := nat_of_ascii c in
  if (48 <=? n)%nat && (n <=? 57)%nat then Some (Z.of_nat (n - 48)) else None.

(** Reads exactly [n] decimal digits. *)
Fixpoint number (n : nat) (acc : Z) (s : string) : option (Z * string) :=
  match n with
  | O => Some (acc, s)
  | S n' =>
      match s with
      | String c s' => d <- digit c ;; number n' (10 * acc + d)%Z s'
      | EmptyString => None
      end
  end.

Definition expect (c : ascii) (s : string) : option string :=
  match s with
  | String c' s' => if Ascii.eqb c c' then Some s' else None
  | EmptyString => None
  end.

Definition guard (b : bool) : option unit := if b then Some tt else None.

Definition is_leap (y : Z) : bool :=
  ((y mod 4 =? 0) && (negb (y mod 100 =? 0) || (y mod 400 =? 0)))%Z.

Definition days_in_month (y m : Z) : Z :=
  (if m =? 2 then (if is_leap y then 29 else 28)
   else if (m =? 4) || (m =? 6) || (m =? 9) || (m =? 11) then 30
   else 31)%Z.

(** Days from 1970-01-01 to the given date of the proleptic Gregorian
    calendar. *)
Definition days_from_civil (y m d : Z) : Z :=
  (let y' := if m <=? 2 then y - 1 else y in
   let era := y' / 400 in
   let yoe := y' - era * 400 in
   let mp := (m + 9) mod 12 in
   let doy := (153 * mp + 2) / 5 + d - 1 in
   let doe := yoe * 365 + yoe / 4 - yoe / 100 + doy in
   era * 146097 + doe - 719468)%Z.

(** The fraction of a second: three or six digits, in microseconds. *)
Definition fraction (s : string) : option (Z * string) :=
  match s with
  | String "."%char s' =>
      '(ms, s3) <- number 3 0%Z s' ;;
      match number 3 0%Z s3 with
      | Some (us, s6) => Some (ms * 1000 + us, s6)%Z
      | None => Some (ms * 1000, s3)%Z
      end
  | _ => Some (0%Z, s)
  end.

Definition offset (s : string) : option (option Z * string) :=
  match s with
  | String c s' =>
      sign <- (if Ascii.eqb c "+"%char then Some 1%Z
               else if Ascii.eqb c "-"%char then Some (-1)%Z else None) ;;
      '(hh, s1) <- number 2 0%Z s' ;;
      s2 <- expect ":"%char s1 ;;
      '(mm, s3) <- number 2 0%Z s2 ;;
      _ <- guard ((hh <? 24) && (mm <? 60))%Z ;;
      Some (Some (sign * (hh * usec_per_hour + mm * 60 * usec_per_second))%Z, s3)
  | EmptyString => Some (None, s)
  end.

Definition fromisoformat (s : string) : option datetime :=
  '(y, s) <- number 4 0%Z s ;;
  s <- expect "-"%char s ;;
  '(m, s) <- number 2 0%Z s ;;
  s <- expect "-"%char s ;;
  '(d, s) <- number 2 0%Z s ;;
  s <- match s with
       | String c s' =>
           if Ascii.eqb c "T"%char || Ascii.eqb c " "%char then Some s' else None
       | EmptyString => None
       end ;;
  '(hh, s) <- number 2 0%Z s ;;
  s <- expect ":"%char s ;;
  '(mi, s) <- number 2 0%Z s ;;
  s <- expect ":"%char s ;;
  '(ss, s) <- number 2 0%Z s ;;
  '(us, s) <- fraction s ;;
  '(off, s) <- offset s ;;
  _ <- guard (s =? "") ;;
  _ <- guard ((1 <=? y) && (1 <=? m) && (m <=? 12) && (1 <=? d)
              && (d <=? days_in_month y m)
              && (hh <? 24) && (mi <? 60) && (ss <? 60))%Z ;;
  Some {| wall := (days_from_civil y m d * usec_per_day
                   + hh * usec_per_hour + mi * 60 * usec_per_second
                   + ss * usec_per_second + us)%Z;
          utcoffset := off |}.

End Iso.


(** ** Data model

    The dictionaries the engine reads, one record per shape, with the
    keys the code looks up. *)

Record Workspace := {
  w_id : option string;
  w_name : option string
}.

Record Category := {
  c_env : option string;
  c_module : option string
}.

Record SemanticModel := {
  m_model_id : option string;
  m_id : option string;
  m_name : option string
}.

Record RefreshRecord := {
  r_start_time : option string;
  r_startTime : option string;
  r_end_time : option string;
  r_status : option string;
  r_duration_seconds : option Q
}.

Record CapacityPoint := {
  p_ts : option string;
  p_timestamp : option string;
  p_cu : option Q;
  p_value : option Q
}.

(** The default [{}] of [d.get(k, {})]. *)
Definition no_workspace : Workspace := {| w_id := None; w_name := None |}.
Definition no_category : Category := {| c_env := None; c_module := None |}.

(** The per-model record of [build_performance]. *)
Record ModelPerformance := {
  workspace_id : string;
  workspace_name : string;
  env : string;
  module : string;
  model_id : option string;
  model_name : option string;
  avg_sec : Q;
  last_sec : Q;
  failures : nat;
  successes : nat;
  total : nat;
  freq_per_hour : Q;
  avg_interval_hours : Q;
  last_status : option string;
  outlier : bool;
  efficient : bool
}.

(** The per-workspace statistics of [build_summary]. *)
Record WorkspaceStats := {
  model_count : nat;
  failed_count : nat;
  slow_count : nat;
  failed_models : list (option string);
  slow_models : list (option string)
}.

Record SummaryEntry := {
  e_id : string;
  e_name : option string;
  e_models : list SemanticModel;
  e_stats : WorkspaceStats
}.

(** A plot point [{"x": ts, "y": value}]. *)
Record Point := {
  x : string;
  y : Q
}.

Record HistorySeries := {
  label : string;
  h_env : string;
  data : list Point
}.

(** One window of [performance_sets]. *)
Record PerformanceWindow := {
  models : list ModelPerformance;
  top_slow : list ModelPerformance;
  top_fail : list ModelPerformance;
  efficient_models : list ModelPerformance;
  outliers : list ModelPerformance;
  history24 : list HistorySeries;
  capacity : list Point
}.

Definition Qgt_bool (a b : Q) : bool := negb (Qle_bool a b).


(** ** The engine *)

Section Engine.

(** [datetime.fromisoformat]; [None] is a raised [ValueError]. *)
Variable fromisoformat : string -> option datetime.

(** The four lines that every time-dependent loop repeats:
    [fromisoformat(ts.replace("Z", "+00:00"))] made a UTC instant;
    [None] when the call raises. *)
Definition parse_utc (ts : string) : option Z :=
  match fromisoformat (Py.replace_Z ts) with
  | Some dt => Some (to_utc dt)
  | None => None
  end.

(** [r.get("start_time") or r.get("startTime")] *)
Definition start_of (r : RefreshRecord) : option string :=
  Py.or_else (r_start_time r) (r_startTime r).

(** [(r.get("status") or "").lower() == "completed"] *)
Definition is_completed (r : RefreshRecord) : bool :=
  Py.lower (Py.or_default (r_status r) "") =? "completed".

(** [[r.get("duration_seconds") for r in rlist
      if r.get("duration_seconds") is not None]] *)
Fixpoint durations_of (rlist : list RefreshRecord) : list Q :=
  match rlist with
  | [] => []
  | r :: rest =>
      match r_duration_seconds r with
      | Some d => d :: durations_of rest
      | None => durations_of rest
      end
  end.

(** [m.get("model_id") or m.get("id")] *)
Definition mid_of (m : SemanticModel) : option string :=
  Py.or_else (m_model_id m) (m_id m).

(** [refresh_map.get(mid) or []]: the keys of the map are strings, so
    a [None] identifier finds nothing. *)
Definition rlist_of (refresh_map : dict string (list RefreshRecord))
    (mid : option string) : list RefreshRecord :=
  match mid with
  | Some k =>
      match dict_get k refresh_map with
      | Some l => l
      | None => []
      end
  | None => []
  end.

(** [{ws.get("id"): ws for ws in workspaces}] *)
Definition ws_by_id_of (workspaces : list Workspace)
    : dict (option string) Workspace :=
  fold_left (fun d ws => dict_set (w_id ws) ws d) workspaces [].

(** *** Reading the start of a record

    Every time-dependent loop starts with the same lines: take
    [ts = r.get("start_time") or r.get("startTime")], leave the record
    when [ts] is falsy, parse it otherwise.  The loops differ in where
    they catch the exception of a string that does not parse. *)

Inductive start_reading :=
| Absent                (* [not ts] *)
| Malformed             (* [fromisoformat] raises *)
| Instant (dt : Z).     (* the UTC instant *)

Definition read_start (r : RefreshRecord) : start_reading :=
  let ts := start_of r in
  if Py.truthy ts then
    match parse_utc (Py.text ts) with
    | Some dt => Instant dt
    | None => Malformed
    end
  else Absent.

(** *** Interval estimation *)

(** [(b - a).total_seconds() / 3600.0] *)
Definition hours_between (a b : Z) : Q :=
  (inject_Z (b - a) / inject_Z usec_per_second / 3600)%Q.

(** The loop over [range(1, len(timestamps))]. *)
Fixpoint deltas_of (timestamps : list Z) : list Q :=
  match timestamps with
  | a :: (b :: _) as rest => hours_between a b :: deltas_of rest
  | _ => []
  end.

(** [sum(deltas) / len(deltas) if deltas else 0] *)
Definition mean_or_zero (l : list Q) : Q :=
  match l with
  | [] => 0%Q
  | _ => Py.mean l
  end.

(** [0 if avg_interval_hours == 0 else 1 / avg_interval_hours] *)
Definition freq_of (avg_interval : Q) : Q :=
  if Qeq_bool avg_interval 0 then 0%Q else (1 / avg_interval)%Q.

(** The timestamp loop of [compute_avg_interval_hours]: the [try] is
    inside the loop, a record that does not parse is skipped. *)
Fixpoint timestamps_skipping (rlist : list RefreshRecord) : list Z :=
  match rlist with
  | [] => []
  | r :: rest =>
      match read_start r with
      | Instant dt => dt :: timestamps_skipping rest
      | Absent | Malformed => timestamps_skipping rest
      end
  end.

(** What [compute_avg_interval_hours] stores for one dataset. *)
Definition avg_interval_of (rlist : list RefreshRecord) : Q :=
  let timestamps := sort_stable Z.ltb (timestamps_skipping rlist) in
  if (2 <=? List.length timestamps)%nat then
    mean_or_zero (deltas_of timestamps)
  else 0%Q.

Definition compute_avg_interval_hours
    (refreshes_by_ds : dict string (list RefreshRecord)) : dict string Q :=
  fold_left
    (fun freq '(ds_id, rlist) => dict_set ds_id (avg_interval_of rlist) freq)
    refreshes_by_ds [].

(** The timestamp loop of [build_performance]: the [try] is around the
    loop, so the first record that does not parse ends it with an
    exception ([None]). *)
Fixpoint timestamps_raising (rlist : list RefreshRecord) : option (list Z) :=
  match rlist with
  | [] => Some []
  | r :: rest =>
      match read_start r with
      | Instant dt =>
          match timestamps_raising rest with
          | Some l => Some (dt :: l)
          | None => None
          end
      | Absent => timestamps_raising rest
      | Malformed => None
      end
  end.

(** The block under [# frequency/interval based on refresh history]:
    the pair [(freq_per_hour, avg_interval_hours)], both [0] at the
    start and again after [except Exception]. *)
Definition interval_block (rlist : list RefreshRecord) : Q * Q :=
  match rlist with
  | [] => (0%Q, 0%Q)
  | _ =>
      match timestamps_raising rlist with
      | Some unsorted =>
          let timestamps := sort_stable Z.ltb unsorted in
          if (2 <=? List.length timestamps)%nat then
            let avg_interval_hours := mean_or_zero (deltas_of timestamps) in
            (freq_of avg_interval_hours, avg_interval_hours)
          else (0%Q, 0%Q)
      | None => (0%Q, 0%Q)
      end
  end.

(** *** Performance Aggregator *)

(** The body of the inner loop of [build_performance] for one model
    [m] of workspace [ws_id]. *)
Definition model_performance (ws_id : string) (ws : Workspace)
    (env module : string) (m : SemanticModel)
    (rlist : list RefreshRecord) : ModelPerformance :=
  let mid := mid_of m in
  let failures := List.length (filter (fun r => negb (is_completed r)) rlist) in
  let successes := List.length (filter is_completed rlist) in
  let durations := durations_of rlist in
  let avg_sec := mean_or_zero durations in
  let last_sec :=
    match rlist with
    | last :: _ => Py.or_zero (r_duration_seconds last)
    | [] => 0%Q
    end in
  let outlier := Qgt_bool avg_sec 0 && Qgt_bool last_sec (avg_sec * (11 # 10)) in
  let efficient :=
    (failures =? 0)%nat && Qgt_bool avg_sec 0 && Qle_bool avg_sec 300 in
  let '(freq_per_hour, avg_interval_hours) := interval_block rlist in
  {| workspace_id := ws_id;
     workspace_name := Py.or_default (w_name ws) ws_id;
     env := env;
     module := module;
     model_id := mid;
     model_name := Py.or_else (m_name m) mid;
     avg_sec := avg_sec;
     last_sec := last_sec;
     failures := failures;
     successes := successes;
     total := List.length rlist;
     freq_per_hour := freq_per_hour;
     avg_interval_hours := avg_interval_hours;
     last_status :=
       match rlist with
       | last :: _ => r_status last
       | [] => None
       end;
     outlier := outlier;
     efficient := efficient |}.

Definition build_performance (workspaces : list Workspace)
    (categories : dict string Category)
    (semantic_models : dict string (list SemanticModel))
    (refreshes_by_ws : dict string (dict string (list RefreshRecord)))
    (skip_empty : bool) : list ModelPerformance :=
  let ws_by_id := ws_by_id_of workspaces in
  flat_map
    (fun '(ws_id, models_list) =>
       let ws := match dict_get (Some ws_id) ws_by_id with
                 | Some w => w
                 | None => no_workspace
                 end in
       let cat := match dict_get ws_id categories with
                  | Some c => c
                  | None => no_category
                  end in
       let env := Py.upper (Py.or_default (c_env cat) "") in
       let module := Py.or_default (c_module cat) "Unassigned" in
       let refresh_map := match dict_get ws_id refreshes_by_ws with
                          | Some d => d
                          | None => []
                          end in
       flat_map
         (fun m =>
            let rlist := rlist_of refresh_map (mid_of m) in
            if skip_empty && match rlist with [] => true | _ => false end
            then []
            else [model_performance ws_id ws env module m rlist])
         models_list)
    semantic_models.

(** *** Summary Builder *)

(** The two tests of the inner loop of [build_summary]. *)
Definition summary_failed (rlist : list RefreshRecord) : bool :=
  match rlist with
  | latest :: _ => negb (is_completed latest)
  | [] => false
  end.

Definition summary_slow (rlist : list RefreshRecord) : bool :=
  match rlist with
  | latest :: _ =>
      match durations_of rlist with
      | [] => false
      | durations =>
          let avg := Py.mean durations in
          Qgt_bool (Py.or_zero (r_duration_seconds latest)) (avg * (11 # 10))
      end
  | [] => false
  end.

(** The loop over the models of one workspace: the names collected in
    [failed_models] and [slow_models]. *)
Definition workspace_stats (models : list SemanticModel)
    (refreshes : dict string (list RefreshRecord)) : WorkspaceStats :=
  let name_of m := Py.or_else (m_name m) (mid_of m) in
  let failed_models :=
    map name_of
      (filter (fun m => summary_failed (rlist_of refreshes (mid_of m))) models) in
  let slow_models :=
    map name_of
      (filter (fun m => summary_slow (rlist_of refreshes (mid_of m))) models) in
  {| model_count := List.length models;
     failed_count := List.length failed_models;
     slow_count := List.length slow_models;
     failed_models := failed_models;
     slow_models := slow_models |}.

(** [summary.setdefault(module, {}); summary[module].setdefault(env, []);
    summary[module][env].append(entry)] *)
Definition summary_add (module env : string) (entry : SummaryEntry)
    (summary : dict string (dict string (list SummaryEntry)))
    : dict string (dict string (list SummaryEntry)) :=
  let by_env := match dict_get module summary with
                | Some d => d
                | None => []
                end in
  let entries := match dict_get env by_env with
                 | Some l => l
                 | None => []
                 end in
  dict_set module (dict_set env (entries ++ [entry]) by_env) summary.

Definition build_summary (workspaces : list Workspace)
    (categories : dict string Category)
    (semantic_models : dict string (list SemanticModel))
    (refreshes_by_ws : dict string (dict string (list RefreshRecord)))
    : dict string (dict string (list SummaryEntry)) * dict string WorkspaceStats :=
  let ws_by_id := ws_by_id_of workspaces in
  fold_left
    (fun '(summary, ws_stats) '(ws_id, cat) =>
       match dict_get (Some ws_id) ws_by_id with
       | None => (summary, ws_stats)
       | Some ws =>
           let models := match dict_get ws_id semantic_models with
                         | Some l => l
                         | None => []
                         end in
           let refreshes := match dict_get ws_id refreshes_by_ws with
                            | Some d => d
                            | None => []
                            end in
           let stats := workspace_stats models refreshes in
           let module := Py.or_default (c_module cat) "Unassigned module" in
           let env := Py.or_default (c_env cat) "unspecified" in
           (summary_add module env
              {| e_id := ws_id; e_name := w_name ws;
                 e_models := models; e_stats := stats |} summary,
            dict_set ws_id stats ws_stats)
       end)
    categories ([], []).

(** *** Window Filter *)

(** The body of the innermost loop: the record is appended when its
    start is read and [dt >= cutoff]. *)
Definition in_window (cutoff : Z) (r : RefreshRecord) : bool :=
  match read_start r with
  | Instant dt => (cutoff <=? dt)%Z
  | Absent | Malformed => false
  end.

Definition filter_datasets (cutoff : Z)
    (datasets : dict string (list RefreshRecord))
    : dict string (list RefreshRecord) :=
  fold_left
    (fun filtered '(ds_id, rlist) =>
       dict_set ds_id (filter (in_window cutoff) rlist) filtered)
    datasets [].

Definition filter_refreshes_by_window
    (refreshes_by_ws : dict string (dict string (list RefreshRecord)))
    (cutoff : option Z) : dict string (dict string (list RefreshRecord)) :=
  match cutoff with
  | None => refreshes_by_ws
  | Some c =>
      fold_left
        (fun filtered '(ws_id, datasets) =>
           dict_set ws_id (filter_datasets c datasets) filtered)
        refreshes_by_ws []
  end.

(** *** Capacity Series Builder *)

(** [p.get("ts") or p.get("timestamp")] *)
Definition ts_of (p : CapacityPoint) : option string :=
  Py.or_else (p_ts p) (p_timestamp p).

(** [p.get("cu") if p.get("cu") is not None else p.get("value")] *)
Definition val_of (p : CapacityPoint) : option Q :=
  match p_cu p with
  | Some v => Some v
  | None => p_value p
  end.

(** The body of the loop: the point appended for [p], if any. *)
Definition capacity_point (cutoff : option Z) (p : CapacityPoint)
    : option Point :=
  match ts_of p, val_of p with
  | Some ts, Some val =>
      match parse_utc ts with
      | Some dt =>
          match cutoff with
          | None => Some {| x := ts; y := val |}
          | Some c =>
              if (c <=? dt)%Z then Some {| x := ts; y := val |} else None
          end
      | None => None
      end
  | _, _ => None
  end.

Fixpoint capacity_loop (cutoff : option Z) (capacity_metrics : list CapacityPoint)
    : list Point :=
  match capacity_metrics with
  | [] => []
  | p :: rest =>
      match capacity_point cutoff p with
      | Some pt => pt :: capacity_loop cutoff rest
      | None => capacity_loop cutoff rest
      end
  end.

(** [series.sort(key=lambda p: p["x"])] *)
Definition sort_by_x (series : list Point) : list Point :=
  sort_stable (fun a b => (x a <? x b)%string) series.

Definition build_capacity_series (capacity_metrics : list CapacityPoint)
    (cutoff : option Z) : list Point :=
  match capacity_metrics with
  | [] => []
  | _ => sort_by_x (capacity_loop cutoff capacity_metrics)
  end.

(** *** Performance Sets Orchestrator *)

(** The points of one dataset in the 24-hour history. *)
Fixpoint history_points (window_cutoff : Z) (rlist : list RefreshRecord)
    : list Point :=
  match rlist with
  | [] => []
  | r :: rest =>
      match read_start r with
      | Instant dt =>
          if (dt <? window_cutoff)%Z then history_points window_cutoff rest
          else {| x := Py.text (start_of r);
                  y := (Py.or_zero (r_duration_seconds r) / 60)%Q |}
               :: history_points window_cutoff rest
      | Absent | Malformed => history_points window_cutoff rest
      end
  end.

(** The series appended for one dataset, if any. *)
Definition history_series (window_cutoff : Z) (ws_name : option string)
    (env : string) (model_lookup : dict (option string) (option string))
    (ds_id : string) (rlist : list RefreshRecord) : list HistorySeries :=
  match rlist with
  | [] => []
  | _ =>
      match history_points window_cutoff rlist with
      | [] => []
      | points =>
          let model_name := match dict_get (Some ds_id) model_lookup with
                            | Some n => n
                            | None => Some ds_id
                            end in
          [ {| label := Py.str model_name ++ " (" ++ Py.str ws_name ++ ")";
               h_env := env;
               data := sort_by_x points |} ]
      end
  end.

Definition history24_of (window_cutoff : Z) (workspaces : list Workspace)
    (categories : dict string Category)
    (semantic_models : dict string (list SemanticModel))
    (filtered : dict string (dict string (list RefreshRecord)))
    : list HistorySeries :=
  let ws_lookup :=
    fold_left (fun d w => dict_set (w_id w) (w_name w) d) workspaces [] in
  let env_lookup :=
    fold_left
      (fun d '(ws_id, _) =>
         let cat := match dict_get ws_id categories with
                    | Some c => c
                    | None => no_category
                    end in
         dict_set ws_id (Py.upper (Py.or_default (c_env cat) "")) d)
      categories [] in
  flat_map
    (fun '(ws_id, ds_map) =>
       let ws_name := match dict_get (Some ws_id) ws_lookup with
                      | Some n => n
                      | None => Some ws_id
                      end in
       let env := match dict_get ws_id env_lookup with
                  | Some e => e
                  | None => ""
                  end in
       let model_lookup :=
         fold_left (fun d m => dict_set (mid_of m) (m_name m) d)
           (match dict_get ws_id semantic_models with
            | Some l => l
            | None => []
            end) [] in
       flat_map
         (fun '(ds_id, rlist) =>
            history_series window_cutoff ws_name env model_lookup ds_id rlist)
         ds_map)
    filtered.

(** The ranking [sorted([m for m in models if key(m) > 0], key=key,
    reverse=True)[:10]] for the two keys. *)
Definition top_slow_of (models : list ModelPerformance) : list ModelPerformance :=
  firstn 10
    (sort_stable (fun a b => Qgt_bool (avg_sec a) (avg_sec b))
       (filter (fun m => Qgt_bool (avg_sec m) 0) models)).

Definition top_fail_of (models : list ModelPerformance) : list ModelPerformance :=
  firstn 10
    (sort_stable (fun a b => (failures b <? failures a)%nat)
       (filter (fun m => (0 <? failures m)%nat) models)).

(** The body of the loop over the windows. *)
Definition performance_window (now : Z) (workspaces : list Workspace)
    (categories : dict string Category)
    (semantic_models : dict string (list SemanticModel))
    (refreshes_by_ws : dict string (dict string (list RefreshRecord)))
    (capacity_metrics : list CapacityPoint) (cutoff : option Z)
    : PerformanceWindow :=
  let filtered := filter_refreshes_by_window refreshes_by_ws cutoff in
  let models :=
    build_performance workspaces categories semantic_models filtered false in
  let window_cutoff := (now - 24 * usec_per_hour)%Z in
  {| models := models;
     top_slow := top_slow_of models;
     top_fail := top_fail_of models;
     efficient_models := filter efficient models;
     outliers := filter outlier models;
     history24 :=
       history24_of window_cutoff workspaces categories semantic_models filtered;
     capacity := build_capacity_series capacity_metrics cutoff |}.

(** [now] is the reading of [datetime.now(timezone.utc)]. *)
Definition performance_sets (now : Z) (workspaces : list Workspace)
    (categories : dict string Category)
    (semantic_models : dict string (list SemanticModel))
    (refreshes_by_ws : dict string (dict string (list RefreshRecord)))
    (capacity_metrics : list CapacityPoint)
    : dict string PerformanceWindow :=
  let windows :=
    [ ("24h", Some (now - 1 * usec_per_day)%Z);
      ("7d", Some (now - 7 * usec_per_day)%Z);
      ("all", None) ] in
  fold_left
    (fun result '(key, cutoff) =>
       dict_set key
         (performance_window now workspaces categories semantic_models
            refreshes_by_ws capacity_metrics cutoff)
         result)
    windows [].

End Engine.

(** ** The persistence store ([src/services/db.py])

    A table is the list of its rows; a query returns the rows it selects
    in the order of its [ORDER BY], and the Python code of each function
    works on that list. *)

(** A refresh as the connector returns it. *)
Record ApiRefresh := {
  a_startTime : option string;
  a_endTime : option string;
  a_status : option string
}.

(** A row of [refresh_history]; its primary key is
    [(workspace_id, dataset_id, start_time)]. *)
Record RefreshRow := {
  row_workspace_id : string;
  row_dataset_id : string;
  row_start_time : string;
  row_end_time : option string;
  row_status : option string;
  row_duration_seconds : option Q
}.

Section Store.
Variable fromisoformat : string -> option datetime.

(** [total_seconds()] of a difference of microseconds. *)
Definition seconds_of (usec : Z) : Q :=
  (inject_Z usec / inject_Z usec_per_second)%Q.

(** [end_dt - start_dt]: two naive values or two aware values subtract,
    a naive and an aware one raise [TypeError]. *)
Definition datetime_sub (end_dt start_dt : datetime) : option Z :=
  match utcoffset end_dt, utcoffset start_dt with
  | None, None => Some (wall end_dt - wall start_dt)%Z
  | Some oe, Some os => Some ((wall end_dt - oe) - (wall start_dt - os))%Z
  | _, _ => None
  end.

(** The [duration_seconds] that [save_refreshes] computes: [None] unless
    both times are present and the [try] block runs to its end. *)
Definition stored_duration (start_time end_time : option string) : option Q :=
  if Py.truthy start_time && Py.truthy end_time then
    match fromisoformat (Py.replace_Z (Py.text start_time)) with
    | Some start_dt =>
        match fromisoformat (Py.replace_Z (Py.text end_time)) with
        | Some end_dt =>
            match datetime_sub end_dt start_dt with
            | Some usec => Some (seconds_of usec)
            | None => None
            end
        | None => None
        end
    | None => None
    end
  else None.

(** The row that [save_refreshes] writes for [r]; [start_time] is
    [NOT NULL], so a refresh without [startTime] has none and the
    [INSERT] raises. *)
Definition row_of_refresh (workspace_id dataset_id : string) (r : ApiRefresh)
    : option RefreshRow :=
  match a_startTime r with
  | Some start_time =>
      Some {| row_workspace_id := workspace_id;
              row_dataset_id := dataset_id;
              row_start_time := start_time;
              row_end_time := a_endTime r;
              row_status := a_status r;
              row_duration_seconds :=
                stored_duration (a_startTime r) (a_endTime r) |}
  | None => None
  end.

Definition same_key (a b : RefreshRow) : bool :=
  (row_workspace_id a =? row_workspace_id b)
  && (row_dataset_id a =? row_dataset_id b)
  && (row_start_time a =? row_start_time b).

(** [INSERT OR REPLACE]: the row with the same primary key is deleted
    and the new row is inserted. *)
Definition insert_or_replace (row : RefreshRow) (table : list RefreshRow)
    : list RefreshRow :=
  filter (fun old => negb (same_key old row)) table ++ [row].

(** [save_refreshes]: the table after the commit, or [None] when an
    [INSERT] raises, which leaves the table as it was. *)
Fixpoint save_refreshes (table : list RefreshRow) (workspace_id dataset_id : string)
    (refreshes : list ApiRefresh) : option (list RefreshRow) :=
  match refreshes with
  | [] => Some table
  | r :: rest =>
      match row_of_refresh workspace_id dataset_id r with
      | Some row =>
          save_refreshes (insert_or_replace row table) workspace_id dataset_id rest
      | None => None
      end
  end.

End Store.

(** [data.setdefault(key, []).append(value)] *)
Definition setdefault_append {V} (key : string) (value : V)
    (data : dict string (list V)) : dict string (list V) :=
  match dict_get key data with
  | Some l => dict_set key (l ++ [value]) data
  | None => dict_set key [value] data
  end.

(** The loop of [load_refreshes], [load_semantic_models_by_workspace] and
    [load_reports_by_workspace] over the fetched rows. *)
Definition group_rows {V} (rows : list (string * V)) : dict string (list V) :=
  fold_left (fun data kv => setdefault_append (fst kv) (snd kv) data) rows [].

Definition record_of_row (row : RefreshRow) : RefreshRecord :=
  {| r_start_time := Some (row_start_time row);
     r_startTime := None;
     r_end_time := row_end_time row;
     r_status := row_status row;
     r_duration_seconds := row_duration_seconds row |}.

(** [SELECT ... WHERE workspace_id = ? ORDER BY start_time DESC]; rows
    with equal [start_time] are in the order of the table. *)
Definition select_refreshes (table : list RefreshRow) (workspace_id : string)
    : list RefreshRow :=
  sort_stable (fun a b => (row_start_time b <? row_start_time a))
    (filter (fun row => row_workspace_id row =? workspace_id) table).

Definition load_refreshes (table : list RefreshRow) (workspace_id : string)
    : dict string (list RefreshRecord) :=
  group_rows
    (map (fun row => (row_dataset_id row, record_of_row row))
       (select_refreshes table workspace_id)).

(** [{ws_id: load_refreshes(ws_id) for ws_id in ws_ids}] of the routes. *)
Definition preload_refreshes (table : list RefreshRow) (ws_ids : list string)
    : dict string (dict string (list RefreshRecord)) :=
  fold_left (fun d ws_id => dict_set ws_id (load_refreshes table ws_id) d)
    ws_ids [].

(** *** Semantic models and their soft deletion *)

(** A dataset as the connector returns it. *)
Record ApiModel := {
  am_id : option string;
  am_model_id : option string;
  am_name : option string;
  am_displayName : option string
}.

(** A row of [semantic_models] of one workspace, under its [model_id]. *)
Record ModelRow := {
  mr_name : string;
  mr_added_at : string;
  mr_deleted_at : option string
}.

(** [model.get("id") or model.get("model_id")] *)
Definition api_mid (model : ApiModel) : option string :=
  Py.or_else (am_id model) (am_model_id model).

(** [model.get("name") or model.get("displayName") or "(unnamed)"] *)
Definition api_name (model : ApiModel) : string :=
  Py.or_default (Py.or_else (am_name model) (am_displayName model)) "(unnamed)".

(** [INSERT ... VALUES (?, ?, ?, ?, NULL) ON CONFLICT(workspace_id,
    model_id) DO UPDATE SET name=excluded.name, deleted_at=NULL]: a row
    that exists keeps its [added_at]. *)
Definition upsert_model (mid name added_at : string)
    (table : dict string ModelRow) : dict string ModelRow :=
  match dict_get mid table with
  | Some row =>
      dict_set mid {| mr_name := name; mr_added_at := mr_added_at row;
                      mr_deleted_at := None |} table
  | None =>
      dict_set mid {| mr_name := name; mr_added_at := added_at;
                      mr_deleted_at := None |} table
  end.

(** [UPDATE semantic_models SET deleted_at = ? WHERE ... model_id = ?] *)
Definition mark_deleted (now mid : string) (table : dict string ModelRow)
    : dict string ModelRow :=
  match dict_get mid table with
  | Some row =>
      dict_set mid {| mr_name := mr_name row; mr_added_at := mr_added_at row;
                      mr_deleted_at := Some now |} table
  | None => table
  end.

(** The first loop of [update_semantic_models]: the table and
    [incoming_ids] after the models of the fetch. *)
Definition upsert_incoming (existing : dict string ModelRow) (now : string)
    (models : list ApiModel)
    : dict string ModelRow * list string :=
  fold_left
    (fun '(table, incoming_ids) model =>
       let mid := api_mid model in
       if Py.truthy mid then
         let added_at := match dict_get (Py.text mid) existing with
                         | Some current => mr_added_at current
                         | None => now
                         end in
         (upsert_model (Py.text mid) (api_name model) added_at table,
          Py.text mid :: incoming_ids)
       else (table, incoming_ids))
    models (existing, []).

(** [update_semantic_models] on the rows of one workspace; [now] is the
    reading of [datetime.utcnow().isoformat()].  The second loop runs
    over [set(existing.keys()) - incoming_ids]; its updates touch
    distinct rows, so their order does not matter. *)
Definition update_semantic_models (existing : dict string ModelRow)
    (now : string) (models : list ApiModel) : dict string ModelRow :=
  let '(table, incoming_ids) := upsert_incoming existing now models in
  fold_left
    (fun table kv =>
       if existsb (String.eqb (fst kv)) incoming_ids then table
       else
         match mr_deleted_at (snd kv) with
         | None => mark_deleted now (fst kv) table
         | Some _ => table
         end)
    existing table.

(** *** Categories *)

(** An item of the payload of [/categorize] and [/categorize/bulk]. *)
Record CategoryItem := {
  i_id : option string;
  i_env : option string;
  i_module : option string
}.

(** [env in {"dev", "uat", "prod"}] *)
Definition valid_env (env : string) : bool :=
  (env =? "dev") || (env =? "uat") || (env =? "prod").

(** [upsert_category] followed by [load_categories]: the row of the
    workspace holds the new environment and module. *)
Definition upsert_category (workspace_id env : string) (module : option string)
    (categories : dict string Category) : dict string Category :=
  dict_set workspace_id {| c_env := Some env; c_module := module |} categories.

(** [categorize_bulk]: the identifiers in [updated] and the categories
    of the response. *)
Definition categorize_bulk (categories : dict string Category)
    (items : list CategoryItem) : list string * dict string Category :=
  fold_left
    (fun '(updated, table) item =>
       let wsid := i_id item in
       let env := Py.lower (Py.or_default (i_env item) "") in
       let module := Py.or_default (i_module item) "" in
       if negb (Py.truthy wsid) || negb (valid_env env) then (updated, table)
       else (updated ++ [Py.text wsid],
             upsert_category (Py.text wsid) env (Some module) table))
    items ([], categories).

(** The answer of [categorize_api]: status 400, or the stored category
    and the categories. *)
Inductive categorize_answer :=
| BadRequest
| Categorized (category : option Category) (categories : dict string Category).

Definition categorize_api (categories : dict string Category)
    (payload : option CategoryItem) : categorize_answer :=
  match payload with
  | None => BadRequest
  | Some item =>
      let workspace_id := i_id item in
      let env := Py.lower (Py.or_default (i_env item) "") in
      if negb (Py.truthy workspace_id) || negb (valid_env env) then BadRequest
      else
        let table :=
          upsert_category (Py.text workspace_id) env (i_module item) categories in
        Categorized (dict_get (Py.text workspace_id) table) table
  end.

(** ** The connector cache ([src/services/pbi.py]) *)

(** [workspace_cache]: the cached list and the time it expires. *)
Record WorkspaceCache := {
  cache_data : option (list Workspace);
  cache_expires : Q
}.

(** What [fetch_workspaces] does: return the list, or raise. *)
Inductive fetch_result :=
| Raised
| Returned (data : option (list Workspace)).

(** [workspace_cache["data"] is not None and now < workspace_cache["expires"]] *)
Definition is_fresh (cache : WorkspaceCache) (now : Q) : bool :=
  match cache_data cache with
  | Some _ => Qgt_bool (cache_expires cache) now
  | None => false
  end.

(** [fetch_workspaces].  [now] is the first reading of [time.time()];
    [script] is what running the script and reading ["workspaces"] out
    of its output gives, [None] when one of these steps raises;
    [after] is the reading of [time.time()] when the list is stored. *)
Definition fetch_workspaces (cache_seconds : Z) (cache : WorkspaceCache)
    (now : Q) (script : option (option (list Workspace))) (after : Q)
    : fetch_result * WorkspaceCache :=
  if is_fresh cache now then (Returned (cache_data cache), cache)
  else
    match script with
    | Some fetched =>
        (Returned fetched,
         {| cache_data := fetched;
            cache_expires := (after + inject_Z cache_seconds)%Q |})
    | None => (Raised, cache)
    end.

(** ** Scheduling a workspace ([set_workspace_schedule]) *)

(** A call of the connector or of the store: it returns, or raises with
    a message. *)
Inductive outcome :=
| Done
| Failed (message : string).

(** [try: call except Exception: pass] *)
Definition swallowed (call : outcome) : outcome := Done.

(** Sequence of two calls inside one [try]. *)
Definition and_then (first second : outcome) : outcome :=
  match first with
  | Done => second
  | Failed message => Failed message
  end.

(** The loop over the models of the workspace; [takeover], [update] and
    [save] are the three calls for a model.  The loop returns [updated]
    and [failed]. *)
Definition set_workspace_schedule (semantic_models : list SemanticModel)
    (takeover update save : string -> outcome)
    : list string * dict string string :=
  fold_left
    (fun '(updated, failed) m =>
       let mid := mid_of m in
       if Py.truthy mid then
         match and_then (swallowed (takeover (Py.text mid)))
                 (and_then (update (Py.text mid))
                    (swallowed (save (Py.text mid)))) with
         | Done => (updated ++ [Py.text mid], failed)
         | Failed message => (updated, dict_set (Py.text mid) message failed)
         end
       else (updated, failed))
    semantic_models ([], []).

(** ** Vocabulary of the properties *)

(** Mapping the values of a dictionary, keys and order kept. *)
Definition dict_map {K V W : Type} (f : V -> W) (d : dict K V) : dict K W :=
  map (fun kv => (fst kv, f (snd kv))) d.

(** Filling an empty dictionary with the items of [d], in order. *)
Definition rebuild {K V : Type} `{PyKey K} (d : dict K V) : dict K V :=
  fold_left (fun acc kv => dict_set (fst kv) (snd kv) acc) d [].

(** [a] may stand in front of [b] in a list sorted by [before]. *)
Definition in_order {A : Type} (before : A -> A -> bool) (a b : A) : Prop :=
  before b a = false.

(** The records of [output] that satisfy [tie] are, in the same order,
    the first records of [input] that satisfy it. *)
Definition keeps_input_order {A} (tie : A -> bool) (input output : list A) : Prop :=
  exists rest, filter tie input = filter tie output ++ rest.

(** The records whose ranking key is [k]. *)
Definition tied_avg_sec (k : Q) (m : ModelPerformance) : bool :=
  Qeq_bool (avg_sec m) k.

Definition tied_failures (k : nat) (m : ModelPerformance) : bool :=
  (failures m =? k)%nat.

(** A refresh mapping as Python has it: a dictionary of dictionaries. *)
Definition well_formed (refreshes_by_ws : dict string (dict string (list RefreshRecord)))
    : Prop :=
  is_dict refreshes_by_ws /\ Forall (fun kv => is_dict (snd kv)) refreshes_by_ws.

(** Ascending in the order of Python strings. *)
Definition ascending_by_x (series : list Point) : Prop :=
  StronglySorted (fun a b => (x a <=? x b) = true) series.

(** Every refresh record of the input, over all workspaces and
    datasets. *)
Definition records_of
    (refreshes_by_ws : dict string (dict string (list RefreshRecord)))
    : list RefreshRecord :=
  flat_map (fun kv => flat_map snd (snd kv)) refreshes_by_ws.

(** The samples the contract retains: a timestamp and a value are
    present, the timestamp parses, and its instant is not before the
    cutoff when there is one. *)
Definition retained (fromisoformat : string -> option datetime)
    (cutoff : option Z) (p : CapacityPoint) : bool :=
  match ts_of p, val_of p with
  | Some ts, Some _ =>
      match parse_utc fromisoformat ts, cutoff with
      | Some dt, Some c => (c <=? dt)%Z
      | Some _, None => true
      | None, _ => false
      end
  | _, _ => false
  end.

(** The plot point of a retained sample: its original timestamp string
    and its value. *)
Definition point_of (p : CapacityPoint) : Point :=
  {| x := Py.text (ts_of p);
     y := match val_of p with
          | Some v => v
          | None => 0%Q
          end |}.

(** The records whose start is absent or parses. *)
Definition well_read (fromisoformat : string -> option datetime)
    (r : RefreshRecord) : bool :=
  match read_start fromisoformat r with
  | Malformed => false
  | Absent | Instant _ => true
  end.

(** The record [a] is the record of the same model as [b] over fewer
    refresh records: no count is larger. *)
Definition narrower_record (a b : ModelPerformance) : Prop :=
  workspace_id a = workspace_id b /\ model_id a = model_id b
  /\ (total a <= total b)%nat /\ (failures a <= failures b)%nat
  /\ (successes a <= successes b)%nat.

(** The workspace [ws_id] is in the live workspace list. *)
Definition is_live (workspaces : list Workspace) (ws_id : string) : bool :=
  existsb (fun w => key_eqb (w_id w) (Some ws_id)) workspaces.

(** The workspace entries of a summary, over all modules and
    environments. *)
Definition entries_of (summary : dict string (dict string (list SummaryEntry)))
    : list SummaryEntry :=
  flat_map (fun kv => flat_map (fun ev => snd ev) (snd kv)) summary.

(** [d.get(k, [])] and [d.get(k, {})] *)
Definition get_or_empty {V} (k : string) (d : dict string (list V)) : list V :=
  match dict_get k d with
  | Some l => l
  | None => []
  end.

(** The statistics [build_summary] computes for workspace [ws_id]. *)
Definition stats_of (semantic_models : dict string (list SemanticModel))
    (refreshes_by_ws : dict string (dict string (list RefreshRecord)))
    (ws_id : string) : WorkspaceStats :=
  workspace_stats
    match dict_get ws_id semantic_models with
    | Some l => l
    | None => []
    end
    match dict_get ws_id refreshes_by_ws with
    | Some d => d
    | None => []
    end.

(** The body of the loop of [build_summary] over [categories.items()]. *)
Definition summary_step (workspaces : list Workspace)
    (semantic_models : dict string (list SemanticModel))
    (refreshes_by_ws : dict string (dict string (list RefreshRecord)))
    (acc : dict string (dict string (list SummaryEntry)) * dict string WorkspaceStats)
    (item : string * Category)
    : dict string (dict string (list SummaryEntry)) * dict string WorkspaceStats :=
  match dict_get (Some (fst item)) (ws_by_id_of workspaces) with
  | None => acc
  | Some ws =>
      (summary_add (Py.or_default (c_module (snd item)) "Unassigned module")
         (Py.or_default (c_env (snd item)) "unspecified")
         {| e_id := fst item; e_name := w_name ws;
            e_models := match dict_get (fst item) semantic_models with
                        | Some l => l
                        | None => []
                        end;
            e_stats := stats_of semantic_models refreshes_by_ws (fst item) |}
         (fst acc),
       dict_set (fst item) (stats_of semantic_models refreshes_by_ws (fst item))
         (snd acc))
  end.

(** Every entry of the summary stands under the module and the
    environment of a category of its workspace. *)
Definition placed_by (categories : dict string Category)
    (summary : dict string (dict string (list SummaryEntry))) : Prop :=
  forall module by_env env entries entry,
    In (module, by_env) summary -> In (env, entries) by_env ->
    In entry entries ->
    exists cat,
      In (e_id entry, cat) categories
      /\ module = Py.or_default (c_module cat) "Unassigned module"
      /\ env = Py.or_default (c_env cat) "unspecified".

(** The primary key of a row of [refresh_history]. *)
Definition row_key (row : RefreshRow) : string * string * string :=
  (row_workspace_id row, row_dataset_id row, row_start_time row).


(** An item that [categorize_bulk] and [categorize_api] accept: an
    identifier and, lowered, one of the three environments. *)
Definition item_ok (item : CategoryItem) : bool :=
  Py.truthy (i_id item) && valid_env (Py.lower (Py.or_default (i_env item) "")).

(** The category has one of the three environments. *)
Definition env_is_valid (cat : Category) : Prop :=
  exists env, c_env cat = Some env /\ valid_env env = true.

(** The last model of the fetch with identifier [mid]. *)
Definition fetched_as (models : list ApiModel) (mid : string) : option ApiModel :=
  find (fun model => Py.truthy (api_mid model) && (Py.text (api_mid model) =? mid))
    (rev models).

(** The models of the workspace that have an identifier, and those whose
    schedule update returns. *)
Definition scheduled_ids (semantic_models : list SemanticModel) : list string :=
  map (fun m => Py.text (mid_of m))
    (filter (fun m => Py.truthy (mid_of m)) semantic_models).

(** The first loop of [update_semantic_models], one model at a time. *)
Definition incoming_step (existing : dict string ModelRow) (now : string)
    (acc : dict string ModelRow * list string) (model : ApiModel)
    : dict string ModelRow * list string :=
  if Py.truthy (api_mid model) then
    (upsert_model (Py.text (api_mid model)) (api_name model)
       match dict_get (Py.text (api_mid model)) existing with
       | Some current => mr_added_at current
       | None => now
       end (fst acc),
     Py.text (api_mid model) :: snd acc)
  else acc.

(** The second loop of [update_semantic_models], one row of [existing]
    at a time. *)
Definition deletion_step (now : string) (incoming_ids : list string)
    (table : dict string ModelRow) (kv : string * ModelRow)
    : dict string ModelRow :=
  if existsb (String.eqb (fst kv)) incoming_ids then table
  else
    match mr_deleted_at (snd kv) with
    | None => mark_deleted now (fst kv) table
    | Some _ => table
    end.

(** ** Concrete records

    Rows as [load_refreshes] returns them, and a model with an
    identifier and a name. *)

Module Sample.

Definition refresh (start : string) (status : string) (duration : option Q)
    : RefreshRecord :=
  {| r_start_time := Some start; r_startTime := None; r_end_time := None;
     r_status := Some status; r_duration_seconds := duration |}.

Definition model (mid name : string) : SemanticModel :=
  {| m_model_id := Some mid; m_id := None; m_name := Some name |}.

Definition workspace (wid name : string) : Workspace :=
  {| w_id := Some wid; w_name := Some name |}.

Definition prod_finance : Category :=
  {| c_env := Some "prod"; c_module := Some "Finance" |}.


End Sample.

(** * Properties *)

(** ** Runs of the model *)

Example replace_Z_run :
  Py.replace_Z "2024-01-01T00:00:00Z" = "2024-01-01T00:00:00+00:00".
Proof. reflexivity. Qed.

Example parse_utc_offset_run :
  parse_utc Iso.fromisoformat "2024-01-01T05:30:00+05:30"
  = parse_utc Iso.fromisoformat "2024-01-01T00:00:00Z".
Proof. reflexivity. Qed.

Example parse_utc_naive_run :
  parse_utc Iso.fromisoformat "1970-01-02 00:00:00" = Some usec_per_day.
Proof. reflexivity. Qed.

Example parse_utc_malformed_run :
  parse_utc Iso.fromisoformat "2023-02-29T00:00:00" = None
  /\ parse_utc Iso.fromisoformat "yesterday" = None.
Proof. split; reflexivity. Qed.

(** The scenario of one workspace and one model whose latest refresh
    failed after 400 seconds, the one before taking 200: the model is
    failed and slow (400 > 300 * 1.1). *)
Example build_summary_run :
  snd (build_summary
         [Sample.workspace "ws1" "Sales"] [("ws1", Sample.prod_finance)]
         [("ws1", [Sample.model "m1" "Orders"])]
         [("ws1", [("m1", [Sample.refresh "2024-01-02T00:00:00Z" "Failed"
                             (Some 400%Q);
                           Sample.refresh "2024-01-01T00:00:00Z" "Completed"
                             (Some 200%Q)])])])
  = [("ws1", {| model_count := 1; failed_count := 1; slow_count := 1;
                failed_models := [Some "Orders"];
                slow_models := [Some "Orders"] |})].
Proof. reflexivity. Qed.

Example filter_refreshes_by_window_run :
  filter_refreshes_by_window Iso.fromisoformat
    [("ws1", [("m1", [Sample.refresh "2024-01-02T00:00:00Z" "Completed" None;
                      Sample.refresh "" "Completed" None;
                      Sample.refresh "yesterday" "Completed" None;
                      Sample.refresh "2023-12-31T00:00:00Z" "Completed" None])])]
    (Some 1704067200000000%Z)
  = [("ws1", [("m1", [Sample.refresh "2024-01-02T00:00:00Z" "Completed" None])])].
Proof. reflexivity. Qed.

Example build_capacity_series_run :
  build_capacity_series Iso.fromisoformat
    [ {| p_ts := Some "2024-01-03T00:00:00Z"; p_timestamp := None;
         p_cu := None; p_value := Some 7%Q |};
      {| p_ts := Some "2024-01-02T00:00:00Z"; p_timestamp := None;
         p_cu := Some 0%Q; p_value := Some 9%Q |};
      {| p_ts := Some "2024-01-04T00:00:00Z"; p_timestamp := None;
         p_cu := None; p_value := None |};
      {| p_ts := None; p_timestamp := Some "soon";
         p_cu := Some 1%Q; p_value := None |};
      {| p_ts := Some "2023-12-01T00:00:00Z"; p_timestamp := None;
         p_cu := Some 5%Q; p_value := None |} ]
    (Some 1704067200000000%Z)
  = [ {| x := "2024-01-02T00:00:00Z"; y := 0%Q |};
      {| x := "2024-01-03T00:00:00Z"; y := 7%Q |} ].
Proof. reflexivity. Qed.

(** Descending and stable: the two records of key 5 keep their order. *)
Example sort_stable_descending_run :
  sort_stable (fun a b => (snd b <? snd a)%nat)
    [("a", 5); ("b", 7); ("c", 5); ("d", 1)]%nat
  = [("b", 7); ("a", 5); ("c", 5); ("d", 1)]%nat.
Proof. reflexivity. Qed.

Lemma Qgt_bool_iff (a b : Q) : Qgt_bool a b = true <-> (b < a)%Q.
Proof.
  unfold Qgt_bool. rewrite negb_true_iff. split.
  - intros E. apply Qnot_le_lt. intros L.
    apply Qle_bool_iff in L. congruence.
  - intros L. destruct (Qle_bool a b) eqn:E; [|reflexivity].
    apply Qle_bool_iff in E. exfalso. exact (Qlt_not_le _ _ L E).
Qed.


(** ** Dictionaries *)

Section DictFacts.
Context {K : Type} `{PyKey K}.

Lemma key_eqb_refl (k : K) : key_eqb k k = true.
Proof. now apply key_eqb_eq. Qed.

Lemma key_eqb_neq (a b : K) : key_eqb a b = false <-> a <> b.
Proof.
  split.
  - intros E Heq. apply key_eqb_eq in Heq. congruence.
  - intros Hne. destruct (key_eqb a b) eqn:E; [|reflexivity].
    apply key_eqb_eq in E. contradiction.
Qed.


Lemma keys_dict_map {V W} (f : V -> W) (d : dict K V) :
  keys (dict_map f d) = keys d.
Proof.
  unfold keys, dict_map. rewrite map_map. reflexivity.
Qed.

Lemma dict_map_map {V W X} (f : V -> W) (g : W -> X) (d : dict K V) :
  dict_map g (dict_map f d) = dict_map (fun v => g (f v)) d.
Proof.
  unfold dict_map. rewrite map_map. reflexivity.
Qed.

Lemma dict_map_ext {V W} (f g : V -> W) (d : dict K V) :
  (forall v, f v = g v) -> dict_map f d = dict_map g d.
Proof.
  intros E. unfold dict_map. apply map_ext. intros [k v]. simpl. now rewrite E.
Qed.

Lemma dict_set_fresh {V} (k : K) (v : V) (d : dict K V) :
  ~ In k (keys d) -> dict_set k v d = d ++ [(k, v)].
Proof.
  induction d as [|[k' v'] d IH]; simpl; intros Hk; [reflexivity|].
  destruct (key_eqb k' k) eqn:E.
  - apply key_eqb_eq in E. exfalso. apply Hk. now left.
  - rewrite IH; [reflexivity|]. intros Hin. apply Hk. now right.
Qed.

Lemma keys_dict_set {V} (k : K) (v : V) (d : dict K V) :
  keys (dict_set k v d) = if existsb (key_eqb k) (keys d) then keys d
                          else keys d ++ [k].
Proof.
  induction d as [|[k' v'] d IH]; simpl; [reflexivity|].
  destruct (key_eqb k' k) eqn:E.
  - assert (E' : key_eqb k k' = true).
    { apply key_eqb_eq. apply key_eqb_eq in E. congruence. }
    rewrite E'. reflexivity.
  - assert (E' : key_eqb k k' = false).
    { apply key_eqb_neq. apply key_eqb_neq in E. congruence. }
    rewrite E'. simpl. rewrite IH.
    destruct (existsb (key_eqb k) (keys d)); reflexivity.
Qed.

Lemma existsb_key_In (k : K) (l : list K) :
  existsb (key_eqb k) l = true <-> In k l.
Proof.
  rewrite existsb_exists. split.
  - intros [k' [Hin E]]. apply key_eqb_eq in E. now subst.
  - intros Hin. exists k. split; [assumption|apply key_eqb_refl].
Qed.

Lemma is_dict_dict_set {V} (k : K) (v : V) (d : dict K V) :
  is_dict d -> is_dict (dict_set k v d).
Proof.
  unfold is_dict. intros Hd. rewrite keys_dict_set.
  destruct (existsb (key_eqb k) (keys d)) eqn:E; [assumption|].
  apply NoDup_app; [assumption|repeat constructor; simpl; tauto|].
  simpl. intros k' Hin [E'|[]]. subst k'.
  apply existsb_key_In in Hin. congruence.
Qed.

Lemma is_dict_fold_set {V} (l : list (K * V)) (acc : dict K V) :
  is_dict acc ->
  is_dict (fold_left (fun a kv => dict_set (fst kv) (snd kv) a) l acc).
Proof.
  revert acc. induction l as [|[k v] l IH]; simpl; intros acc Hacc.
  - assumption.
  - apply IH. now apply is_dict_dict_set.
Qed.

Lemma is_dict_rebuild {V} (d : dict K V) : is_dict (rebuild d).
Proof. apply is_dict_fold_set. constructor. Qed.

Lemma fold_set_is_dict {V} (l : list (K * V)) (acc : dict K V) :
  is_dict (acc ++ l) ->
  fold_left (fun a kv => dict_set (fst kv) (snd kv) a) l acc = acc ++ l.
Proof.
  revert acc. induction l as [|[k v] l IH]; simpl; intros acc Hd.
  - now rewrite app_nil_r.
  - assert (Hfresh : ~ In k (keys acc)).
    { unfold is_dict, keys in Hd. rewrite map_app in Hd. simpl in Hd.
      apply NoDup_remove_2 in Hd. intros Hin. apply Hd.
      apply in_or_app. now left. }
    rewrite (dict_set_fresh k v acc Hfresh).
    rewrite IH; rewrite <- app_assoc; simpl; [reflexivity|assumption].
Qed.

(** The items of a dictionary rebuild that dictionary. *)
Lemma rebuild_is_dict {V} (d : dict K V) : is_dict d -> rebuild d = d.
Proof. intros Hd. unfold rebuild. now rewrite fold_set_is_dict. Qed.

Lemma dict_set_dict_map {V W} (f : V -> W) (k : K) (v : V) (d : dict K V) :
  dict_set k (f v) (dict_map f d) = dict_map f (dict_set k v d).
Proof.
  induction d as [|[k' v'] d IH]; simpl; [reflexivity|].
  destruct (key_eqb k' k); simpl; [reflexivity|]. now rewrite IH.
Qed.

(** A loop that stores [f v] under every key of [l] maps [f] over the
    rebuilt dictionary. *)
Lemma fold_set_dict_map {V W} (f : V -> W) (l : list (K * V)) (acc : dict K V) :
  fold_left (fun a kv => dict_set (fst kv) (f (snd kv)) a) l (dict_map f acc)
  = dict_map f (fold_left (fun a kv => dict_set (fst kv) (snd kv) a) l acc).
Proof.
  revert acc. induction l as [|[k v] l IH]; simpl; intros acc; [reflexivity|].
  rewrite dict_set_dict_map. apply IH.
Qed.

Lemma rebuild_dict_map {V W} (f : V -> W) (d : dict K V) :
  rebuild (dict_map f d) = dict_map f (rebuild d).
Proof.
  unfold rebuild. change (@nil (K * W)) with (dict_map f (@nil (K * V))).
  generalize (@nil (K * V)). induction d as [|[k v] d IH]; simpl; intros acc.
  - reflexivity.
  - rewrite dict_set_dict_map. apply IH.
Qed.

Lemma rebuild_rebuild {V} (d : dict K V) : rebuild (rebuild d) = rebuild d.
Proof. apply rebuild_is_dict, is_dict_rebuild. Qed.

End DictFacts.

(** ** Stable sorting *)

Section StableSortFacts.
Context {A : Type} (before : A -> A -> bool).


Lemma insert_stable_perm (a : A) (l : list A) :
  Permutation (insert_stable before a l) (a :: l).
Proof.
  induction l as [|b l IH]; simpl; [reflexivity|].
  destruct (before b a); [|reflexivity].
  rewrite IH. apply perm_swap.
Qed.

Lemma sort_stable_perm (l : list A) : Permutation (sort_stable before l) l.
Proof.
  induction l as [|a l IH]; simpl; [reflexivity|].
  rewrite insert_stable_perm. now constructor.
Qed.

Lemma sort_stable_length (l : list A) :
  List.length (sort_stable before l) = List.length l.
Proof. apply Permutation_length, sort_stable_perm. Qed.

Lemma sort_stable_In (a : A) (l : list A) :
  In a (sort_stable before l) <-> In a l.
Proof.
  split; apply Permutation_in;
    [apply sort_stable_perm | apply Permutation_sym, sort_stable_perm].
Qed.

(** An element overtakes only elements that are strictly ahead of it,
    so a class [p] of elements none of which is strictly ahead of
    another keeps its order. *)
Lemma insert_stable_filter (p : A -> bool) (a : A) (l : list A) :
  (forall b, p a = true -> p b = true -> before b a = false) ->
  filter p (insert_stable before a l) = filter p (a :: l).
Proof.
  intros Hp. induction l as [|b l IH]; [reflexivity|].
  simpl insert_stable. destruct (before b a) eqn:E; [|reflexivity].
  simpl in *. rewrite IH.
  destruct (p a) eqn:Ea; [|reflexivity].
  destruct (p b) eqn:Eb; [|reflexivity].
  specialize (Hp b eq_refl Eb). congruence.
Qed.

Lemma sort_stable_filter (p : A -> bool) (l : list A) :
  (forall a b, p a = true -> p b = true -> before b a = false) ->
  filter p (sort_stable before l) = filter p l.
Proof.
  intros Hp. induction l as [|a l IH]; [reflexivity|].
  simpl sort_stable. rewrite insert_stable_filter.
  - simpl. now rewrite IH.
  - intros b. apply Hp.
Qed.

Hypothesis before_asym : forall a b, before a b = true -> before b a = false.
Hypothesis in_order_trans :
  forall a b c, in_order before a b -> in_order before b c -> in_order before a c.

Lemma insert_stable_sorted (a : A) (l : list A) :
  StronglySorted (in_order before) l ->
  StronglySorted (in_order before) (insert_stable before a l).
Proof.
  induction l as [|b l IH]; simpl; intros Hs.
  - repeat constructor.
  - inversion Hs as [|? ? Hl Hb]; subst.
    destruct (before b a) eqn:E.
    + constructor; [now apply IH|].
      eapply Permutation_Forall; [apply Permutation_sym, insert_stable_perm|].
      constructor; [now apply before_asym|assumption].
    + constructor; [assumption|].
      constructor; [exact E|].
      eapply Forall_impl; [|exact Hb]. intros c Hc.
      now apply in_order_trans with b.
Qed.

Lemma sort_stable_sorted (l : list A) :
  StronglySorted (in_order before) (sort_stable before l).
Proof.
  induction l as [|a l IH]; simpl; [constructor|].
  now apply insert_stable_sorted.
Qed.

End StableSortFacts.

Lemma StronglySorted_firstn {A} (R : A -> A -> Prop) (n : nat) (l : list A) :
  StronglySorted R l -> StronglySorted R (firstn n l).
Proof.
  revert n. induction l as [|a l IH]; intros [|n] Hs; simpl; try constructor.
  - inversion Hs; subst. now apply IH.
  - inversion Hs as [|? ? _ Hf]; subst.
    rewrite Forall_forall in *. intros b Hb. apply Hf.
    rewrite <- (firstn_skipn n l). apply in_or_app. now left.
Qed.

Lemma filter_firstn_prefix {A} (p : A -> bool) (n : nat) (l : list A) :
  exists rest, filter p l = filter p (firstn n l) ++ rest.
Proof.
  exists (filter p (skipn n l)).
  rewrite <- filter_app, firstn_skipn. reflexivity.
Qed.


(** ** Performance Aggregator *)

Section AggregatorFacts.
Variable fromisoformat : string -> option datetime.

(** Every record of [build_performance] is the record of one model and
    one refresh list. *)
Lemma build_performance_Forall (P : ModelPerformance -> Prop)
    workspaces categories semantic_models refreshes_by_ws skip_empty :
  (forall ws_id ws env module m rlist,
      P (model_performance fromisoformat ws_id ws env module m rlist)) ->
  Forall P (build_performance fromisoformat workspaces categories
              semantic_models refreshes_by_ws skip_empty).
Proof.
  intros HP. apply Forall_forall. intros mp Hin.
  unfold build_performance in Hin.
  apply in_flat_map in Hin. destruct Hin as [[ws_id models_list] [_ Hin]].
  apply in_flat_map in Hin. destruct Hin as [m [_ Hin]].
  destruct (skip_empty && _); simpl in Hin; [contradiction|].
  destruct Hin as [<-|[]]. apply HP.
Qed.

Lemma filter_complement_length {A} (p : A -> bool) (l : list A) :
  (List.length (filter (fun a => negb (p a)) l) + List.length (filter p l)
   = List.length l)%nat.
Proof.
  induction l as [|a l IH]; simpl; [reflexivity|].
  destruct (p a); simpl; lia.
Qed.

Lemma failures_zero_all_completed (rlist : list RefreshRecord) :
  List.length (filter (fun r => negb (is_completed r)) rlist) = 0%nat ->
  Forall (fun r => is_completed r = true) rlist.
Proof.
  induction rlist as [|r rlist IH]; simpl; intros E; [constructor|].
  destruct (is_completed r) eqn:Er; simpl in E; [|discriminate].
  constructor; [assumption|now apply IH].
Qed.

Lemma is_completed_status (r : RefreshRecord) :
  is_completed r = true ->
  exists s, r_status r = Some s /\ Py.lower s = "completed".
Proof.
  unfold is_completed, Py.or_default. intros E.
  destruct (r_status r) as [s|]; [|discriminate].
  exists s. split; [reflexivity|].
  destruct (s =? "") eqn:Es; [discriminate|].
  now apply String.eqb_eq.
Qed.

Lemma interval_block_fields ws_id ws env module m rlist :
  let mp := model_performance fromisoformat ws_id ws env module m rlist in
  (freq_per_hour mp, avg_interval_hours mp) = interval_block fromisoformat rlist.
Proof.
  unfold model_performance.
  destruct (interval_block fromisoformat rlist) as [fq av]. reflexivity.
Qed.

Lemma outlier_field ws_id ws env module m rlist :
  let mp := model_performance fromisoformat ws_id ws env module m rlist in
  outlier mp = Qgt_bool (avg_sec mp) 0
               && Qgt_bool (last_sec mp) (avg_sec mp * (11 # 10)).
Proof.
  unfold model_performance.
  destruct (interval_block fromisoformat rlist) as [fq av]. reflexivity.
Qed.

Lemma efficient_field ws_id ws env module m rlist :
  let mp := model_performance fromisoformat ws_id ws env module m rlist in
  efficient mp = (failures mp =? 0)%nat && Qgt_bool (avg_sec mp) 0
                 && Qle_bool (avg_sec mp) 300.
Proof.
  unfold model_performance.
  destruct (interval_block fromisoformat rlist) as [fq av]. reflexivity.
Qed.

Lemma counts_fields ws_id ws env module m rlist :
  let mp := model_performance fromisoformat ws_id ws env module m rlist in
  failures mp = List.length (filter (fun r => negb (is_completed r)) rlist)
  /\ successes mp = List.length (filter is_completed rlist)
  /\ total mp = List.length rlist
  /\ avg_sec mp = mean_or_zero (durations_of rlist)
  /\ last_status mp = match rlist with
                      | last :: _ => r_status last
                      | [] => None
                      end.
Proof.
  unfold model_performance.
  destruct (interval_block fromisoformat rlist) as [fq av]. simpl. tauto.
Qed.

End AggregatorFacts.

(** ** The three windows *)

Section WindowFacts.
Variable fromisoformat : string -> option datetime.

(** The loop over [windows.items()] stores one window under each of
    the three keys. *)
Lemma performance_sets_windows now workspaces categories semantic_models
    refreshes_by_ws capacity_metrics :
  performance_sets fromisoformat now workspaces categories semantic_models
    refreshes_by_ws capacity_metrics
  = [ ("24h", performance_window fromisoformat now workspaces categories
                semantic_models refreshes_by_ws capacity_metrics
                (Some (now - 1 * usec_per_day)%Z));
      ("7d", performance_window fromisoformat now workspaces categories
               semantic_models refreshes_by_ws capacity_metrics
               (Some (now - 7 * usec_per_day)%Z));
      ("all", performance_window fromisoformat now workspaces categories
                semantic_models refreshes_by_ws capacity_metrics None) ].
Proof. reflexivity. Qed.

(** A property of every window of every cutoff holds of the three
    windows of [performance_sets]. *)
Lemma performance_sets_Forall (P : PerformanceWindow -> Prop) now workspaces
    categories semantic_models refreshes_by_ws capacity_metrics :
  (forall cutoff,
      P (performance_window fromisoformat now workspaces categories
           semantic_models refreshes_by_ws capacity_metrics cutoff)) ->
  Forall (fun kw => P (snd kw))
    (performance_sets fromisoformat now workspaces categories semantic_models
       refreshes_by_ws capacity_metrics).
Proof.
  intros HP. rewrite performance_sets_windows.
  repeat constructor; simpl; apply HP.
Qed.

Lemma In_firstn {A} (n : nat) (a : A) (l : list A) :
  In a (firstn n l) -> In a l.
Proof.
  intros Hin. rewrite <- (firstn_skipn n l). apply in_or_app. now left.
Qed.

Lemma top_fail_failures (models : list ModelPerformance) (mp : ModelPerformance) :
  In mp (top_fail_of models) -> In mp models /\ (0 < failures mp)%nat.
Proof.
  unfold top_fail_of. intros Hin. apply In_firstn in Hin.
  apply sort_stable_In in Hin. apply filter_In in Hin.
  destruct Hin as [Hin E]. split; [assumption|]. now apply Nat.ltb_lt.
Qed.

Lemma top_slow_avg (models : list ModelPerformance) (mp : ModelPerformance) :
  In mp (top_slow_of models) -> In mp models /\ (0 < avg_sec mp)%Q.
Proof.
  unfold top_slow_of. intros Hin. apply In_firstn in Hin.
  apply sort_stable_In in Hin. apply filter_In in Hin.
  destruct Hin as [Hin E]. split; [assumption|]. now apply Qgt_bool_iff.
Qed.

End WindowFacts.

(** ** Claims on the Performance Aggregator *)

(** C6. For every refresh list the record of the Performance Aggregator
    has [failures + successes = total]: [failures] counts the records
    whose status, [None] read as [""] and lowered, is not ["completed"],
    [successes] counts the others and [total] is the length of the list;
    so it is for every record [build_performance] returns. *)
Theorem failures_plus_successes_is_total
    (fromisoformat : string -> option datetime) :
  (forall ws_id ws env module m rlist,
      let mp := model_performance fromisoformat ws_id ws env module m rlist in
      failures mp = List.length (filter (fun r => negb (is_completed r)) rlist)
      /\ successes mp = List.length (filter is_completed rlist)
      /\ total mp = List.length rlist
      /\ (failures mp + successes mp = total mp)%nat)
  /\ (forall workspaces categories semantic_models refreshes_by_ws skip_empty,
         Forall (fun mp => (failures mp + successes mp = total mp)%nat)
           (build_performance fromisoformat workspaces categories
              semantic_models refreshes_by_ws skip_empty)).
Proof.
  assert (Hrec : forall ws_id ws env module m rlist,
      let mp := model_performance fromisoformat ws_id ws env module m rlist in
      failures mp = List.length (filter (fun r => negb (is_completed r)) rlist)
      /\ successes mp = List.length (filter is_completed rlist)
      /\ total mp = List.length rlist
      /\ (failures mp + successes mp = total mp)%nat).
  { intros ws_id ws env module m rlist mp.
    destruct (counts_fields fromisoformat ws_id ws env module m rlist)
      as (Hf & Hs & Ht & _).
    fold mp in Hf, Hs, Ht. repeat split; try assumption.
    rewrite Hf, Hs, Ht. apply filter_complement_length. }
  split; [exact Hrec|].
  intros. apply build_performance_Forall.
  intros ws_id ws env module m rlist. apply Hrec.
Qed.


(** C10. A record the Performance Aggregator flags [efficient] comes
    from a refresh list that is not empty ([total >= 1]), has a duration
    that is not [None], and whose records all have a status that lowers
    to ["completed"]; [last_status] is such a status, and the record is
    in the [top_fail] of no window. *)
Theorem efficient_record_invariant
    (fromisoformat : string -> option datetime)
    ws_id ws env module m (rlist : list RefreshRecord)
    now workspaces categories semantic_models refreshes_by_ws capacity_metrics :
  let mp := model_performance fromisoformat ws_id ws env module m rlist in
  efficient mp = true ->
  (1 <= total mp)%nat
  /\ rlist <> []
  /\ durations_of rlist <> []
  /\ Forall (fun r => is_completed r = true) rlist
  /\ (exists s, last_status mp = Some s /\ Py.lower s = "completed")
  /\ Forall (fun kw => ~ In mp (top_fail (snd kw)))
       (performance_sets fromisoformat now workspaces categories
          semantic_models refreshes_by_ws capacity_metrics).
Proof.
  intros mp Heff.
  destruct (counts_fields fromisoformat ws_id ws env module m rlist)
    as (Hf & _ & Ht & Ha & Hl).
  fold mp in Hf, Ht, Ha, Hl.
  unfold mp in Heff. rewrite efficient_field in Heff. fold mp in Heff.
  apply andb_true_iff in Heff. destruct Heff as [Heff _].
  apply andb_true_iff in Heff. destruct Heff as [Hzero Hpos].
  apply Nat.eqb_eq in Hzero.
  assert (Hdur : durations_of rlist <> []).
  { intros E. rewrite Ha, E in Hpos. discriminate. }
  assert (Hne : rlist <> []).
  { intros E. apply Hdur. now rewrite E. }
  assert (Hall : Forall (fun r => is_completed r = true) rlist).
  { apply failures_zero_all_completed. now rewrite <- Hf. }
  split; [|split; [assumption|split; [assumption|split; [assumption|split]]]].
  - rewrite Ht. destruct rlist; [contradiction|simpl; lia].
  - rewrite Hl. destruct rlist as [|r rest]; [contradiction|].
    inversion Hall; subst. now apply is_completed_status.
  - apply (performance_sets_Forall fromisoformat
             (fun w => ~ In mp (top_fail w))).
    intros cutoff Hin. simpl in Hin.
    apply top_fail_failures in Hin. lia.
Qed.

Lemma efficient_record_invariant_witness :
  let rlist :=
    [Sample.refresh "2024-01-02T00:00:00Z" "Completed" (Some 120%Q);
     Sample.refresh "2024-01-01T00:00:00Z" "completed" (Some 80%Q)] in
  let mp := model_performance Iso.fromisoformat "ws1"
              (Sample.workspace "ws1" "Sales") "PROD" "Finance"
              (Sample.model "m1" "Orders") rlist in
  efficient mp = true
  /\ (1 <= total mp)%nat
  /\ Forall (fun r => is_completed r = true) rlist
  /\ Forall (fun kw => ~ In mp (top_fail (snd kw)))
       (performance_sets Iso.fromisoformat 1704240000000000
          [Sample.workspace "ws1" "Sales"] [("ws1", Sample.prod_finance)]
          [("ws1", [Sample.model "m1" "Orders"])] [("ws1", [("m1", rlist)])] []).
Proof.
  intros rlist mp.
  assert (Heff : efficient mp = true) by reflexivity.
  split; [exact Heff|].
  destruct (efficient_record_invariant Iso.fromisoformat "ws1"
              (Sample.workspace "ws1" "Sales") "PROD" "Finance"
              (Sample.model "m1" "Orders") rlist 1704240000000000
              [Sample.workspace "ws1" "Sales"] [("ws1", Sample.prod_finance)]
              [("ws1", [Sample.model "m1" "Orders"])] [("ws1", [("m1", rlist)])]
              [] Heff)
    as (Htot & _ & _ & Hall & _ & Htop).
  repeat split; assumption.
Defined.

(** ** Rankings *)


Section RankingFacts.

Lemma StronglySorted_impl {A} (R S : A -> A -> Prop) (l : list A) :
  (forall a b, R a b -> S a b) -> StronglySorted R l -> StronglySorted S l.
Proof.
  intros HRS Hs. induction Hs as [|a l _ IH Hf]; constructor.
  - assumption.
  - eapply Forall_impl; [|exact Hf]. intros b. apply HRS.
Qed.

Lemma filter_class_within {A} (p q : A -> bool) (l : list A) :
  (forall a, p a = true -> q a = true) -> filter p (filter q l) = filter p l.
Proof.
  intros Hpq. induction l as [|a l IH]; simpl; [reflexivity|].
  destruct (q a) eqn:Eq; simpl; rewrite IH; [reflexivity|].
  destruct (p a) eqn:Ep; [|reflexivity].
  rewrite (Hpq a Ep) in Eq. discriminate.
Qed.

Lemma filter_class_outside {A} (p q : A -> bool) (l : list A) :
  (forall a, p a = true -> q a = false) -> filter p (filter q l) = [].
Proof.
  intros Hpq. induction l as [|a l IH]; simpl; [reflexivity|].
  destruct (q a) eqn:Eq; simpl; rewrite IH; [|reflexivity].
  destruct (p a) eqn:Ep; [|reflexivity].
  rewrite (Hpq a Ep) in Eq. discriminate.
Qed.

(** A ranking [sorted([m for m in l if keep(m)], ..., reverse=True)[:n]]
    keeps the input order inside a class [tie] of records that the
    order does not separate and that [keep] takes or leaves as a
    whole. *)
Lemma ranking_keeps_input_order {A} (before : A -> A -> bool)
    (keep tie : A -> bool) (n : nat) (l : list A) :
  (forall a b, tie a = true -> tie b = true -> before b a = false) ->
  (forall a b, tie a = true -> tie b = true -> keep a = keep b) ->
  keeps_input_order tie l (firstn n (sort_stable before (filter keep l))).
Proof.
  intros Hsame Hkeep.
  destruct (filter_firstn_prefix tie n (sort_stable before (filter keep l)))
    as [rest Hrest].
  rewrite sort_stable_filter in Hrest by exact Hsame.
  destruct (filter tie (filter keep l)) as [|a0 tl] eqn:Ecls.
  - exists (filter tie l).
    destruct (filter tie (firstn n _)); [reflexivity|discriminate].
  - exists rest. rewrite <- Hrest, <- Ecls. symmetry.
    assert (Ha0 : In a0 (filter tie (filter keep l))).
    { rewrite Ecls. now left. }
    apply filter_In in Ha0. destruct Ha0 as [Ha0 Ht0].
    apply filter_In in Ha0. destruct Ha0 as [_ Hk0].
    apply filter_class_within. intros a Ha.
    now rewrite (Hkeep a a0 Ha Ht0).
Qed.


Lemma top_slow_ranking (models : list ModelPerformance) :
  (List.length (top_slow_of models) <= 10)%nat
  /\ Forall (fun m => (0 < avg_sec m)%Q) (top_slow_of models)
  /\ StronglySorted (fun a b => (avg_sec b <= avg_sec a)%Q) (top_slow_of models)
  /\ (forall k, keeps_input_order (tied_avg_sec k) models (top_slow_of models)).
Proof.
  split; [apply firstn_le_length|].
  split; [apply Forall_forall; intros m Hm; now apply top_slow_avg in Hm|].
  split.
  - unfold top_slow_of. apply StronglySorted_firstn.
    eapply StronglySorted_impl; [|apply sort_stable_sorted].
    + unfold in_order, Qgt_bool. intros a b E.
      apply negb_false_iff in E. now apply Qle_bool_iff.
    + intros a b E. apply Qgt_bool_iff in E.
      unfold Qgt_bool. apply negb_false_iff, Qle_bool_iff. now apply Qlt_le_weak.
    + unfold in_order, Qgt_bool. intros a b c Hab Hbc.
      apply negb_false_iff, Qle_bool_iff in Hab.
      apply negb_false_iff, Qle_bool_iff in Hbc.
      apply negb_false_iff, Qle_bool_iff. now apply Qle_trans with (avg_sec b).
  - intros k. unfold top_slow_of, tied_avg_sec.
    apply ranking_keeps_input_order.
    + intros a b Ha Hb. apply Qeq_bool_iff in Ha. apply Qeq_bool_iff in Hb.
      unfold Qgt_bool. apply negb_false_iff, Qle_bool_iff.
      rewrite Ha, Hb. apply Qle_refl.
    + intros a b Ha Hb. apply Qeq_bool_iff in Ha. apply Qeq_bool_iff in Hb.
      unfold Qgt_bool. now rewrite Ha, Hb.
Qed.

Lemma top_fail_ranking (models : list ModelPerformance) :
  (List.length (top_fail_of models) <= 10)%nat
  /\ Forall (fun m => (0 < failures m)%nat) (top_fail_of models)
  /\ StronglySorted (fun a b => (failures b <= failures a)%nat)
       (top_fail_of models)
  /\ (forall k, keeps_input_order (tied_failures k) models (top_fail_of models)).
Proof.
  split; [apply firstn_le_length|].
  split; [apply Forall_forall; intros m Hm; now apply top_fail_failures in Hm|].
  split.
  - unfold top_fail_of. apply StronglySorted_firstn.
    eapply StronglySorted_impl; [|apply sort_stable_sorted].
    + unfold in_order. intros a b E. apply Nat.ltb_ge in E. exact E.
    + intros a b E. apply Nat.ltb_lt in E. apply Nat.ltb_ge. lia.
    + unfold in_order. intros a b c Hab Hbc.
      apply Nat.ltb_ge in Hab. apply Nat.ltb_ge in Hbc. apply Nat.ltb_ge. lia.
  - intros k. unfold top_fail_of, tied_failures.
    apply ranking_keeps_input_order.
    + intros a b Ha Hb. apply Nat.eqb_eq in Ha. apply Nat.eqb_eq in Hb.
      apply Nat.ltb_ge. lia.
    + intros a b Ha Hb. apply Nat.eqb_eq in Ha. apply Nat.eqb_eq in Hb.
      now rewrite Ha, Hb.
Qed.

End RankingFacts.

(** C8. In every window of [performance_sets], [top_slow] has at most
    ten records, all with [avg_sec > 0], in descending order of
    [avg_sec]; [top_fail] has at most ten records, all with
    [failures > 0], in descending order of [failures]; and in both the
    records with equal keys stand in the order of the [models] list. *)
Theorem top_rankings_bounded_sorted_stable
    (fromisoformat : string -> option datetime)
    now workspaces categories semantic_models refreshes_by_ws capacity_metrics :
  Forall
    (fun kw =>
       let w := snd kw in
       ((List.length (top_slow w) <= 10)%nat
        /\ Forall (fun m => (0 < avg_sec m)%Q) (top_slow w)
        /\ StronglySorted (fun a b => (avg_sec b <= avg_sec a)%Q) (top_slow w)
        /\ (forall k, keeps_input_order (tied_avg_sec k) (models w) (top_slow w)))
       /\ ((List.length (top_fail w) <= 10)%nat
           /\ Forall (fun m => (0 < failures m)%nat) (top_fail w)
           /\ StronglySorted (fun a b => (failures b <= failures a)%nat) (top_fail w)
           /\ (forall k, keeps_input_order (tied_failures k) (models w) (top_fail w))))
    (performance_sets fromisoformat now workspaces categories semantic_models
       refreshes_by_ws capacity_metrics).
Proof.
  apply (performance_sets_Forall fromisoformat
           (fun w =>
              ((List.length (top_slow w) <= 10)%nat
               /\ Forall (fun m => (0 < avg_sec m)%Q) (top_slow w)
               /\ StronglySorted (fun a b => (avg_sec b <= avg_sec a)%Q) (top_slow w)
               /\ (forall k, keeps_input_order (tied_avg_sec k) (models w) (top_slow w)))
              /\ ((List.length (top_fail w) <= 10)%nat
                  /\ Forall (fun m => (0 < failures m)%nat) (top_fail w)
                  /\ StronglySorted (fun a b => (failures b <= failures a)%nat)
                       (top_fail w)
                  /\ (forall k, keeps_input_order (tied_failures k) (models w)
                                  (top_fail w))))).
  intros cutoff. simpl. split; [apply top_slow_ranking | apply top_fail_ranking].
Qed.

(** ** Window Filter *)

Section FilterFacts.
Variable fromisoformat : string -> option datetime.

Lemma fold_left_ext {A B} (f g : A -> B -> A) (l : list B) (a : A) :
  (forall a b, f a b = g a b) -> fold_left f l a = fold_left g l a.
Proof.
  intros E. revert a. induction l as [|b l IH]; simpl; intros a; [reflexivity|].
  now rewrite E, IH.
Qed.

(** The filtered copy of one workspace: the lists filtered, under the
    keys of the map in their order. *)
Lemma filter_datasets_dict_map (c : Z) (datasets : dict string (list RefreshRecord)) :
  filter_datasets fromisoformat c datasets
  = dict_map (filter (in_window fromisoformat c)) (rebuild datasets).
Proof.
  unfold filter_datasets, rebuild.
  rewrite <- (fold_set_dict_map (filter (in_window fromisoformat c)) datasets []).
  apply fold_left_ext. intros a [k v]. reflexivity.
Qed.

Lemma filter_refreshes_dict_map (c : Z)
    (refreshes_by_ws : dict string (dict string (list RefreshRecord))) :
  filter_refreshes_by_window fromisoformat refreshes_by_ws (Some c)
  = dict_map (filter_datasets fromisoformat c) (rebuild refreshes_by_ws).
Proof.
  unfold filter_refreshes_by_window, rebuild.
  rewrite <- (fold_set_dict_map (filter_datasets fromisoformat c) refreshes_by_ws []).
  apply fold_left_ext. intros a [k v]. reflexivity.
Qed.

Lemma filter_datasets_idem (c : Z) (datasets : dict string (list RefreshRecord)) :
  filter_datasets fromisoformat c (filter_datasets fromisoformat c datasets)
  = filter_datasets fromisoformat c datasets.
Proof.
  rewrite !filter_datasets_dict_map, rebuild_dict_map, rebuild_rebuild.
  rewrite dict_map_map. apply dict_map_ext. intros rlist.
  now apply filter_class_within.
Qed.


Lemma dict_map_ext_in {V W} (f g : V -> W) (d : dict string V) :
  Forall (fun kv => f (snd kv) = g (snd kv)) d -> dict_map f d = dict_map g d.
Proof.
  intros Hd. unfold dict_map. apply map_ext_in. intros [k v] Hin.
  rewrite Forall_forall in Hd. simpl. f_equal. exact (Hd (k, v) Hin).
Qed.

Lemma filter_refreshes_well_formed (c : Z)
    (refreshes_by_ws : dict string (dict string (list RefreshRecord))) :
  well_formed refreshes_by_ws ->
  filter_refreshes_by_window fromisoformat refreshes_by_ws (Some c)
  = dict_map (dict_map (filter (in_window fromisoformat c))) refreshes_by_ws.
Proof.
  intros [Hd Hin]. rewrite filter_refreshes_dict_map, (rebuild_is_dict _ Hd).
  apply dict_map_ext_in. eapply Forall_impl; [|exact Hin].
  intros [k ds] Hds. simpl in *.
  now rewrite filter_datasets_dict_map, (rebuild_is_dict _ Hds).
Qed.

End FilterFacts.

(** C7. Window filtering is idempotent: filtering with cutoff [C] a
    mapping that was filtered with the same cutoff gives that mapping
    again, for every mapping and every cutoff, the absent one too. *)
Theorem filter_refreshes_by_window_idempotent
    (fromisoformat : string -> option datetime)
    (refreshes_by_ws : dict string (dict string (list RefreshRecord)))
    (cutoff : option Z) :
  filter_refreshes_by_window fromisoformat
    (filter_refreshes_by_window fromisoformat refreshes_by_ws cutoff) cutoff
  = filter_refreshes_by_window fromisoformat refreshes_by_ws cutoff.
Proof.
  destruct cutoff as [c|]; [|reflexivity].
  rewrite !filter_refreshes_dict_map, rebuild_dict_map, rebuild_rebuild.
  rewrite dict_map_map. apply dict_map_ext. intros datasets.
  apply filter_datasets_idem.
Qed.

(** ** Series sorted by their [x] *)

Section SeriesFacts.

Lemma string_leb_trans (a b c : string) :
  (a <=? b) = true -> (b <=? c) = true -> (a <=? c) = true.
Proof.
  revert b c. induction a as [|ca a IH]; intros [|cb b] [|cc c];
    try reflexivity; try discriminate.
  specialize (IH b c). unfold String.leb in *. simpl. unfold Ascii.compare.
  destruct (N.compare_spec (N_of_ascii ca) (N_of_ascii cb)) as [E1|L1|G1];
    destruct (N.compare_spec (N_of_ascii cb) (N_of_ascii cc)) as [E2|L2|G2];
    destruct (N.compare_spec (N_of_ascii ca) (N_of_ascii cc)) as [E3|L3|G3];
    try discriminate; try reflexivity; try lia; try assumption.
Qed.

Lemma string_ltb_leb (a b : string) : (b <? a) = false <-> (a <=? b) = true.
Proof.
  unfold String.ltb, String.leb. rewrite (String.compare_antisym a b).
  destruct (String.compare b a); simpl; split; congruence.
Qed.

Lemma string_ltb_asym (a b : string) : (a <? b) = true -> (b <? a) = false.
Proof.
  unfold String.ltb. rewrite (String.compare_antisym b a).
  destruct (String.compare a b); simpl; congruence.
Qed.


Lemma sort_by_x_ascending (series : list Point) :
  ascending_by_x (sort_by_x series).
Proof.
  unfold ascending_by_x, sort_by_x.
  eapply StronglySorted_impl; [|apply sort_stable_sorted].
  - unfold in_order. intros a b. apply string_ltb_leb.
  - intros a b. apply string_ltb_asym.
  - unfold in_order. intros a b c Hab Hbc.
    apply string_ltb_leb in Hab. apply string_ltb_leb in Hbc.
    apply string_ltb_leb. now apply string_leb_trans with (x b).
Qed.

Lemma sort_by_x_perm (series : list Point) :
  Permutation (sort_by_x series) series.
Proof. apply sort_stable_perm. Qed.

End SeriesFacts.

(** ** The 24-hour history *)

Section HistoryFacts.
Variable fromisoformat : string -> option datetime.

(** A record that a window with an earlier cutoff drops is a record
    the history leaves out. *)
Lemma history_points_filter (c window_cutoff : Z) (rlist : list RefreshRecord) :
  (c <= window_cutoff)%Z ->
  history_points fromisoformat window_cutoff
    (filter (in_window fromisoformat c) rlist)
  = history_points fromisoformat window_cutoff rlist.
Proof.
  intros Hc. induction rlist as [|r rlist IH]; [reflexivity|].
  cbn [filter].
  destruct (in_window fromisoformat c r) eqn:Ew; unfold in_window in Ew;
    cbn [history_points];
    destruct (read_start fromisoformat r) as [| |dt] eqn:Er;
    try discriminate; rewrite ?IH; try reflexivity.
  apply Z.leb_gt in Ew.
  replace (dt <? window_cutoff)%Z with true; [reflexivity|].
  symmetry. apply Z.ltb_lt. lia.
Qed.

Lemma history_series_points window_cutoff ws_name env model_lookup ds_id rlist :
  history_series fromisoformat window_cutoff ws_name env model_lookup ds_id rlist
  = match history_points fromisoformat window_cutoff rlist with
    | [] => []
    | points =>
        [ {| label :=
               Py.str (match dict_get (Some ds_id) model_lookup with
                       | Some n => n
                       | None => Some ds_id
                       end) ++ " (" ++ Py.str ws_name ++ ")";
             h_env := env;
             data := sort_by_x points |} ]
    end.
Proof. destruct rlist; reflexivity. Qed.

Lemma history_series_filter (c window_cutoff : Z) ws_name env model_lookup
    ds_id rlist :
  (c <= window_cutoff)%Z ->
  history_series fromisoformat window_cutoff ws_name env model_lookup ds_id
    (filter (in_window fromisoformat c) rlist)
  = history_series fromisoformat window_cutoff ws_name env model_lookup ds_id
      rlist.
Proof.
  intros Hc. rewrite !history_series_points.
  now rewrite history_points_filter.
Qed.

Lemma flat_map_dict_map {V W X} (f : V -> W) (g : string * W -> list X)
    (d : dict string V) :
  flat_map g (dict_map f d) = flat_map (fun kv => g (fst kv, f (snd kv))) d.
Proof.
  induction d as [|[k v] d IH]; simpl; [reflexivity|]. now rewrite IH.
Qed.

Lemma history24_of_filtered (c window_cutoff : Z) workspaces categories
    semantic_models refreshes_by_ws :
  (c <= window_cutoff)%Z ->
  well_formed refreshes_by_ws ->
  history24_of fromisoformat window_cutoff workspaces categories semantic_models
    (filter_refreshes_by_window fromisoformat refreshes_by_ws (Some c))
  = history24_of fromisoformat window_cutoff workspaces categories
      semantic_models refreshes_by_ws.
Proof.
  intros Hc Hwf. rewrite (filter_refreshes_well_formed fromisoformat c _ Hwf).
  unfold history24_of. rewrite flat_map_dict_map.
  apply flat_map_ext. intros [ws_id ds_map]. simpl.
  rewrite flat_map_dict_map. apply flat_map_ext. intros [ds_id rlist]. simpl.
  now apply history_series_filter.
Qed.

Lemma history24_ascending window_cutoff workspaces categories semantic_models
    filtered :
  Forall (fun s => ascending_by_x (data s))
    (history24_of fromisoformat window_cutoff workspaces categories
       semantic_models filtered).
Proof.
  apply Forall_forall. intros s Hin. unfold history24_of in Hin.
  apply in_flat_map in Hin. destruct Hin as [[ws_id ds_map] [_ Hin]].
  apply in_flat_map in Hin. destruct Hin as [[ds_id rlist] [_ Hin]].
  rewrite history_series_points in Hin.
  destruct (history_points fromisoformat window_cutoff rlist) as [|pt pts];
    [contradiction|].
  destruct Hin as [<-|[]]. cbn [data]. apply sort_by_x_ascending.
Qed.

End HistoryFacts.


Lemma history_points_In (fromisoformat : string -> option datetime)
    (window_cutoff : Z) (rlist : list RefreshRecord) (pt : Point) :
  In pt (history_points fromisoformat window_cutoff rlist) ->
  exists r, In r rlist /\ x pt = Py.text (start_of r)
            /\ y pt = (Py.or_zero (r_duration_seconds r) / 60)%Q.
Proof.
  induction rlist as [|r rlist IH]; simpl; [contradiction|].
  intros Hin.
  assert (Hrest : In pt (history_points fromisoformat window_cutoff rlist) ->
                  exists r0, (r = r0 \/ In r0 rlist)
                             /\ x pt = Py.text (start_of r0)
                             /\ y pt = (Py.or_zero (r_duration_seconds r0) / 60)%Q).
  { intros H. destruct (IH H) as [r0 [H0 H1]]. exists r0. tauto. }
  destruct (read_start fromisoformat r) as [| |dt]; try now apply Hrest.
  destruct (dt <? window_cutoff)%Z; [now apply Hrest|].
  destruct Hin as [<-|Hin]; [|now apply Hrest].
  exists r. simpl. tauto.
Qed.

Lemma history24_points (fromisoformat : string -> option datetime)
    window_cutoff workspaces categories semantic_models refreshes_by_ws :
  Forall
    (fun s =>
       Forall (fun pt =>
                 exists r, In r (records_of refreshes_by_ws)
                           /\ x pt = Py.text (start_of r)
                           /\ y pt = (Py.or_zero (r_duration_seconds r) / 60)%Q)
         (data s))
    (history24_of fromisoformat window_cutoff workspaces categories
       semantic_models refreshes_by_ws).
Proof.
  apply Forall_forall. intros s Hin. unfold history24_of in Hin.
  apply in_flat_map in Hin. destruct Hin as [[ws_id ds_map] [Hws Hin]].
  apply in_flat_map in Hin. destruct Hin as [[ds_id rlist] [Hds Hin]].
  rewrite history_series_points in Hin.
  destruct (history_points fromisoformat window_cutoff rlist) as [|p0 pts] eqn:Ep;
    [contradiction|].
  destruct Hin as [<-|[]]. cbn [data].
  apply Forall_forall. intros pt Hpt.
  apply (Permutation_in _ (sort_by_x_perm (p0 :: pts))) in Hpt.
  rewrite <- Ep in Hpt. apply history_points_In in Hpt.
  destruct Hpt as [r [Hr Hxy]]. exists r. split; [|exact Hxy].
  unfold records_of. apply in_flat_map. exists (ws_id, ds_map).
  split; [assumption|]. apply in_flat_map. exists (ds_id, rlist). now split.
Qed.

(** C4. For a fixed instant [now] and fixed inputs, [performance_sets]
    stores the same [history24] under ["24h"], ["7d"] and ["all"]: the
    same series with the same labels and the same points, whichever
    filtered mapping they are built from; every series is ascending by
    timestamp and the [y] of a point is the duration of its record in
    minutes. *)
Theorem history24_same_in_every_window
    (fromisoformat : string -> option datetime)
    now workspaces categories semantic_models refreshes_by_ws capacity_metrics :
  well_formed refreshes_by_ws ->
  exists w24 w7 wall,
    performance_sets fromisoformat now workspaces categories semantic_models
      refreshes_by_ws capacity_metrics
    = [("24h", w24); ("7d", w7); ("all", wall)]
    /\ history24 w24 = history24 wall
    /\ history24 w7 = history24 wall
    /\ Forall
         (fun s =>
            ascending_by_x (data s)
            /\ Forall (fun pt =>
                         exists r, In r (records_of refreshes_by_ws)
                                   /\ x pt = Py.text (start_of r)
                                   /\ y pt = (Py.or_zero (r_duration_seconds r) / 60)%Q)
                 (data s))
         (history24 wall).
Proof.
  intros Hwf. rewrite performance_sets_windows.
  do 3 eexists. split; [reflexivity|]. cbn [history24 performance_window].
  split; [|split].
  - apply history24_of_filtered; [|assumption].
    unfold usec_per_day, usec_per_hour, usec_per_second. lia.
  - apply history24_of_filtered; [|assumption].
    unfold usec_per_day, usec_per_hour, usec_per_second. lia.
  - apply Forall_forall. intros s Hs. split.
    + exact (proj1 (Forall_forall _ _)
                (history24_ascending fromisoformat _ _ _ _ _) s Hs).
    + exact (proj1 (Forall_forall _ _)
                (history24_points fromisoformat _ _ _ _ _) s Hs).
Qed.

Lemma history24_same_in_every_window_witness :
  let refreshes_by_ws :=
    [("ws1",
      [("m1", [Sample.refresh "2024-01-02T12:00:00Z" "Completed" (Some 120%Q);
               Sample.refresh "not-a-timestamp" "Completed" (Some 60%Q);
               Sample.refresh "2023-12-30T00:00:00Z" "Failed" (Some 300%Q)]);
       ("m2", [Sample.refresh "2023-11-01T00:00:00Z" "Completed" (Some 30%Q)])])] in
  well_formed refreshes_by_ws
  /\ exists w24 w7 wall,
       performance_sets Iso.fromisoformat 1704240000000000
         [Sample.workspace "ws1" "Sales"] [("ws1", Sample.prod_finance)]
         [("ws1", [Sample.model "m1" "Orders"; Sample.model "m2" "Stock"])]
         refreshes_by_ws []
       = [("24h", w24); ("7d", w7); ("all", wall)]
       /\ history24 w24 = history24 wall
       /\ history24 w7 = history24 wall.
Proof.
  intros refreshes_by_ws.
  assert (Hwf : well_formed refreshes_by_ws).
  { split.
    - repeat constructor; simpl; tauto.
    - repeat constructor; simpl; intuition discriminate. }
  split; [exact Hwf|].
  destruct (history24_same_in_every_window Iso.fromisoformat 1704240000000000
              [Sample.workspace "ws1" "Sales"] [("ws1", Sample.prod_finance)]
              [("ws1", [Sample.model "m1" "Orders"; Sample.model "m2" "Stock"])]
              refreshes_by_ws [] Hwf)
    as (w24 & w7 & wall & Hsets & H24 & H7 & _).
  exists w24, w7, wall. repeat split; assumption.
Defined.

(** ** Capacity series *)

Section CapacityFacts.
Variable fromisoformat : string -> option datetime.


Lemma retained_iff (cutoff : option Z) (p : CapacityPoint) :
  retained fromisoformat cutoff p = true <->
  exists ts val dt,
    ts_of p = Some ts /\ val_of p = Some val
    /\ parse_utc fromisoformat ts = Some dt
    /\ (forall c, cutoff = Some c -> (c <= dt)%Z).
Proof.
  unfold retained. split.
  - destruct (ts_of p) as [ts|]; [|discriminate].
    destruct (val_of p) as [val|]; [|discriminate].
    destruct (parse_utc fromisoformat ts) as [dt|] eqn:Ep; [|discriminate].
    intros E. exists ts, val, dt.
    split; [reflexivity|split; [reflexivity|split; [exact Ep|]]].
    intros c Hc. rewrite Hc in E. now apply Z.leb_le.
  - intros (ts & val & dt & -> & -> & -> & Hc).
    destruct cutoff as [c|]; [|reflexivity].
    apply Z.leb_le. now apply Hc.
Qed.

Lemma capacity_point_retained (cutoff : option Z) (p : CapacityPoint) :
  capacity_point fromisoformat cutoff p
  = if retained fromisoformat cutoff p then Some (point_of p) else None.
Proof.
  unfold capacity_point, retained, point_of.
  destruct (ts_of p) as [ts|]; [|reflexivity].
  destruct (val_of p) as [val|]; [|reflexivity].
  destruct (parse_utc fromisoformat ts) as [dt|]; [|reflexivity].
  destruct cutoff as [c|]; [|reflexivity].
  destruct (c <=? dt)%Z; reflexivity.
Qed.

Lemma capacity_loop_retained (cutoff : option Z) (ms : list CapacityPoint) :
  capacity_loop fromisoformat cutoff ms
  = map point_of (filter (retained fromisoformat cutoff) ms).
Proof.
  induction ms as [|p ms IH]; simpl; [reflexivity|].
  rewrite capacity_point_retained.
  destruct (retained fromisoformat cutoff p); simpl; now rewrite IH.
Qed.

End CapacityFacts.

(** C9. The Capacity Series Builder drops the samples without a
    timestamp, without a value or with a timestamp that does not parse;
    of the others it keeps exactly those whose instant is not before the
    cutoff, all of them when there is no cutoff; and it returns their
    [{x, y}] points in ascending order of the original timestamp
    string. *)
Theorem build_capacity_series_retains_and_sorts
    (fromisoformat : string -> option datetime)
    (capacity_metrics : list CapacityPoint) (cutoff : option Z) :
  (forall p,
      retained fromisoformat cutoff p = true <->
      exists ts val dt,
        ts_of p = Some ts /\ val_of p = Some val
        /\ parse_utc fromisoformat ts = Some dt
        /\ (forall c, cutoff = Some c -> (c <= dt)%Z))
  /\ Permutation (build_capacity_series fromisoformat capacity_metrics cutoff)
       (map point_of (filter (retained fromisoformat cutoff) capacity_metrics))
  /\ ascending_by_x (build_capacity_series fromisoformat capacity_metrics cutoff).
Proof.
  split; [intros p; apply retained_iff|].
  unfold build_capacity_series.
  destruct capacity_metrics as [|p ms]; [split; constructor|].
  split.
  - rewrite <- capacity_loop_retained. apply sort_by_x_perm.
  - apply sort_by_x_ascending.
Qed.

(** ** Slow models and outliers *)

Section SlowFacts.

Lemma fold_Qplus_ge (l : list Q) (a : Q) :
  Forall (fun d => 0 <= d)%Q l -> (a <= fold_left Qplus l a)%Q.
Proof.
  intros Hl. revert a. induction Hl as [|d l Hd _ IH]; simpl; intros a.
  - apply Qle_refl.
  - apply Qle_trans with (a + d)%Q; [|apply IH].
    rewrite <- (Qplus_0_r a) at 1. apply Qplus_le_compat; [apply Qle_refl|exact Hd].
Qed.

Lemma fold_Qplus_member (l : list Q) (a d : Q) :
  Forall (fun d => 0 <= d)%Q l -> In d l -> (a + d <= fold_left Qplus l a)%Q.
Proof.
  intros Hl. revert a. induction Hl as [|h l Hh Hl IH]; simpl; intros a Hin.
  - contradiction.
  - destruct Hin as [->|Hin].
    + now apply fold_Qplus_ge.
    + apply Qle_trans with (a + h + d)%Q; [|now apply IH].
      apply Qplus_le_compat; [|apply Qle_refl].
      rewrite <- (Qplus_0_r a) at 1.
      apply Qplus_le_compat; [apply Qle_refl|exact Hh].
Qed.

Lemma sum_nonneg (l : list Q) :
  Forall (fun d => 0 <= d)%Q l -> (0 <= Py.sum l)%Q.
Proof. apply fold_Qplus_ge. Qed.

Lemma sum_member (l : list Q) (d : Q) :
  Forall (fun d => 0 <= d)%Q l -> In d l -> (d <= Py.sum l)%Q.
Proof.
  intros Hl Hin. rewrite <- (Qplus_0_l d).
  now apply fold_Qplus_member.
Qed.

Lemma len_pos {A} (a : A) (l : list A) :
  (0 < inject_Z (Z.of_nat (List.length (a :: l))))%Q.
Proof.
  rewrite <- (Zlt_Qlt 0). simpl List.length. lia.
Qed.

(** With no negative duration the mean is not negative, and when it is
    not positive no duration is. *)
Lemma mean_nonneg (d0 : Q) (l : list Q) :
  Forall (fun d => 0 <= d)%Q (d0 :: l) -> (0 <= Py.mean (d0 :: l))%Q.
Proof.
  intros Hl. unfold Py.mean. apply Qle_shift_div_l; [apply len_pos|].
  rewrite Qmult_0_l. now apply sum_nonneg.
Qed.

Lemma mean_nonpos_member (d0 d : Q) (l : list Q) :
  Forall (fun d => 0 <= d)%Q (d0 :: l) ->
  (Py.mean (d0 :: l) <= 0)%Q -> In d (d0 :: l) -> (d <= 0)%Q.
Proof.
  intros Hl Hmean Hin.
  apply Qle_trans with (Py.sum (d0 :: l)); [now apply sum_member|].
  pose proof (len_pos d0 l) as Hn.
  set (n := inject_Z (Z.of_nat (List.length (d0 :: l)))) in *.
  assert (E : (Py.sum (d0 :: l) == n * Py.mean (d0 :: l))%Q).
  { unfold Py.mean. fold n. rewrite Qmult_div_r; [reflexivity|].
    intros E0. rewrite E0 in Hn. discriminate. }
  rewrite E. rewrite <- (Qmult_0_r n). now apply Qmult_le_l.
Qed.

Lemma or_zero_le (d : option Q) (b : Q) :
  (0 <= b)%Q -> (forall q, d = Some q -> (q <= b)%Q) -> (Py.or_zero d <= b)%Q.
Proof.
  intros Hb Hd. destruct d as [q|]; simpl; [|exact Hb].
  destruct (Qeq_bool q 0); [exact Hb|now apply Hd].
Qed.

Lemma Qgt_bool_false (a b : Q) : Qgt_bool a b = false <-> (a <= b)%Q.
Proof.
  unfold Qgt_bool. rewrite negb_false_iff. apply Qle_bool_iff.
Qed.

End SlowFacts.

(** C3, as the code has it.  On every refresh list whose durations are
    not negative, the Summary Builder marks the model slow exactly when
    the Performance Aggregator marks it an outlier: both read the head of
    the list as the most recent record, both compare its duration
    ([None] read as [0]) with 1.1 times the mean of the durations that
    are not [None], strictly; so it is for the empty list and for the
    lists whose durations are all [None] or all zero. *)
Theorem slow_agrees_with_outlier
    (fromisoformat : string -> option datetime)
    ws_id ws env module m (rlist : list RefreshRecord) :
  Forall (fun d => 0 <= d)%Q (durations_of rlist) ->
  summary_slow rlist
  = outlier (model_performance fromisoformat ws_id ws env module m rlist).
Proof.
  intros Hnn. rewrite outlier_field.
  unfold model_performance.
  destruct (interval_block fromisoformat rlist) as [fq av]. cbn [avg_sec last_sec].
  destruct rlist as [|latest rest]; [reflexivity|].
  unfold summary_slow.
  destruct (durations_of (latest :: rest)) as [|d0 ds] eqn:Ed; [reflexivity|].
  cbn [mean_or_zero].
  destruct (Qgt_bool (Py.mean (d0 :: ds)) 0) eqn:Epos; [reflexivity|].
  cbn [andb]. apply Qgt_bool_false. apply Qgt_bool_false in Epos.
  pose proof (mean_nonneg d0 ds Hnn) as Hge.
  apply Qle_trans with 0%Q.
  - apply or_zero_le; [apply Qle_refl|].
    intros q Hq. apply (mean_nonpos_member d0 q ds Hnn Epos).
    simpl in Ed. rewrite Hq in Ed. injection Ed as <- _. now left.
  - rewrite <- (Qmult_0_l (11 # 10)).
    apply Qmult_le_compat_r; [exact Hge|discriminate].
Qed.

Lemma slow_agrees_with_outlier_witness :
  let rlist :=
    [Sample.refresh "2024-01-02T00:00:00Z" "Failed" (Some 400%Q);
     Sample.refresh "2024-01-01T00:00:00Z" "Completed" (Some 200%Q)] in
  Forall (fun d => 0 <= d)%Q (durations_of rlist)
  /\ summary_slow rlist = true
  /\ summary_slow rlist
     = outlier (model_performance Iso.fromisoformat "ws1"
                  (Sample.workspace "ws1" "Sales") "PROD" "Finance"
                  (Sample.model "m1" "Orders") rlist).
Proof.
  intros rlist.
  assert (Hnn : Forall (fun d => 0 <= d)%Q (durations_of rlist)).
  { repeat constructor; unfold Qle; simpl; lia. }
  split; [exact Hnn|]. split; [reflexivity|].
  apply (slow_agrees_with_outlier Iso.fromisoformat "ws1"
           (Sample.workspace "ws1" "Sales") "PROD" "Finance"
           (Sample.model "m1" "Orders") rlist Hnn).
Defined.

(** C3, as stated, fails on a list with negative durations (an end
    before its start): the mean is [-10], the latest duration [-5] is
    above [-11], so the Summary Builder marks the model slow, while the
    guard [avg_sec > 0] of the Performance Aggregator leaves [outlier]
    false. *)
Lemma slow_without_outlier_on_negative_durations :
  let rlist :=
    [Sample.refresh "2024-01-02T00:00:00Z" "Completed" (Some (-5)%Q);
     Sample.refresh "2024-01-01T00:00:00Z" "Completed" (Some (-15)%Q)] in
  ~ (summary_slow rlist = true <->
     outlier (model_performance Iso.fromisoformat "ws1"
                (Sample.workspace "ws1" "Sales") "PROD" "Finance"
                (Sample.model "m1" "Orders") rlist) = true).
Proof.
  intros rlist [Hslow _].
  assert (E : summary_slow rlist = true) by reflexivity.
  specialize (Hslow E). vm_compute in Hslow. discriminate.
Qed.

(** ** Interval estimation *)

Section IntervalFacts.

Lemma sort_three_instants (T : Z) :
  sort_stable Z.ltb [(T + 6 * usec_per_hour)%Z; (T + 2 * usec_per_hour)%Z; T]
  = [T; (T + 2 * usec_per_hour)%Z; (T + 6 * usec_per_hour)%Z].
Proof.
  unfold sort_stable, usec_per_hour, usec_per_second.
  cbn [fold_right insert_stable].
  replace (T <? T + 2 * (3600 * 1000000))%Z with true
    by (symmetry; apply Z.ltb_lt; lia).
  cbn [insert_stable].
  replace (T <? T + 6 * (3600 * 1000000))%Z with true
    by (symmetry; apply Z.ltb_lt; lia).
  replace (T + 2 * (3600 * 1000000) <? T + 6 * (3600 * 1000000))%Z with true
    by (symmetry; apply Z.ltb_lt; lia).
  reflexivity.
Qed.

Lemma hours_between_shift (T a b : Z) :
  hours_between (T + a) (T + b) = hours_between a b.
Proof.
  unfold hours_between. replace (T + b - (T + a))%Z with (b - a)%Z by lia.
  reflexivity.
Qed.

Lemma deltas_three_instants (T : Z) :
  deltas_of [T; (T + 2 * usec_per_hour)%Z; (T + 6 * usec_per_hour)%Z]
  = [hours_between 0 (2 * usec_per_hour);
     hours_between (2 * usec_per_hour) (6 * usec_per_hour)].
Proof.
  cbn [deltas_of]. rewrite hours_between_shift.
  rewrite <- (Z.add_0_r T) at 1. rewrite hours_between_shift. reflexivity.
Qed.

End IntervalFacts.

(** C1, as the code has it.  On a dataset whose refresh records start at
    [T], [T + 2h] and [T + 6h], the gaps are 2 and 4 hours, so the
    interval estimate is their mean, 3 hours, and [freq_per_hour] is its
    reciprocal, one third: so in [build_performance] and in
    [compute_avg_interval_hours]. *)
Theorem interval_of_three_refreshes
    (fromisoformat : string -> option datetime) (T : Z)
    (r0 r1 r2 : RefreshRecord) ws_id ws env module m (ds_id : string) :
  read_start fromisoformat r0 = Instant T ->
  read_start fromisoformat r1 = Instant (T + 2 * usec_per_hour) ->
  read_start fromisoformat r2 = Instant (T + 6 * usec_per_hour) ->
  let rlist := [r2; r1; r0] in
  let mp := model_performance fromisoformat ws_id ws env module m rlist in
  (avg_interval_hours mp == 3)%Q
  /\ (freq_per_hour mp == 1 # 3)%Q
  /\ exists avg,
       compute_avg_interval_hours fromisoformat [(ds_id, rlist)] = [(ds_id, avg)]
       /\ (avg == 3)%Q.
Proof.
  intros H0 H1 H2 rlist mp.
  pose proof (interval_block_fields fromisoformat ws_id ws env module m rlist)
    as Hblock.
  cbv zeta in Hblock. fold mp in Hblock.
  assert (Eb : (fst (interval_block fromisoformat rlist) == 1 # 3
                /\ snd (interval_block fromisoformat rlist) == 3)%Q).
  { unfold interval_block, rlist. cbn [timestamps_raising].
    rewrite H2, H1, H0. rewrite sort_three_instants. cbn [List.length Nat.leb].
    rewrite deltas_three_instants. split; vm_compute; reflexivity. }
  rewrite <- Hblock in Eb. cbn [fst snd] in Eb. destruct Eb as [Ef Ea].
  split; [exact Ea|]. split; [exact Ef|].
  eexists. split; [reflexivity|].
  unfold avg_interval_of, rlist. cbn [timestamps_skipping].
  rewrite H2, H1, H0. rewrite sort_three_instants. cbn [List.length Nat.leb].
  rewrite deltas_three_instants. vm_compute. reflexivity.
Qed.

Lemma interval_of_three_refreshes_witness :
  let r0 := Sample.refresh "2024-01-01T00:00:00Z" "Completed" (Some 60%Q) in
  let r1 := Sample.refresh "2024-01-01T02:00:00Z" "Completed" (Some 60%Q) in
  let r2 := Sample.refresh "2024-01-01T06:00:00Z" "Completed" (Some 60%Q) in
  let mp := model_performance Iso.fromisoformat "ws1"
              (Sample.workspace "ws1" "Sales") "PROD" "Finance"
              (Sample.model "m1" "Orders") [r2; r1; r0] in
  read_start Iso.fromisoformat r0 = Instant 1704067200000000
  /\ read_start Iso.fromisoformat r1
     = Instant (1704067200000000 + 2 * usec_per_hour)
  /\ read_start Iso.fromisoformat r2
     = Instant (1704067200000000 + 6 * usec_per_hour)
  /\ (avg_interval_hours mp == 3)%Q
  /\ (freq_per_hour mp == 1 # 3)%Q.
Proof.
  intros r0 r1 r2 mp.
  assert (H0 : read_start Iso.fromisoformat r0 = Instant 1704067200000000)
    by reflexivity.
  assert (H1 : read_start Iso.fromisoformat r1
               = Instant (1704067200000000 + 2 * usec_per_hour))
    by reflexivity.
  assert (H2 : read_start Iso.fromisoformat r2
               = Instant (1704067200000000 + 6 * usec_per_hour))
    by reflexivity.
  destruct (interval_of_three_refreshes Iso.fromisoformat 1704067200000000
              r0 r1 r2 "ws1" (Sample.workspace "ws1" "Sales") "PROD" "Finance"
              (Sample.model "m1" "Orders") "m1" H0 H1 H2)
    as (Ha & Hf & _).
  repeat split; assumption.
Defined.

(** C1, as stated, fails: for the records starting at
    2024-01-01T00:00, 02:00 and 06:00 the estimate is not 4 hours with a
    frequency of 0.25. *)
Lemma interval_of_three_refreshes_is_not_four :
  let r0 := Sample.refresh "2024-01-01T00:00:00Z" "Completed" (Some 60%Q) in
  let r1 := Sample.refresh "2024-01-01T02:00:00Z" "Completed" (Some 60%Q) in
  let r2 := Sample.refresh "2024-01-01T06:00:00Z" "Completed" (Some 60%Q) in
  let mp := model_performance Iso.fromisoformat "ws1"
              (Sample.workspace "ws1" "Sales") "PROD" "Finance"
              (Sample.model "m1" "Orders") [r2; r1; r0] in
  ~ ((avg_interval_hours mp == 4)%Q /\ (freq_per_hour mp == 1 # 4)%Q).
Proof.
  intros r0 r1 r2 mp [Ha _]. vm_compute in Ha. discriminate.
Qed.

(** ** Records with a malformed start *)

Section MalformedFacts.
Variable fromisoformat : string -> option datetime.


(** The window filter and [compute_avg_interval_hours] see a list as
    they see it without its malformed records. *)
Lemma in_window_drops_malformed (c : Z) (rlist : list RefreshRecord) :
  filter (in_window fromisoformat c) rlist
  = filter (in_window fromisoformat c) (filter (well_read fromisoformat) rlist).
Proof.
  symmetry. apply filter_class_within.
  unfold in_window, well_read. intros r.
  destruct (read_start fromisoformat r); congruence.
Qed.

Lemma timestamps_skipping_drops_malformed (rlist : list RefreshRecord) :
  timestamps_skipping fromisoformat rlist
  = timestamps_skipping fromisoformat (filter (well_read fromisoformat) rlist).
Proof.
  induction rlist as [|r rlist IH]; [reflexivity|].
  cbn [filter timestamps_skipping]. unfold well_read at 1.
  destruct (read_start fromisoformat r) eqn:Er;
    cbn [timestamps_skipping]; rewrite ?Er, IH; reflexivity.
Qed.

Lemma avg_interval_of_drops_malformed (rlist : list RefreshRecord) :
  avg_interval_of fromisoformat rlist
  = avg_interval_of fromisoformat (filter (well_read fromisoformat) rlist).
Proof.
  unfold avg_interval_of. now rewrite <- timestamps_skipping_drops_malformed.
Qed.

Lemma history_points_drops_malformed (window_cutoff : Z)
    (rlist : list RefreshRecord) :
  history_points fromisoformat window_cutoff rlist
  = history_points fromisoformat window_cutoff (filter (well_read fromisoformat) rlist).
Proof.
  induction rlist as [|r rlist IH]; [reflexivity|].
  cbn [filter history_points]. unfold well_read at 1.
  destruct (read_start fromisoformat r) eqn:Er;
    cbn [history_points]; rewrite ?Er, IH; reflexivity.
Qed.

(** [build_performance] does not: one malformed record anywhere in the
    list leaves both interval fields at [0]. *)
Lemma timestamps_raising_malformed (rlist : list RefreshRecord) (r : RefreshRecord) :
  In r rlist -> read_start fromisoformat r = Malformed ->
  timestamps_raising fromisoformat rlist = None.
Proof.
  intros Hin Hr. induction rlist as [|r' rlist IH]; [contradiction|].
  cbn [timestamps_raising]. destruct Hin as [->|Hin].
  - now rewrite Hr.
  - rewrite (IH Hin). now destruct (read_start fromisoformat r').
Qed.

Lemma interval_block_malformed (rlist : list RefreshRecord) (r : RefreshRecord) :
  In r rlist -> read_start fromisoformat r = Malformed ->
  interval_block fromisoformat rlist = (0%Q, 0%Q).
Proof.
  intros Hin Hr. unfold interval_block.
  rewrite (timestamps_raising_malformed rlist r Hin Hr).
  now destruct rlist.
Qed.

End MalformedFacts.

(** C2, on the code.  A refresh list with one malformed start between
    two valid ones, six hours apart: the window filter keeps the two
    valid records and [compute_avg_interval_hours] estimates six hours
    from them, but the interval block of [build_performance] is left by
    the exception of the malformed record and reports [0] for the
    interval and for the frequency, where the two valid records alone
    give six hours. *)
Theorem malformed_start_blanks_performance_interval :
  let good1 := Sample.refresh "2024-01-01T06:00:00Z" "Completed" (Some 60%Q) in
  let bad := Sample.refresh "not-a-timestamp" "Completed" (Some 60%Q) in
  let good0 := Sample.refresh "2024-01-01T00:00:00Z" "Completed" (Some 60%Q) in
  let perf rlist := model_performance Iso.fromisoformat "ws1"
                      (Sample.workspace "ws1" "Sales") "PROD" "Finance"
                      (Sample.model "m1" "Orders") rlist in
  read_start Iso.fromisoformat bad = Malformed
  /\ filter (in_window Iso.fromisoformat 0) [good1; bad; good0] = [good1; good0]
  /\ (avg_interval_of Iso.fromisoformat [good1; bad; good0] == 6)%Q
  /\ (avg_interval_hours (perf [good1; good0]) == 6)%Q
  /\ (freq_per_hour (perf [good1; good0]) == 1 # 6)%Q
  /\ (avg_interval_hours (perf [good1; bad; good0]) == 0)%Q
  /\ (freq_per_hour (perf [good1; bad; good0]) == 0)%Q.
Proof.
  intros good1 bad good0 perf.
  repeat (split; [vm_compute; reflexivity|]). vm_compute. reflexivity.
Qed.

(** * Further properties of the engine *)

(** ** Records of the Performance Aggregator *)

Section RecordFacts.
Variable fromisoformat : string -> option datetime.

Lemma identity_fields ws_id ws env module m rlist :
  let mp := model_performance fromisoformat ws_id ws env module m rlist in
  workspace_id mp = ws_id
  /\ model_id mp = mid_of m
  /\ last_sec mp = match rlist with
                   | last :: _ => Py.or_zero (r_duration_seconds last)
                   | [] => 0%Q
                   end.
Proof.
  unfold model_performance.
  destruct (interval_block fromisoformat rlist) as [fq av]. simpl. tauto.
Qed.

Lemma total_zero_iff ws_id ws env module m rlist :
  total (model_performance fromisoformat ws_id ws env module m rlist) = 0%nat
  <-> rlist = [].
Proof.
  destruct (counts_fields fromisoformat ws_id ws env module m rlist)
    as (_ & _ & Ht & _).
  cbv zeta in Ht. rewrite Ht. destruct rlist; simpl; split; congruence.
Qed.

Lemma filter_flat_map {A B} (p : B -> bool) (f : A -> list B) (l : list A) :
  filter p (flat_map f l) = flat_map (fun a => filter p (f a)) l.
Proof.
  induction l as [|a l IH]; simpl; [reflexivity|].
  now rewrite filter_app, IH.
Qed.

Lemma map_flat_map {A B C} (g : B -> C) (f : A -> list B) (l : list A) :
  map g (flat_map f l) = flat_map (fun a => map g (f a)) l.
Proof.
  induction l as [|a l IH]; simpl; [reflexivity|].
  now rewrite map_app, IH.
Qed.

Lemma flat_map_single {A B} (f : A -> list B) (h : A -> B) (l : list A) :
  (forall a, f a = [h a]) -> flat_map f l = map h l.
Proof.
  intros E. induction l as [|a l IH]; simpl; [reflexivity|].
  now rewrite E, IH.
Qed.

(** Without a malformed start the loop that raises collects what the
    loop that skips collects. *)
Lemma timestamps_raising_well_read (rlist : list RefreshRecord) :
  Forall (fun r => well_read fromisoformat r = true) rlist ->
  timestamps_raising fromisoformat rlist
  = Some (timestamps_skipping fromisoformat rlist).
Proof.
  induction 1 as [|r rlist Hr _ IH]; [reflexivity|].
  cbn [timestamps_raising timestamps_skipping]. unfold well_read in Hr.
  destruct (read_start fromisoformat r); try discriminate; now rewrite IH.
Qed.

Lemma interval_block_well_read (rlist : list RefreshRecord) :
  Forall (fun r => well_read fromisoformat r = true) rlist ->
  interval_block fromisoformat rlist
  = (freq_of (avg_interval_of fromisoformat rlist),
     avg_interval_of fromisoformat rlist).
Proof.
  intros Hw. unfold interval_block, avg_interval_of.
  rewrite (timestamps_raising_well_read rlist Hw).
  destruct rlist as [|r rest]; [reflexivity|].
  destruct (2 <=? _)%nat; reflexivity.
Qed.

End RecordFacts.

(** A model without refresh records, because its list is empty or the
    mapping has no entry for it, has only zero metrics: no average, no
    last duration, no count, no interval, no status, and neither flag. *)
Theorem no_refresh_records_zero_metrics
    (fromisoformat : string -> option datetime)
    workspaces categories semantic_models refreshes_by_ws skip_empty :
  Forall
    (fun mp =>
       total mp = 0%nat ->
       avg_sec mp = 0%Q /\ last_sec mp = 0%Q
       /\ failures mp = 0%nat /\ successes mp = 0%nat
       /\ freq_per_hour mp = 0%Q /\ avg_interval_hours mp = 0%Q
       /\ last_status mp = None
       /\ outlier mp = false /\ efficient mp = false)
    (build_performance fromisoformat workspaces categories semantic_models
       refreshes_by_ws skip_empty).
Proof.
  apply build_performance_Forall. intros ws_id ws env module m rlist Ht.
  apply total_zero_iff in Ht. subst rlist. repeat split.
Qed.

(** With [skip_empty] the listing is the full listing without the models
    that have no refresh record; every record it keeps has at least
    one. *)
Theorem skip_empty_drops_models_without_records
    (fromisoformat : string -> option datetime)
    workspaces categories semantic_models refreshes_by_ws :
  build_performance fromisoformat workspaces categories semantic_models
    refreshes_by_ws true
  = filter (fun mp => negb (total mp =? 0)%nat)
      (build_performance fromisoformat workspaces categories semantic_models
         refreshes_by_ws false).
Proof.
  unfold build_performance. rewrite filter_flat_map.
  apply flat_map_ext. intros [ws_id models_list].
  rewrite filter_flat_map. apply flat_map_ext. intros m.
  set (rlist := rlist_of _ _).
  set (mp := model_performance _ _ _ _ _ _ _).
  pose proof (total_zero_iff fromisoformat ws_id
                match dict_get (Some ws_id) (ws_by_id_of workspaces) with
                | Some w => w
                | None => no_workspace
                end
                (Py.upper (Py.or_default
                   (c_env match dict_get ws_id categories with
                          | Some c => c
                          | None => no_category
                          end) ""))
                (Py.or_default
                   (c_module match dict_get ws_id categories with
                             | Some c => c
                             | None => no_category
                             end) "Unassigned")
                m rlist) as Hz.
  fold mp in Hz. cbn [andb filter].
  destruct rlist as [|r rest].
  - rewrite (proj2 Hz eq_refl). reflexivity.
  - destruct (total mp =? 0)%nat eqn:E; [|reflexivity].
    apply Nat.eqb_eq in E. apply Hz in E. discriminate.
Qed.

(** Without [skip_empty] the listing has one record for every model of
    every workspace of [semantic_models], in their order, whatever the
    refresh mapping holds; so has each window of [performance_sets]. *)
Theorem every_model_is_listed
    (fromisoformat : string -> option datetime)
    now workspaces categories semantic_models refreshes_by_ws capacity_metrics :
  let listed (l : list ModelPerformance) :=
    map (fun mp => (workspace_id mp, model_id mp)) l
    = flat_map (fun kv => map (fun m => (fst kv, mid_of m)) (snd kv))
        semantic_models in
  listed (build_performance fromisoformat workspaces categories semantic_models
            refreshes_by_ws false)
  /\ Forall (fun kw => listed (models (snd kw)))
       (performance_sets fromisoformat now workspaces categories semantic_models
          refreshes_by_ws capacity_metrics).
Proof.
  intros listed.
  assert (H : forall refreshes,
             listed (build_performance fromisoformat workspaces categories
                       semantic_models refreshes false)).
  { intros refreshes. unfold listed, build_performance.
    rewrite map_flat_map. apply flat_map_ext. intros [ws_id models_list].
    rewrite map_flat_map. cbn [fst snd andb].
    apply flat_map_single. intros m. cbn [map]. f_equal.
    destruct (identity_fields fromisoformat ws_id
                match dict_get (Some ws_id) (ws_by_id_of workspaces) with
                | Some w => w
                | None => no_workspace
                end
                (Py.upper (Py.or_default
                   (c_env match dict_get ws_id categories with
                          | Some c => c
                          | None => no_category
                          end) ""))
                (Py.or_default
                   (c_module match dict_get ws_id categories with
                             | Some c => c
                             | None => no_category
                             end) "Unassigned")
                m
                (rlist_of match dict_get ws_id refreshes with
                          | Some d => d
                          | None => []
                          end (mid_of m))) as (Hw & Hm & _).
    now rewrite Hw, Hm. }
  split; [apply H|].
  apply (performance_sets_Forall fromisoformat (fun w => listed (models w))).
  intros cutoff. apply H.
Qed.

(** A record flagged [outlier] by the Performance Aggregator is a model
    the Summary Builder counts as slow, on every refresh list. *)
Theorem outlier_is_slow
    (fromisoformat : string -> option datetime)
    ws_id ws env module m (rlist : list RefreshRecord) :
  outlier (model_performance fromisoformat ws_id ws env module m rlist) = true ->
  summary_slow rlist = true.
Proof.
  rewrite outlier_field. unfold model_performance.
  destruct (interval_block fromisoformat rlist) as [fq av]. cbn [avg_sec last_sec].
  intros H. apply andb_true_iff in H. destruct H as [Hpos Hgt].
  destruct rlist as [|latest rest]; [discriminate|].
  unfold summary_slow.
  destruct (durations_of (latest :: rest)) as [|d0 ds]; [discriminate|].
  exact Hgt.
Qed.

Lemma outlier_is_slow_witness :
  let rlist :=
    [Sample.refresh "2024-01-02T00:00:00Z" "Completed" (Some 115%Q);
     Sample.refresh "2024-01-01T00:00:00Z" "Completed" (Some 85%Q)] in
  outlier (model_performance Iso.fromisoformat "ws1"
             (Sample.workspace "ws1" "Sales") "PROD" "Finance"
             (Sample.model "m1" "Orders") rlist) = true
  /\ summary_slow rlist = true.
Proof.
  intros rlist.
  assert (H : outlier (model_performance Iso.fromisoformat "ws1"
                         (Sample.workspace "ws1" "Sales") "PROD" "Finance"
                         (Sample.model "m1" "Orders") rlist) = true)
    by reflexivity.
  split; [exact H|].
  exact (outlier_is_slow Iso.fromisoformat "ws1"
           (Sample.workspace "ws1" "Sales") "PROD" "Finance"
           (Sample.model "m1" "Orders") rlist H).
Defined.

(** On a refresh list without a malformed start, [build_performance]
    reports the interval that [compute_avg_interval_hours] stores for the
    same list, and its reciprocal as the frequency. *)
Theorem performance_interval_is_avg_interval
    (fromisoformat : string -> option datetime)
    ws_id ws env module m (rlist : list RefreshRecord) :
  Forall (fun r => well_read fromisoformat r = true) rlist ->
  let mp := model_performance fromisoformat ws_id ws env module m rlist in
  avg_interval_hours mp = avg_interval_of fromisoformat rlist
  /\ freq_per_hour mp = freq_of (avg_interval_of fromisoformat rlist).
Proof.
  intros Hw mp.
  pose proof (interval_block_fields fromisoformat ws_id ws env module m rlist)
    as Hb.
  cbv zeta in Hb. fold mp in Hb.
  rewrite (interval_block_well_read fromisoformat rlist Hw) in Hb.
  injection Hb as Hf Ha. split; assumption.
Qed.

Lemma performance_interval_is_avg_interval_witness :
  let rlist :=
    [Sample.refresh "2024-01-01T06:00:00Z" "Completed" (Some 60%Q);
     Sample.refresh "" "Completed" None;
     Sample.refresh "2024-01-01T00:00:00Z" "Failed" (Some 30%Q)] in
  let mp := model_performance Iso.fromisoformat "ws1"
              (Sample.workspace "ws1" "Sales") "PROD" "Finance"
              (Sample.model "m1" "Orders") rlist in
  Forall (fun r => well_read Iso.fromisoformat r = true) rlist
  /\ avg_interval_hours mp = avg_interval_of Iso.fromisoformat rlist
  /\ (avg_interval_hours mp == 6)%Q.
Proof.
  intros rlist mp.
  assert (Hw : Forall (fun r => well_read Iso.fromisoformat r = true) rlist)
    by (repeat constructor).
  split; [exact Hw|].
  destruct (performance_interval_is_avg_interval Iso.fromisoformat "ws1"
              (Sample.workspace "ws1" "Sales") "PROD" "Finance"
              (Sample.model "m1" "Orders") rlist Hw) as [Ha _].
  split; [exact Ha|reflexivity].
Defined.

(** ** Numbers of the estimates *)

Section NumberFacts.

Lemma or_zero_Qeq (d : Q) : (Py.or_zero (Some d) == d)%Q.
Proof.
  simpl. destruct (Qeq_bool d 0) eqn:E; [|reflexivity].
  apply Qeq_bool_iff in E. now rewrite E.
Qed.

Lemma fold_Qplus_acc (l : list Q) (a : Q) :
  (fold_left Qplus l a == a + fold_left Qplus l 0)%Q.
Proof.
  revert a. induction l as [|q l IH]; simpl; intros a.
  - ring.
  - rewrite (IH (a + q)%Q), (IH (0 + q)%Q). ring.
Qed.

Lemma sum_cons (q : Q) (l : list Q) : (Py.sum (q :: l) == q + Py.sum l)%Q.
Proof.
  unfold Py.sum. simpl. rewrite fold_Qplus_acc. ring.
Qed.

Lemma mean_single (d : Q) : (Py.mean [d] == d)%Q.
Proof.
  unfold Py.mean. rewrite sum_cons. unfold Py.sum. simpl. field.
Qed.

Lemma Qgt_bool_Qeq (a a' b b' : Q) :
  (a == a')%Q -> (b == b')%Q -> Qgt_bool a b = Qgt_bool a' b'.
Proof.
  intros Ea Eb. unfold Qgt_bool. now rewrite Ea, Eb.
Qed.

Lemma Qle_bool_Qeq (a a' b : Q) : (a == a')%Q -> Qle_bool a b = Qle_bool a' b.
Proof. intros Ea. now rewrite Ea. Qed.

Lemma hours_between_nonneg (a b : Z) : (a <= b)%Z -> (0 <= hours_between a b)%Q.
Proof.
  intros Hab. unfold hours_between.
  apply Qle_shift_div_l; [reflexivity|]. rewrite Qmult_0_l.
  apply Qle_shift_div_l; [reflexivity|]. rewrite Qmult_0_l.
  rewrite <- (Zle_Qle 0). lia.
Qed.



Lemma sort_instants_sorted (l : list Z) :
  StronglySorted Z.le (sort_stable Z.ltb l).
Proof.
  eapply StronglySorted_impl; [|apply sort_stable_sorted].
  - unfold in_order. intros a b E. apply Z.ltb_ge in E. exact E.
  - intros a b E. apply Z.ltb_lt in E. apply Z.ltb_ge. lia.
  - unfold in_order. intros a b c Hab Hbc.
    apply Z.ltb_ge in Hab. apply Z.ltb_ge in Hbc. apply Z.ltb_ge. lia.
Qed.

Lemma deltas_of_nonneg (l : list Z) :
  StronglySorted Z.le l -> Forall (fun d => 0 <= d)%Q (deltas_of l).
Proof.
  induction 1 as [|a l Hs IH Ha]; [constructor|].
  destruct l as [|b l]; [constructor|].
  cbn [deltas_of]. constructor; [|exact IH].
  apply hours_between_nonneg. now inversion Ha.
Qed.

Lemma mean_or_zero_nonneg (l : list Q) :
  Forall (fun d => 0 <= d)%Q l -> (0 <= mean_or_zero l)%Q.
Proof.
  destruct l as [|d0 l]; intros Hl; [apply Qle_refl|].
  now apply mean_nonneg.
Qed.

Lemma freq_of_nonneg (avg : Q) : (0 <= avg)%Q -> (0 <= freq_of avg)%Q.
Proof.
  intros Ha. unfold freq_of. destruct (Qeq_bool avg 0); [apply Qle_refl|].
  unfold Qdiv. rewrite Qmult_1_l. now apply Qinv_le_0_compat.
Qed.

Lemma gap_mean_nonneg (l : list Z) :
  (0 <= mean_or_zero (deltas_of (sort_stable Z.ltb l)))%Q.
Proof.
  apply mean_or_zero_nonneg, deltas_of_nonneg, sort_instants_sorted.
Qed.

Lemma Forall_dict_set {V} (P : V -> Prop) (k : string) (v : V) (d : dict string V) :
  Forall (fun kv => P (snd kv)) d -> P v ->
  Forall (fun kv => P (snd kv)) (dict_set k v d).
Proof.
  intros Hd Hv. induction Hd as [|[k' v'] d Hk Hd IH]; simpl.
  - repeat constructor. exact Hv.
  - destruct (k' =? k)%string; constructor; assumption.
Qed.

End NumberFacts.

(** A model with a single refresh record of duration [D] and a completed
    status has [avg_sec] and [last_sec] equal to [D], is no outlier (its
    only run is its own baseline), is efficient exactly when
    [0 < D <= 300], and has no interval estimate. *)
Theorem single_completed_refresh
    (fromisoformat : string -> option datetime)
    ws_id ws env module m (r : RefreshRecord) (D : Q) :
  r_duration_seconds r = Some D ->
  is_completed r = true ->
  let mp := model_performance fromisoformat ws_id ws env module m [r] in
  (avg_sec mp == D)%Q /\ (last_sec mp == D)%Q
  /\ outlier mp = false
  /\ efficient mp = Qgt_bool D 0 && Qle_bool D 300
  /\ avg_interval_hours mp = 0%Q /\ freq_per_hour mp = 0%Q.
Proof.
  intros Hd Hc mp.
  destruct (counts_fields fromisoformat ws_id ws env module m [r])
    as (Hf & _ & _ & Ha & _).
  destruct (identity_fields fromisoformat ws_id ws env module m [r])
    as (_ & _ & Hl).
  fold mp in Hf, Ha, Hl. cbn [durations_of] in Ha. rewrite Hd in Ha, Hl.
  cbn [mean_or_zero filter List.length] in Ha, Hf. rewrite Hc in Hf.
  assert (Ea : (avg_sec mp == D)%Q) by (rewrite Ha; apply mean_single).
  assert (El : (last_sec mp == D)%Q) by (rewrite Hl; apply or_zero_Qeq).
  split; [exact Ea|]. split; [exact El|]. split; [|split].
  - unfold mp. rewrite outlier_field. fold mp.
    rewrite (Qgt_bool_Qeq _ D _ 0 Ea (Qeq_refl 0)).
    assert (Em : (avg_sec mp * (11 # 10) == D * (11 # 10))%Q) by now rewrite Ea.
    rewrite (Qgt_bool_Qeq _ D _ _ El Em).
    destruct (Qgt_bool D 0) eqn:Ep; [|reflexivity]. cbn [andb].
    apply Qgt_bool_iff in Ep. apply Qgt_bool_false. lra.
  - unfold mp. rewrite efficient_field. fold mp. rewrite Hf. cbn [Nat.eqb andb].
    now rewrite (Qgt_bool_Qeq _ D _ 0 Ea (Qeq_refl 0)), (Qle_bool_Qeq _ D _ Ea).
  - pose proof (interval_block_fields fromisoformat ws_id ws env module m [r])
      as Hb.
    cbv zeta in Hb. fold mp in Hb.
    assert (Ez : interval_block fromisoformat [r] = (0%Q, 0%Q)).
    { unfold interval_block. cbn [timestamps_raising].
      destruct (read_start fromisoformat r); reflexivity. }
    rewrite Ez in Hb. injection Hb as Hfq Hav. split; assumption.
Qed.

Lemma single_completed_refresh_witness :
  let r := Sample.refresh "2024-01-01T00:00:00Z" "Completed" (Some 120%Q) in
  let mp := model_performance Iso.fromisoformat "ws1"
              (Sample.workspace "ws1" "Sales") "PROD" "Finance"
              (Sample.model "m1" "Orders") [r] in
  is_completed r = true
  /\ (avg_sec mp == 120)%Q /\ outlier mp = false /\ efficient mp = true.
Proof.
  intros r mp.
  assert (Hc : is_completed r = true) by reflexivity.
  destruct (single_completed_refresh Iso.fromisoformat "ws1"
              (Sample.workspace "ws1" "Sales") "PROD" "Finance"
              (Sample.model "m1" "Orders") r 120%Q eq_refl Hc)
    as (Ha & _ & Ho & He & _).
  repeat split; assumption.
Defined.

(** The interval estimate and the frequency are never negative: the
    gaps are taken between sorted instants.  So for every record of
    [build_performance] and for every dataset of
    [compute_avg_interval_hours]. *)
Theorem interval_estimates_are_not_negative
    (fromisoformat : string -> option datetime)
    workspaces categories semantic_models refreshes_by_ws skip_empty
    (refreshes_by_ds : dict string (list RefreshRecord)) :
  Forall (fun mp => (0 <= avg_interval_hours mp)%Q /\ (0 <= freq_per_hour mp)%Q)
    (build_performance fromisoformat workspaces categories semantic_models
       refreshes_by_ws skip_empty)
  /\ Forall (fun kv => (0 <= snd kv)%Q)
       (compute_avg_interval_hours fromisoformat refreshes_by_ds).
Proof.
  split.
  - apply build_performance_Forall. intros ws_id ws env module m rlist.
    pose proof (interval_block_fields fromisoformat ws_id ws env module m rlist)
      as Hb.
    cbv zeta in Hb.
    assert (Hnn : (0 <= snd (interval_block fromisoformat rlist)
                   /\ 0 <= fst (interval_block fromisoformat rlist))%Q).
    { unfold interval_block. destruct rlist as [|r rest]; [split; apply Qle_refl|].
      destruct (timestamps_raising fromisoformat (r :: rest)) as [unsorted|];
        [|split; apply Qle_refl].
      destruct (2 <=? _)%nat; [|split; apply Qle_refl].
      cbn [fst snd]. split; [|apply freq_of_nonneg]; apply gap_mean_nonneg. }
    rewrite <- Hb in Hnn. exact Hnn.
  - unfold compute_avg_interval_hours.
    assert (H : forall l acc,
               Forall (fun kv : string * Q => (0 <= snd kv)%Q) acc ->
               Forall (fun kv : string * Q => (0 <= snd kv)%Q)
                 (fold_left
                    (fun freq '(ds_id, rlist) =>
                       dict_set ds_id (avg_interval_of fromisoformat rlist) freq)
                    l acc)).
    { induction l as [|[ds_id rlist] l IH]; intros acc Hacc; [exact Hacc|].
      cbn [fold_left]. apply IH.
      apply (Forall_dict_set (fun q => (0 <= q)%Q)); [exact Hacc|].
      unfold avg_interval_of. destruct (2 <=? _)%nat; [|apply Qle_refl].
      apply gap_mean_nonneg. }
    apply H. constructor.
Qed.

(** ** The estimate as a function of the instants *)

Section SpanFacts.




Lemma sorted_perm_eq (l l' : list Z) :
  StronglySorted Z.le l -> StronglySorted Z.le l' -> Permutation l l' -> l = l'.
Proof.
  intros Hl. revert l'. induction Hl as [|a l Hs IH Ha]; intros l' Hl' Hp.
  - apply Permutation_nil in Hp. now subst.
  - destruct Hl' as [|b l' Hs' Hb].
    + apply Permutation_sym, Permutation_nil in Hp. discriminate.
    + assert (E : a = b).
      { rewrite Forall_forall in Ha, Hb.
        assert (Hba : In b (a :: l))
          by (apply (Permutation_in _ (Permutation_sym Hp)); now left).
        assert (Hab : In a (b :: l')) by (apply (Permutation_in _ Hp); now left).
        destruct Hba as [->|Hba]; [reflexivity|].
        destruct Hab as [<-|Hab]; [reflexivity|].
        specialize (Ha b Hba). specialize (Hb a Hab). lia. }
      subst b. f_equal. apply IH; [assumption|].
      now apply Permutation_cons_inv with a.
Qed.

Lemma sort_instants_perm (l l' : list Z) :
  Permutation l l' -> sort_stable Z.ltb l = sort_stable Z.ltb l'.
Proof.
  intros Hp. apply sorted_perm_eq; try apply sort_instants_sorted.
  rewrite (sort_stable_perm Z.ltb l), (sort_stable_perm Z.ltb l'). exact Hp.
Qed.

Lemma forallb_perm {A} (p : A -> bool) (l l' : list A) :
  Permutation l l' -> forallb p l = forallb p l'.
Proof.
  induction 1 as [|a l l' _ IH|a b l|l l' l'' _ IH1 _ IH2]; simpl.
  - reflexivity.
  - now rewrite IH.
  - destruct (p a), (p b); reflexivity.
  - congruence.
Qed.

Variable fromisoformat : string -> option datetime.

Lemma timestamps_skipping_perm (rlist rlist' : list RefreshRecord) :
  Permutation rlist rlist' ->
  Permutation (timestamps_skipping fromisoformat rlist)
    (timestamps_skipping fromisoformat rlist').
Proof.
  induction 1 as [|r l l' _ IH|r r' l|l l' l'' _ IH1 _ IH2];
    cbn [timestamps_skipping].
  - constructor.
  - destruct (read_start fromisoformat r); try assumption. now constructor.
  - destruct (read_start fromisoformat r), (read_start fromisoformat r');
      try reflexivity. apply perm_swap.
  - now transitivity (timestamps_skipping fromisoformat l').
Qed.

Lemma timestamps_raising_forallb (rlist : list RefreshRecord) :
  timestamps_raising fromisoformat rlist
  = if forallb (well_read fromisoformat) rlist
    then Some (timestamps_skipping fromisoformat rlist) else None.
Proof.
  induction rlist as [|r rlist IH]; [reflexivity|].
  cbn [timestamps_raising timestamps_skipping forallb]. unfold well_read at 1.
  destruct (read_start fromisoformat r); rewrite ?IH; cbn [andb];
    try reflexivity.
  destruct (forallb _ rlist); reflexivity.
Qed.

End SpanFacts.



(** The interval estimate does not depend on the order of the refresh
    list: two lists with the same records give the same interval in
    [compute_avg_interval_hours] and the same interval and frequency in
    [build_performance]. *)
Theorem interval_estimate_ignores_order
    (fromisoformat : string -> option datetime)
    (rlist rlist' : list RefreshRecord) :
  Permutation rlist rlist' ->
  avg_interval_of fromisoformat rlist = avg_interval_of fromisoformat rlist'
  /\ interval_block fromisoformat rlist = interval_block fromisoformat rlist'.
Proof.
  intros Hp.
  pose proof (sort_instants_perm _ _
                (timestamps_skipping_perm fromisoformat _ _ Hp)) as Hs.
  split.
  - unfold avg_interval_of. now rewrite Hs.
  - unfold interval_block. rewrite !timestamps_raising_forallb.
    rewrite (forallb_perm (well_read fromisoformat) _ _ Hp).
    destruct rlist as [|r l], rlist' as [|r' l']; try reflexivity.
    + apply Permutation_nil in Hp. discriminate.
    + apply Permutation_sym, Permutation_nil in Hp. discriminate.
    + destruct (forallb (well_read fromisoformat) (r' :: l')); [|reflexivity].
      cbv beta iota zeta. now rewrite Hs.
Qed.

Lemma interval_estimate_ignores_order_witness :
  let a := Sample.refresh "2024-01-01T06:00:00Z" "Completed" None in
  let b := Sample.refresh "2024-01-01T02:00:00Z" "Completed" None in
  let c := Sample.refresh "2024-01-01T00:00:00Z" "Completed" None in
  Permutation [a; b; c] [b; c; a]
  /\ avg_interval_of Iso.fromisoformat [a; b; c]
     = avg_interval_of Iso.fromisoformat [b; c; a].
Proof.
  intros a b c.
  assert (Hp : Permutation [a; b; c] [b; c; a]).
  { apply Permutation_trans with [b; a; c]; [apply perm_swap|].
    apply perm_skip, perm_swap. }
  split; [exact Hp|].
  exact (proj1 (interval_estimate_ignores_order Iso.fromisoformat _ _ Hp)).
Defined.

(** ** Composition of window filters *)

Section FilterComposition.
Variable fromisoformat : string -> option datetime.

Lemma in_window_iff (c : Z) (r : RefreshRecord) :
  in_window fromisoformat c r = true
  <-> exists dt, read_start fromisoformat r = Instant dt /\ (c <= dt)%Z.
Proof.
  unfold in_window. destruct (read_start fromisoformat r) as [| |dt].
  - split; [discriminate|]. intros (dt & E & _). discriminate.
  - split; [discriminate|]. intros (dt & E & _). discriminate.
  - rewrite Z.leb_le. split.
    + intros Hc. now exists dt.
    + intros (dt' & E & Hc). now injection E as ->.
Qed.

Lemma in_window_max (c1 c2 : Z) (r : RefreshRecord) :
  in_window fromisoformat (Z.max c1 c2) r
  = in_window fromisoformat c2 r && in_window fromisoformat c1 r.
Proof.
  unfold in_window. destruct (read_start fromisoformat r) as [| |dt];
    try reflexivity.
  destruct (c2 <=? dt)%Z eqn:E2, (c1 <=? dt)%Z eqn:E1; cbn [andb];
    rewrite ?Z.leb_le, ?Z.leb_gt in *; lia.
Qed.

Lemma filter_andb {A} (p q : A -> bool) (l : list A) :
  filter p (filter q l) = filter (fun a => p a && q a) l.
Proof.
  induction l as [|a l IH]; simpl; [reflexivity|].
  destruct (q a); simpl; rewrite ?andb_true_r, ?andb_false_r;
    [destruct (p a)|]; now rewrite IH.
Qed.

Lemma filter_in_window_twice (c1 c2 : Z) (rlist : list RefreshRecord) :
  filter (in_window fromisoformat c2) (filter (in_window fromisoformat c1) rlist)
  = filter (in_window fromisoformat (Z.max c1 c2)) rlist.
Proof.
  rewrite filter_andb. apply filter_ext. intros r. now rewrite in_window_max.
Qed.

Lemma filter_datasets_twice (c1 c2 : Z) (datasets : dict string (list RefreshRecord)) :
  filter_datasets fromisoformat c2 (filter_datasets fromisoformat c1 datasets)
  = filter_datasets fromisoformat (Z.max c1 c2) datasets.
Proof.
  rewrite !filter_datasets_dict_map, rebuild_dict_map, rebuild_rebuild.
  rewrite dict_map_map. apply dict_map_ext. intros rlist.
  apply filter_in_window_twice.
Qed.

Lemma dict_get_dict_map {V W} (f : V -> W) (k : string) (d : dict string V) :
  dict_get k (dict_map f d) = option_map f (dict_get k d).
Proof.
  induction d as [|[k' v] d IH]; simpl; [reflexivity|].
  destruct (k' =? k)%string; [reflexivity|exact IH].
Qed.

Lemma is_dict_dict_map {V W} (f : V -> W) (d : dict string V) :
  is_dict d -> is_dict (dict_map f d).
Proof. unfold is_dict. now rewrite keys_dict_map. Qed.

End FilterComposition.

(** Filtering with cutoff [c1] and then with cutoff [c2] is filtering
    once with the later of the two; so two window filters commute, and a
    window can be narrowed from an already filtered mapping. *)
Theorem filter_refreshes_by_window_twice
    (fromisoformat : string -> option datetime)
    (refreshes_by_ws : dict string (dict string (list RefreshRecord)))
    (c1 c2 : Z) :
  filter_refreshes_by_window fromisoformat
    (filter_refreshes_by_window fromisoformat refreshes_by_ws (Some c1)) (Some c2)
  = filter_refreshes_by_window fromisoformat refreshes_by_ws (Some (Z.max c1 c2))
  /\ filter_refreshes_by_window fromisoformat
       (filter_refreshes_by_window fromisoformat refreshes_by_ws (Some c1)) (Some c2)
     = filter_refreshes_by_window fromisoformat
         (filter_refreshes_by_window fromisoformat refreshes_by_ws (Some c2))
         (Some c1).
Proof.
  assert (H : forall a b,
             filter_refreshes_by_window fromisoformat
               (filter_refreshes_by_window fromisoformat refreshes_by_ws (Some a))
               (Some b)
             = filter_refreshes_by_window fromisoformat refreshes_by_ws
                 (Some (Z.max a b))).
  { intros a b.
    rewrite !filter_refreshes_dict_map, rebuild_dict_map, rebuild_rebuild.
    rewrite dict_map_map. apply dict_map_ext. intros datasets.
    apply filter_datasets_twice. }
  split; [apply H|]. now rewrite (H c1 c2), (H c2 c1), Z.max_comm.
Qed.

(** The filtered copy of a dictionary of dictionaries has the workspace
    keys and the dataset keys of the input, in their order, and is again
    a dictionary of dictionaries; under each key are, in their order, the
    records whose start parses to an instant at or after the cutoff. *)
Theorem filter_refreshes_by_window_keeps_shape
    (fromisoformat : string -> option datetime)
    (refreshes_by_ws : dict string (dict string (list RefreshRecord)))
    (c : Z) :
  well_formed refreshes_by_ws ->
  let filtered :=
    filter_refreshes_by_window fromisoformat refreshes_by_ws (Some c) in
  well_formed filtered
  /\ keys filtered = keys refreshes_by_ws
  /\ (forall ws_id,
         option_map keys (dict_get ws_id filtered)
         = option_map keys (dict_get ws_id refreshes_by_ws))
  /\ (forall ws_id ds_id,
         rlist_of match dict_get ws_id filtered with
                  | Some d => d
                  | None => []
                  end (Some ds_id)
         = filter (in_window fromisoformat c)
             (rlist_of match dict_get ws_id refreshes_by_ws with
                       | Some d => d
                       | None => []
                       end (Some ds_id)))
  /\ (forall r,
         in_window fromisoformat c r = true
         <-> exists dt, read_start fromisoformat r = Instant dt /\ (c <= dt)%Z).
Proof.
  intros Hwf filtered.
  assert (E : filtered
              = dict_map (dict_map (filter (in_window fromisoformat c)))
                  refreshes_by_ws)
    by (apply filter_refreshes_well_formed; exact Hwf).
  rewrite E. destruct Hwf as [Hd Hin].
  split; [|split; [|split; [|split]]].
  - split; [now apply is_dict_dict_map|].
    unfold dict_map at 1. apply Forall_map.
    eapply Forall_impl; [|exact Hin]. intros [k ds] Hds. simpl.
    now apply is_dict_dict_map.
  - apply keys_dict_map.
  - intros ws_id. rewrite dict_get_dict_map.
    destruct (dict_get ws_id refreshes_by_ws); [|reflexivity].
    simpl. now rewrite keys_dict_map.
  - intros ws_id ds_id. rewrite dict_get_dict_map.
    destruct (dict_get ws_id refreshes_by_ws) as [ds|]; [|reflexivity].
    cbn [option_map rlist_of]. rewrite dict_get_dict_map.
    destruct (dict_get ds_id ds); reflexivity.
  - intros r. apply in_window_iff.
Qed.

Lemma filter_refreshes_by_window_keeps_shape_witness :
  let refreshes_by_ws :=
    [("ws1",
      [("m1", [Sample.refresh "2024-01-02T12:00:00Z" "Completed" (Some 120%Q);
               Sample.refresh "2023-12-30T00:00:00Z" "Failed" (Some 300%Q)]);
       ("m2", [Sample.refresh "2023-11-01T00:00:00Z" "Completed" (Some 30%Q)])])] in
  let filtered :=
    filter_refreshes_by_window Iso.fromisoformat refreshes_by_ws
      (Some 1704067200000000%Z) in
  well_formed refreshes_by_ws
  /\ well_formed filtered
  /\ keys filtered = keys refreshes_by_ws.
Proof.
  intros refreshes_by_ws filtered.
  assert (Hwf : well_formed refreshes_by_ws).
  { split.
    - repeat constructor; simpl; tauto.
    - repeat constructor; simpl; intuition discriminate. }
  split; [exact Hwf|].
  destruct (filter_refreshes_by_window_keeps_shape Iso.fromisoformat
              refreshes_by_ws 1704067200000000%Z Hwf) as (Hw & Hk & _).
  split; assumption.
Defined.

(** ** More on the capacity series *)

Section CapacityMore.
Variable fromisoformat : string -> option datetime.

Lemma capacity_series_perm (ms : list CapacityPoint) (cutoff : option Z) :
  Permutation (build_capacity_series fromisoformat ms cutoff)
    (map point_of (filter (retained fromisoformat cutoff) ms)).
Proof.
  unfold build_capacity_series. destruct ms as [|p ms]; [constructor|].
  rewrite <- capacity_loop_retained. apply sort_by_x_perm.
Qed.

Lemma capacity_series_sorted_loop (ms : list CapacityPoint) (cutoff : option Z) :
  build_capacity_series fromisoformat ms cutoff
  = sort_by_x (capacity_loop fromisoformat cutoff ms).
Proof. destruct ms; reflexivity. Qed.

Lemma string_ltb_irrefl (s : string) : (s <? s) = false.
Proof.
  destruct (s <? s) eqn:E; [|reflexivity].
  pose proof (string_ltb_asym s s E). congruence.
Qed.

Lemma filter_map_swap {A B} (p : B -> bool) (g : A -> B) (l : list A) :
  filter p (map g l) = map g (filter (fun a => p (g a)) l).
Proof.
  induction l as [|a l IH]; simpl; [reflexivity|].
  destruct (p (g a)); simpl; now rewrite IH.
Qed.

Lemma retained_cutoff_mono (c1 c2 : Z) (p : CapacityPoint) :
  (c1 <= c2)%Z ->
  retained fromisoformat (Some c2) p = true ->
  retained fromisoformat (Some c1) p = true
  /\ retained fromisoformat None p = true.
Proof.
  unfold retained. intros Hc.
  destruct (ts_of p) as [ts|]; [|discriminate].
  destruct (val_of p); [|discriminate].
  destruct (parse_utc fromisoformat ts) as [dt|]; [|discriminate].
  rewrite !Z.leb_le. intros H. split; [lia|reflexivity].
Qed.

Lemma filter_length_impl {A} (p q : A -> bool) (l : list A) :
  (forall a, p a = true -> q a = true) ->
  (List.length (filter p l) <= List.length (filter q l))%nat.
Proof.
  intros Hpq. induction l as [|a l IH]; simpl; [lia|].
  destruct (p a) eqn:Ep.
  - rewrite (Hpq a Ep). simpl. lia.
  - destruct (q a); simpl; lia.
Qed.

End CapacityMore.

(** Samples that carry the same timestamp string come out of the
    Capacity Series Builder in the order they went in: the sort by [x]
    is stable. *)
Theorem capacity_series_is_stable
    (fromisoformat : string -> option datetime)
    (capacity_metrics : list CapacityPoint) (cutoff : option Z) (ts : string) :
  filter (fun pt => x pt =? ts)
    (build_capacity_series fromisoformat capacity_metrics cutoff)
  = map point_of
      (filter (fun p => retained fromisoformat cutoff p
                        && (Py.text (ts_of p) =? ts))
         capacity_metrics).
Proof.
  rewrite capacity_series_sorted_loop. unfold sort_by_x.
  rewrite sort_stable_filter.
  - rewrite capacity_loop_retained, filter_map_swap, filter_andb.
    f_equal. apply filter_ext. intros p. apply andb_comm.
  - intros a b Ha Hb. apply String.eqb_eq in Ha. apply String.eqb_eq in Hb.
    rewrite Ha, Hb. apply string_ltb_irrefl.
Qed.

(** A later cutoff only removes points: the series of a window is
    contained in the series of every wider window and in the series
    without cutoff, and is not longer. *)
Theorem capacity_series_shrinks_with_cutoff
    (fromisoformat : string -> option datetime)
    (capacity_metrics : list CapacityPoint) (c1 c2 : Z) :
  (c1 <= c2)%Z ->
  let narrow := build_capacity_series fromisoformat capacity_metrics (Some c2) in
  let wide := build_capacity_series fromisoformat capacity_metrics (Some c1) in
  let all := build_capacity_series fromisoformat capacity_metrics None in
  incl narrow wide /\ incl wide all
  /\ (List.length narrow <= List.length wide <= List.length all)%nat.
Proof.
  intros Hc narrow wide all.
  assert (Hin : forall ca cb,
             (forall p, retained fromisoformat ca p = true ->
                        retained fromisoformat cb p = true) ->
             incl (build_capacity_series fromisoformat capacity_metrics ca)
                  (build_capacity_series fromisoformat capacity_metrics cb)
             /\ (List.length
                   (build_capacity_series fromisoformat capacity_metrics ca)
                 <= List.length
                      (build_capacity_series fromisoformat capacity_metrics cb))%nat).
  { intros ca cb Himp. split.
    - intros pt Hpt.
      apply (Permutation_in _ (capacity_series_perm fromisoformat _ ca)) in Hpt.
      apply (Permutation_in _
               (Permutation_sym (capacity_series_perm fromisoformat _ cb))).
      apply in_map_iff in Hpt. destruct Hpt as (p & <- & Hp).
      apply in_map. apply filter_In in Hp. apply filter_In.
      split; [tauto|]. apply Himp. tauto.
    - rewrite (Permutation_length (capacity_series_perm fromisoformat _ ca)).
      rewrite (Permutation_length (capacity_series_perm fromisoformat _ cb)).
      rewrite !length_map. now apply filter_length_impl. }
  destruct (Hin (Some c2) (Some c1)) as [I1 L1].
  { intros p Hp. now apply (retained_cutoff_mono fromisoformat c1 c2 p Hc). }
  destruct (Hin (Some c1) None) as [I2 L2].
  { intros p Hp. now apply (retained_cutoff_mono fromisoformat c1 c1 p (Z.le_refl _)). }
  repeat split; assumption.
Qed.

Lemma capacity_series_shrinks_with_cutoff_witness :
  let capacity_metrics :=
    [ {| p_ts := Some "2024-01-03T00:00:00Z"; p_timestamp := None;
         p_cu := None; p_value := Some 7%Q |};
      {| p_ts := Some "2023-12-01T00:00:00Z"; p_timestamp := None;
         p_cu := Some 5%Q; p_value := None |} ] in
  (1701388800000000 <= 1704067200000000)%Z
  /\ incl (build_capacity_series Iso.fromisoformat capacity_metrics
             (Some 1704067200000000%Z))
          (build_capacity_series Iso.fromisoformat capacity_metrics
             (Some 1701388800000000%Z))
  /\ List.length (build_capacity_series Iso.fromisoformat capacity_metrics
                    (Some 1704067200000000%Z)) = 1%nat
  /\ List.length (build_capacity_series Iso.fromisoformat capacity_metrics
                    (Some 1701388800000000%Z)) = 2%nat.
Proof.
  intros capacity_metrics.
  assert (Hc : (1701388800000000 <= 1704067200000000)%Z) by lia.
  split; [exact Hc|].
  destruct (capacity_series_shrinks_with_cutoff Iso.fromisoformat
              capacity_metrics 1701388800000000 1704067200000000 Hc)
    as (I1 & _ & _).
  split; [exact I1|]. split; reflexivity.
Defined.

(** ** Nested windows *)

Section NestedWindows.
Variable fromisoformat : string -> option datetime.

Lemma Forall2_flat_map {A B C} (R : B -> C -> Prop)
    (f : A -> list B) (g : A -> list C) (l : list A) :
  (forall a, Forall2 R (f a) (g a)) -> Forall2 R (flat_map f l) (flat_map g l).
Proof.
  intros H. induction l as [|a l IH]; simpl; [constructor|].
  apply Forall2_app; [apply H|exact IH].
Qed.

Lemma filter_length_le {A} (p : A -> bool) (l : list A) :
  (List.length (filter p l) <= List.length l)%nat.
Proof.
  induction l as [|a l IH]; simpl; [lia|]. destruct (p a); simpl; lia.
Qed.

Lemma filter_filter_length_le {A} (p q : A -> bool) (l : list A) :
  (List.length (filter p (filter q l)) <= List.length (filter p l))%nat.
Proof.
  rewrite filter_andb. apply filter_length_impl.
  intros a H. now apply andb_true_iff in H.
Qed.

(** The record over a filtered list against the record over the list. *)
Lemma model_performance_narrower ws_id ws env module m
    (q : RefreshRecord -> bool) (rlist : list RefreshRecord) :
  narrower_record
    (model_performance fromisoformat ws_id ws env module m (filter q rlist))
    (model_performance fromisoformat ws_id ws env module m rlist).
Proof.
  destruct (counts_fields fromisoformat ws_id ws env module m (filter q rlist))
    as (Hf1 & Hs1 & Ht1 & _).
  destruct (counts_fields fromisoformat ws_id ws env module m rlist)
    as (Hf2 & Hs2 & Ht2 & _).
  destruct (identity_fields fromisoformat ws_id ws env module m (filter q rlist))
    as (Hw1 & Hm1 & _).
  destruct (identity_fields fromisoformat ws_id ws env module m rlist)
    as (Hw2 & Hm2 & _).
  cbv zeta in *. unfold narrower_record.
  rewrite Hf1, Hs1, Ht1, Hf2, Hs2, Ht2, Hw1, Hm1, Hw2, Hm2.
  repeat split.
  - apply filter_length_le.
  - apply filter_filter_length_le.
  - apply filter_filter_length_le.
Qed.

Lemma rlist_of_filtered (c : Z)
    (refreshes_by_ws : dict string (dict string (list RefreshRecord)))
    (ws_id : string) (mid : option string) :
  well_formed refreshes_by_ws ->
  rlist_of match dict_get ws_id
                   (filter_refreshes_by_window fromisoformat refreshes_by_ws
                      (Some c)) with
           | Some d => d
           | None => []
           end mid
  = filter (in_window fromisoformat c)
      (rlist_of match dict_get ws_id refreshes_by_ws with
                | Some d => d
                | None => []
                end mid).
Proof.
  intros Hwf. rewrite (filter_refreshes_well_formed fromisoformat c _ Hwf).
  rewrite dict_get_dict_map.
  destruct (dict_get ws_id refreshes_by_ws) as [ds|];
    [|destruct mid; reflexivity].
  destruct mid as [k|]; [|reflexivity].
  cbn [option_map rlist_of]. rewrite dict_get_dict_map.
  destruct (dict_get k ds); reflexivity.
Qed.

(** Two listings over refresh mappings whose lists are, model by model,
    a filtered list and its list. *)
Lemma build_performance_narrower workspaces categories semantic_models
    (narrow wide : dict string (dict string (list RefreshRecord))) :
  (forall ws_id mid,
      exists q,
        rlist_of match dict_get ws_id narrow with
                 | Some d => d
                 | None => []
                 end mid
        = filter q (rlist_of match dict_get ws_id wide with
                             | Some d => d
                             | None => []
                             end mid)) ->
  Forall2 narrower_record
    (build_performance fromisoformat workspaces categories semantic_models
       narrow false)
    (build_performance fromisoformat workspaces categories semantic_models
       wide false).
Proof.
  intros H. unfold build_performance.
  apply Forall2_flat_map. intros [ws_id models_list].
  apply Forall2_flat_map. intros m. cbn [andb].
  destruct (H ws_id (mid_of m)) as [q ->].
  constructor; [apply model_performance_narrower|constructor].
Qed.

End NestedWindows.

(** The three windows are nested.  Model by model, the record of the
    24-hour window counts no more refreshes, failures or successes than
    the record of the 7-day window, which counts no more than the record
    of the all-time window. *)
Theorem windows_are_nested
    (fromisoformat : string -> option datetime)
    now workspaces categories semantic_models refreshes_by_ws capacity_metrics :
  well_formed refreshes_by_ws ->
  exists w24 w7 wall,
    performance_sets fromisoformat now workspaces categories semantic_models
      refreshes_by_ws capacity_metrics
    = [("24h", w24); ("7d", w7); ("all", wall)]
    /\ Forall2 narrower_record (models w24) (models w7)
    /\ Forall2 narrower_record (models w7) (models wall).
Proof.
  intros Hwf. rewrite performance_sets_windows.
  do 3 eexists. split; [reflexivity|]. cbn [models performance_window].
  split.
  - apply build_performance_narrower. intros ws_id mid.
    exists (in_window fromisoformat (now - 1 * usec_per_day)).
    rewrite !(rlist_of_filtered fromisoformat _ _ _ _ Hwf).
    rewrite filter_in_window_twice. f_equal. f_equal.
    unfold usec_per_day, usec_per_hour, usec_per_second. lia.
  - apply build_performance_narrower. intros ws_id mid.
    exists (in_window fromisoformat (now - 7 * usec_per_day)).
    rewrite (rlist_of_filtered fromisoformat _ _ _ _ Hwf). reflexivity.
Qed.

Lemma windows_are_nested_witness :
  let refreshes_by_ws :=
    [("ws1",
      [("m1", [Sample.refresh "2024-01-02T12:00:00Z" "Completed" (Some 120%Q);
               Sample.refresh "2023-12-30T00:00:00Z" "Failed" (Some 300%Q);
               Sample.refresh "2023-11-01T00:00:00Z" "Failed" (Some 30%Q)])])] in
  well_formed refreshes_by_ws
  /\ map (fun kw => map total (models (snd kw)))
       (performance_sets Iso.fromisoformat 1704240000000000
          [Sample.workspace "ws1" "Sales"] [("ws1", Sample.prod_finance)]
          [("ws1", [Sample.model "m1" "Orders"])] refreshes_by_ws [])
     = [[1]; [2]; [3]]%nat
  /\ exists w24 w7 wall,
       performance_sets Iso.fromisoformat 1704240000000000
         [Sample.workspace "ws1" "Sales"] [("ws1", Sample.prod_finance)]
         [("ws1", [Sample.model "m1" "Orders"])] refreshes_by_ws []
       = [("24h", w24); ("7d", w7); ("all", wall)]
       /\ Forall2 narrower_record (models w24) (models w7)
       /\ Forall2 narrower_record (models w7) (models wall).
Proof.
  intros refreshes_by_ws.
  assert (Hwf : well_formed refreshes_by_ws).
  { split.
    - repeat constructor; simpl; tauto.
    - repeat constructor; simpl; intuition discriminate. }
  split; [exact Hwf|]. split; [reflexivity|].
  exact (windows_are_nested Iso.fromisoformat 1704240000000000
           [Sample.workspace "ws1" "Sales"] [("ws1", Sample.prod_finance)]
           [("ws1", [Sample.model "m1" "Orders"])] refreshes_by_ws [] Hwf).
Defined.

(** ** Lookups in dictionaries *)

Section LookupFacts.
Context {K : Type} `{PyKey K}.

Lemma dict_get_set_same {V} (k : K) (v : V) (d : dict K V) :
  dict_get k (dict_set k v d) = Some v.
Proof.
  induction d as [|[k' v'] d IH]; simpl.
  - now rewrite key_eqb_refl.
  - destruct (key_eqb k' k) eqn:E; simpl; rewrite E; [reflexivity|exact IH].
Qed.

Lemma dict_get_set_other {V} (k k0 : K) (v : V) (d : dict K V) :
  k0 <> k -> dict_get k (dict_set k0 v d) = dict_get k d.
Proof.
  intros Hne. induction d as [|[k' v'] d IH]; simpl.
  - now rewrite (proj2 (key_eqb_neq k0 k) Hne).
  - destruct (key_eqb k' k0) eqn:E; simpl.
    + apply key_eqb_eq in E. subst k'.
      now rewrite (proj2 (key_eqb_neq k0 k) Hne).
    + now rewrite IH.
Qed.

Lemma dict_get_In {V} (k : K) (v : V) (d : dict K V) :
  dict_get k d = Some v -> In (k, v) d.
Proof.
  induction d as [|[k' v'] d IH]; simpl; [discriminate|].
  destruct (key_eqb k' k) eqn:E.
  - apply key_eqb_eq in E. intros [= ->]. left. now subst.
  - intros Hg. right. now apply IH.
Qed.

Lemma dict_get_None {V} (k : K) (d : dict K V) :
  dict_get k d = None <-> ~ In k (keys d).
Proof.
  induction d as [|[k' v'] d IH]; simpl; [tauto|].
  destruct (key_eqb k' k) eqn:E.
  - apply key_eqb_eq in E. split; [discriminate|]. intros Hn. exfalso. tauto.
  - apply key_eqb_neq in E. rewrite IH. tauto.
Qed.

Lemma In_dict_set {V} (k k' : K) (v v' : V) (d : dict K V) :
  In (k', v') (dict_set k v d) -> (k' = k /\ v' = v) \/ In (k', v') d.
Proof.
  induction d as [|[k0 v0] d IH]; simpl.
  - intros [[= <- <-]|[]]. now left.
  - destruct (key_eqb k0 k) eqn:E; simpl.
    + apply key_eqb_eq in E. subst k0.
      intros [[= <- <-]|Hin]; [now left|right; now right].
    + intros [Heq|Hin]; [right; now left|].
      destruct (IH Hin) as [Hk|Hd]; [now left|right; now right].
Qed.

(** Storing an extended value under a key adds what the extension adds
    to the values of the dictionary taken together. *)
Lemma flat_map_dict_set_perm {V X} (g : V -> list X) (dflt : V)
    (k : K) (v : V) (e : X) (d : dict K V) :
  g dflt = [] ->
  Permutation (g v)
    (e :: g match dict_get k d with
            | Some v0 => v0
            | None => dflt
            end) ->
  Permutation (flat_map (fun kv => g (snd kv)) (dict_set k v d))
    (e :: flat_map (fun kv => g (snd kv)) d).
Proof.
  intros Hdflt. induction d as [|[k' v'] d IH]; simpl; intros Hp.
  - rewrite Hdflt in Hp. now rewrite app_nil_r.
  - destruct (key_eqb k' k) eqn:E; simpl.
    + change (e :: g v' ++ flat_map (fun kv => g (snd kv)) d)
        with ((e :: g v') ++ flat_map (fun kv => g (snd kv)) d).
      now apply Permutation_app_tail.
    + rewrite (IH Hp). apply Permutation_sym, Permutation_middle.
Qed.

(** A dictionary filled from a list holds, under a key, the value of the
    last element with that key. *)
Lemma dict_get_fold_set {A V} (kf : A -> K) (vf : A -> V) (k : K) (l : list A) :
  dict_get k (fold_left (fun d a => dict_set (kf a) (vf a) d) l [])
  = option_map vf (find (fun a => key_eqb (kf a) k) (rev l)).
Proof.
  induction l as [|a l IH] using rev_ind; [reflexivity|].
  rewrite fold_left_app, rev_app_distr. cbn [fold_left rev app find].
  destruct (key_eqb (kf a) k) eqn:E.
  - apply key_eqb_eq in E. subst k. apply dict_get_set_same.
  - apply key_eqb_neq in E. now rewrite dict_get_set_other.
Qed.

End LookupFacts.

(** ** Summary Builder *)

Section SummaryFacts.
Variable workspaces : list Workspace.
Variable semantic_models : dict string (list SemanticModel).
Variable refreshes_by_ws : dict string (dict string (list RefreshRecord)).

Lemma build_summary_fold (categories : dict string Category) :
  build_summary workspaces categories semantic_models refreshes_by_ws
  = fold_left (summary_step workspaces semantic_models refreshes_by_ws)
      categories ([], []).
Proof.
  unfold build_summary. apply fold_left_ext.
  intros [summary ws_stats] [ws_id cat]. unfold summary_step. cbn [fst snd].
  destruct (dict_get (Some ws_id) (ws_by_id_of workspaces)); reflexivity.
Qed.

Lemma find_None_existsb {A} (p : A -> bool) (l : list A) :
  find p l = None <-> existsb p l = false.
Proof.
  induction l as [|a l IH]; simpl; [tauto|].
  destruct (p a); simpl; [split; discriminate|exact IH].
Qed.

Lemma existsb_rev {A} (p : A -> bool) (l : list A) :
  existsb p (rev l) = existsb p l.
Proof.
  destruct (existsb p l) eqn:E.
  - apply existsb_exists in E. destruct E as (a & Ha & Hp).
    apply existsb_exists. exists a. split; [now apply in_rev in Ha|exact Hp].
  - destruct (existsb p (rev l)) eqn:E'; [|reflexivity].
    apply existsb_exists in E'. destruct E' as (a & Ha & Hp).
    apply in_rev in Ha.
    assert (existsb p l = true) by (apply existsb_exists; eauto). congruence.
Qed.

(** A category is skipped exactly when its workspace is not in the live
    list; a workspace found has the identifier asked for. *)
Lemma ws_by_id_live (ws_id : string) :
  match dict_get (Some ws_id) (ws_by_id_of workspaces) with
  | Some ws => is_live workspaces ws_id = true /\ w_id ws = Some ws_id
               /\ In ws workspaces
  | None => is_live workspaces ws_id = false
  end.
Proof.
  unfold ws_by_id_of.
  rewrite (dict_get_fold_set w_id (fun w => w) (Some ws_id) workspaces).
  unfold is_live. rewrite <- existsb_rev.
  destruct (find _ (rev workspaces)) as [ws|] eqn:Ef; cbn [option_map].
  - pose proof (find_some _ _ Ef) as [Hin Hk].
    split; [|split].
    + apply existsb_exists. eauto.
    + now apply (key_eqb_eq (w_id ws) (Some ws_id)).
    + now apply in_rev.
  - now apply find_None_existsb.
Qed.

Lemma summary_step_snd (categories : dict string Category) acc :
  snd (fold_left (summary_step workspaces semantic_models refreshes_by_ws)
         categories acc)
  = fold_left (fun a kv => dict_set (fst kv) (snd kv) a)
      (map (fun kv => (fst kv, stats_of semantic_models refreshes_by_ws (fst kv)))
         (filter (fun kv => is_live workspaces (fst kv)) categories))
      (snd acc).
Proof.
  revert acc. induction categories as [|[ws_id cat] categories IH]; intros acc.
  - reflexivity.
  - cbn [fold_left filter fst]. rewrite IH. unfold summary_step.
    cbn [fst snd]. pose proof (ws_by_id_live ws_id) as Hl.
    destruct (dict_get (Some ws_id) (ws_by_id_of workspaces)) as [ws|].
    + destruct Hl as [-> _]. reflexivity.
    + rewrite Hl. reflexivity.
Qed.

Lemma summary_add_perm module env entry summary :
  Permutation (entries_of (summary_add module env entry summary))
    (entry :: entries_of summary).
Proof.
  unfold summary_add, entries_of.
  apply (flat_map_dict_set_perm
           (fun by_env : dict string (list SummaryEntry) =>
              flat_map (fun ev => snd ev) by_env) []); [reflexivity|].
  apply (flat_map_dict_set_perm (fun entries : list SummaryEntry => entries) []);
    [reflexivity|].
  apply Permutation_sym, Permutation_cons_append.
Qed.

Lemma summary_step_entries (categories : dict string Category) acc :
  Permutation
    (map e_id
       (entries_of
          (fst (fold_left (summary_step workspaces semantic_models refreshes_by_ws)
                  categories acc))))
    (map e_id (entries_of (fst acc))
     ++ filter (is_live workspaces) (keys categories)).
Proof.
  revert acc. induction categories as [|[ws_id cat] categories IH]; intros acc.
  - cbn. now rewrite app_nil_r.
  - cbn [fold_left keys map filter fst]. rewrite IH. unfold summary_step.
    cbn [fst snd]. pose proof (ws_by_id_live ws_id) as Hl.
    destruct (dict_get (Some ws_id) (ws_by_id_of workspaces)) as [ws|].
    + destruct Hl as [-> _]. cbn [fst].
      rewrite (Permutation_map e_id (summary_add_perm _ _ _ _)). cbn [map e_id].
      unfold keys. apply Permutation_middle.
    + rewrite Hl. reflexivity.
Qed.

Lemma summary_add_placed (categories : dict string Category) ws_id cat entry summary :
  In (ws_id, cat) categories -> e_id entry = ws_id ->
  placed_by categories summary ->
  placed_by categories
    (summary_add (Py.or_default (c_module cat) "Unassigned module")
       (Py.or_default (c_env cat) "unspecified") entry summary).
Proof.
  intros Hcat Hid Hpl module by_env env entries entry' Hm He Hentry.
  unfold summary_add in Hm.
  apply In_dict_set in Hm. destruct Hm as [[-> ->]|Hm];
    [|now apply (Hpl module by_env env entries entry')].
  apply In_dict_set in He.
  set (by_env0 := match dict_get _ summary with
                  | Some d => d
                  | None => []
                  end) in *.
  assert (Hold : forall env0 entries0,
             In (env0, entries0) by_env0 -> In entry' entries0 ->
             exists cat0,
               In (e_id entry', cat0) categories
               /\ Py.or_default (c_module cat) "Unassigned module"
                  = Py.or_default (c_module cat0) "Unassigned module"
               /\ env0 = Py.or_default (c_env cat0) "unspecified").
  { intros env0 entries0 H0 H1. unfold by_env0 in H0.
    destruct (dict_get (Py.or_default (c_module cat) "Unassigned module") summary)
      as [d|] eqn:Eg; [|contradiction].
    apply dict_get_In in Eg. exact (Hpl _ _ _ _ _ Eg H0 H1). }
  destruct He as [[-> ->]|He]; [|now apply (Hold env entries)].
  apply in_app_or in Hentry. destruct Hentry as [Hentry|[<-|[]]].
  - destruct (dict_get (Py.or_default (c_env cat) "unspecified") by_env0)
      as [l|] eqn:Eg; [|contradiction].
    apply dict_get_In in Eg. exact (Hold _ _ Eg Hentry).
  - exists cat. rewrite Hid. auto.
Qed.

Lemma summary_step_placed (all : dict string Category)
    (categories : dict string Category) acc :
  incl categories all -> placed_by all (fst acc) ->
  placed_by all
    (fst (fold_left (summary_step workspaces semantic_models refreshes_by_ws)
            categories acc)).
Proof.
  revert acc. induction categories as [|[ws_id cat] categories IH];
    intros acc Hincl Hpl; [exact Hpl|].
  cbn [fold_left]. apply IH.
  - intros kv Hkv. apply Hincl. now right.
  - unfold summary_step. cbn [fst snd].
    destruct (dict_get (Some ws_id) (ws_by_id_of workspaces)) as [ws|];
      [|exact Hpl].
    cbn [fst]. apply summary_add_placed with ws_id; [|reflexivity|exact Hpl].
    apply Hincl. now left.
Qed.

End SummaryFacts.

(** The statistics map of [build_summary] has one entry for every
    categorized workspace that is in the live workspace list, in the
    order of the categories, and none for a stale category; the entry
    holds the statistics of the models of that workspace. *)
Theorem summary_stats_cover_live_categories
    workspaces (categories : dict string Category) semantic_models refreshes_by_ws :
  is_dict categories ->
  snd (build_summary workspaces categories semantic_models refreshes_by_ws)
  = map (fun kv => (fst kv, stats_of semantic_models refreshes_by_ws (fst kv)))
      (filter (fun kv => is_live workspaces (fst kv)) categories).
Proof.
  intros Hd. rewrite build_summary_fold, summary_step_snd. cbn [snd].
  apply (fold_set_is_dict _ []). unfold is_dict, keys in *. cbn [app].
  rewrite map_map. cbn [fst].
  revert Hd. induction categories as [|[k c] cs IH]; intros Hd; [constructor|].
  inversion Hd as [|? ? Hk Hcs]; subst. cbn [filter fst].
  destruct (is_live workspaces k); [|now apply IH].
  cbn [map fst]. constructor; [|now apply IH].
  intros Hin. apply Hk. apply in_map_iff in Hin.
  destruct Hin as ([k' c'] & Hk' & Hin'). apply filter_In in Hin'.
  apply in_map_iff. exists (k', c'). tauto.
Qed.

Lemma summary_stats_cover_live_categories_witness :
  let categories :=
    [("ws1", Sample.prod_finance);
     ("gone", {| c_env := Some "dev"; c_module := None |})] in
  is_dict categories
  /\ keys (snd (build_summary [Sample.workspace "ws1" "Sales"] categories
                  [("ws1", [Sample.model "m1" "Orders"])] []))
     = ["ws1"].
Proof.
  intros categories.
  assert (Hd : is_dict categories).
  { repeat constructor; simpl; intuition discriminate. }
  split; [exact Hd|].
  rewrite (summary_stats_cover_live_categories [Sample.workspace "ws1" "Sales"]
             categories [("ws1", [Sample.model "m1" "Orders"])] [] Hd).
  reflexivity.
Defined.

(** Every categorized workspace of the live list is in the summary
    exactly once, a stale category never; and an entry stands under the
    module of a category of its workspace, ["Unassigned module"] for
    none, and under its environment, ["unspecified"] for none. *)
Theorem summary_groups_each_live_workspace_once
    workspaces (categories : dict string Category) semantic_models refreshes_by_ws :
  let summary :=
    fst (build_summary workspaces categories semantic_models refreshes_by_ws) in
  Permutation (map e_id (entries_of summary))
    (filter (is_live workspaces) (keys categories))
  /\ placed_by categories summary.
Proof.
  intros summary. unfold summary. rewrite build_summary_fold. split.
  - rewrite summary_step_entries. reflexivity.
  - apply summary_step_placed; [apply incl_refl|].
    intros module by_env env entries entry [].
Qed.


(** ** The persistence store *)

Section StoreFacts.
Variable fromisoformat : string -> option datetime.

Lemma datetime_sub_to_utc (end_dt start_dt : datetime) (usec : Z) :
  datetime_sub end_dt start_dt = Some usec ->
  usec = (to_utc end_dt - to_utc start_dt)%Z.
Proof.
  unfold datetime_sub, to_utc.
  destruct (utcoffset end_dt), (utcoffset start_dt); intros [= <-]; reflexivity.
Qed.

Lemma seconds_of_sign (usec : Z) :
  ((seconds_of usec < 0)%Q <-> (usec < 0)%Z)
  /\ ((seconds_of usec == 0)%Q <-> usec = 0%Z).
Proof.
  unfold seconds_of, usec_per_second, Qdiv, Qlt, Qeq. simpl. split; lia.
Qed.

End StoreFacts.

(** The duration that [save_refreshes] stores is the time elapsed from
    the start to the end, in seconds; it is negative exactly when the end
    is before the start, and nothing clamps it. *)
Theorem stored_duration_is_elapsed_time
    (fromisoformat : string -> option datetime)
    (start_time end_time : option string) (d : Q) :
  stored_duration fromisoformat start_time end_time = Some d ->
  exists s e,
    parse_utc fromisoformat (Py.text start_time) = Some s
    /\ parse_utc fromisoformat (Py.text end_time) = Some e
    /\ d = seconds_of (e - s)
    /\ ((d < 0)%Q <-> (e < s)%Z)
    /\ ((d == 0)%Q <-> e = s).
Proof.
  unfold stored_duration, parse_utc.
  destruct (Py.truthy start_time && Py.truthy end_time); [|discriminate].
  destruct (fromisoformat (Py.replace_Z (Py.text start_time))) as [sdt|];
    [|discriminate].
  destruct (fromisoformat (Py.replace_Z (Py.text end_time))) as [edt|];
    [|discriminate].
  destruct (datetime_sub edt sdt) as [usec|] eqn:Es; [|discriminate].
  intros [= <-]. apply datetime_sub_to_utc in Es. subst usec.
  exists (to_utc sdt), (to_utc edt).
  destruct (seconds_of_sign (to_utc edt - to_utc sdt)) as [Hlt Heq].
  split; [reflexivity|]. split; [reflexivity|]. split; [reflexivity|]. split.
  - split; intros H; [apply Hlt in H; lia|apply Hlt; lia].
  - split; intros H; [apply Heq in H; lia|apply Heq; lia].
Qed.

Lemma stored_duration_is_elapsed_time_witness :
  stored_duration Iso.fromisoformat (Some "2024-01-02T00:00:00Z")
    (Some "2024-01-01T23:59:55Z") = Some (seconds_of (-5000000))
  /\ (seconds_of (-5000000) == -5)%Q
  /\ exists s e,
       parse_utc Iso.fromisoformat "2024-01-02T00:00:00Z" = Some s
       /\ parse_utc Iso.fromisoformat "2024-01-01T23:59:55Z" = Some e
       /\ (e < s)%Z.
Proof.
  assert (H : stored_duration Iso.fromisoformat (Some "2024-01-02T00:00:00Z")
                (Some "2024-01-01T23:59:55Z") = Some (seconds_of (-5000000)))
    by reflexivity.
  split; [exact H|]. split; [reflexivity|].
  destruct (stored_duration_is_elapsed_time Iso.fromisoformat _ _ _ H)
    as (s & e & Hs & He & _ & Hlt & _).
  exists s, e. split; [exact Hs|]. split; [exact He|].
  apply Hlt. reflexivity.
Defined.

(** No duration is stored when a time is missing or empty, when one of
    them does not parse, or when one carries an offset and the other
    does not. *)
Theorem stored_duration_none
    (fromisoformat : string -> option datetime)
    (start_time end_time : option string) :
  stored_duration fromisoformat start_time end_time = None
  <-> Py.truthy start_time = false \/ Py.truthy end_time = false
      \/ fromisoformat (Py.replace_Z (Py.text start_time)) = None
      \/ fromisoformat (Py.replace_Z (Py.text end_time)) = None
      \/ exists sdt edt,
           fromisoformat (Py.replace_Z (Py.text start_time)) = Some sdt
           /\ fromisoformat (Py.replace_Z (Py.text end_time)) = Some edt
           /\ (utcoffset sdt = None <-> utcoffset edt <> None).
Proof.
  unfold stored_duration.
  destruct (Py.truthy start_time); [|cbn [andb]; tauto].
  destruct (Py.truthy end_time); [|cbn [andb]; tauto].
  cbn [andb].
  destruct (fromisoformat (Py.replace_Z (Py.text start_time))) as [sdt|];
    [|tauto].
  destruct (fromisoformat (Py.replace_Z (Py.text end_time))) as [edt|];
    [|tauto].
  unfold datetime_sub.
  destruct (utcoffset edt) as [oe|] eqn:Ee, (utcoffset sdt) as [os|] eqn:Es;
    split; try discriminate; try reflexivity.
  - intros [H|[H|[H|[H|H]]]]; try discriminate.
    destruct H as (s & e & [= <-] & [= <-] & Hm).
    rewrite Es, Ee in Hm. exfalso. destruct Hm as [_ Hm].
    assert (Hne : Some oe <> None) by discriminate. specialize (Hm Hne).
    discriminate.
  - intros _. do 4 right. exists sdt, edt. rewrite Es, Ee.
    repeat split; try reflexivity; intros; discriminate.
  - intros _. do 4 right. exists sdt, edt. rewrite Es, Ee.
    repeat split; try reflexivity; intros; congruence.
  - intros [H|[H|[H|[H|H]]]]; try discriminate.
    destruct H as (s & e & [= <-] & [= <-] & Hm).
    rewrite Es, Ee in Hm. exfalso. destruct Hm as [Hm _].
    specialize (Hm eq_refl). congruence.
Qed.

(** ** Grouping fetched rows *)

Section GroupFacts.
Context {V : Type}.

Lemma get_or_empty_setdefault_append (k key : string) (value : V)
    (data : dict string (list V)) :
  get_or_empty k (setdefault_append key value data)
  = if (key =? k)%string then get_or_empty k data ++ [value]
    else get_or_empty k data.
Proof.
  unfold setdefault_append, get_or_empty.
  destruct (key =? k)%string eqn:E.
  - apply String.eqb_eq in E. subst k.
    destruct (dict_get key data); now rewrite dict_get_set_same.
  - apply String.eqb_neq in E.
    destruct (dict_get key data); now rewrite dict_get_set_other.
Qed.

Lemma is_dict_setdefault_append (key : string) (value : V)
    (data : dict string (list V)) :
  is_dict data -> is_dict (setdefault_append key value data).
Proof.
  intros Hd. unfold setdefault_append.
  destruct (dict_get key data); now apply is_dict_dict_set.
Qed.

Lemma In_setdefault_append (key k : string) (value : V) (l : list V)
    (data : dict string (list V)) :
  In (k, l) (setdefault_append key value data) ->
  (k = key /\ l = get_or_empty key data ++ [value]) \/ In (k, l) data.
Proof.
  unfold setdefault_append, get_or_empty. intros Hin.
  destruct (dict_get key data); apply In_dict_set in Hin; tauto.
Qed.

Lemma group_rows_acc (rows : list (string * V)) (acc : dict string (list V)) :
  let data := fold_left (fun d kv => setdefault_append (fst kv) (snd kv) d)
                rows acc in
  (is_dict acc -> is_dict data)
  /\ (forall k, get_or_empty k data
                = get_or_empty k acc
                  ++ map snd (filter (fun kv => (fst kv =? k)%string) rows))
  /\ (Forall (fun kv => snd kv <> []) acc -> Forall (fun kv => snd kv <> []) data).
Proof.
  revert acc. induction rows as [|[key value] rows IH]; intros acc; cbn zeta.
  - cbn. repeat split; try tauto. intros k. now rewrite app_nil_r.
  - cbn [fold_left fst snd filter].
    destruct (IH (setdefault_append key value acc)) as (Hd & Hg & Hn).
    cbn zeta in Hd, Hg, Hn. split; [|split].
    + intros Ha. now apply Hd, is_dict_setdefault_append.
    + intros k. rewrite Hg, get_or_empty_setdefault_append.
      destruct (key =? k)%string; [|reflexivity].
      cbn [map snd]. now rewrite <- app_assoc.
    + intros Ha. apply Hn. apply Forall_forall. intros [k l] Hin.
      apply In_setdefault_append in Hin. destruct Hin as [[_ ->]|Hin].
      * cbn [snd]. now destruct (get_or_empty key acc).
      * rewrite Forall_forall in Ha. exact (Ha _ Hin).
Qed.

Lemma In_is_dict_get (k : string) (v : V) (d : dict string V) :
  is_dict d -> In (k, v) d -> dict_get k d = Some v.
Proof.
  unfold is_dict, keys. induction d as [|[k' v'] d IH]; simpl; [tauto|].
  intros Hd Hin. inversion Hd as [|? ? Hk Hd']; subst.
  destruct Hin as [[= -> ->]|Hin].
  - now rewrite String.eqb_refl.
  - destruct (k' =? k)%string eqn:E; [|now apply IH].
    apply String.eqb_eq in E. subst k'. exfalso. apply Hk.
    apply in_map_iff. now exists (k, v).
Qed.

End GroupFacts.

(** The rows fetched by a [load_...] function are grouped without loss:
    the result is a dictionary whose keys are distinct, no list of it is
    empty, and under each key are the values of the rows with that key,
    in the order they were fetched. *)
Theorem group_rows_keeps_rows_in_order {V} (rows : list (string * V)) :
  is_dict (group_rows rows)
  /\ Forall (fun kv => snd kv <> []) (group_rows rows)
  /\ (forall k,
         get_or_empty k (group_rows rows)
         = map snd (filter (fun kv => (fst kv =? k)%string) rows))
  /\ (forall k l,
         In (k, l) (group_rows rows) ->
         l = map snd (filter (fun kv => (fst kv =? k)%string) rows)).
Proof.
  destruct (group_rows_acc rows []) as (Hd & Hg & Hn). cbn zeta in Hd, Hg, Hn.
  fold (group_rows rows) in Hd, Hg, Hn.
  assert (Hd' : is_dict (group_rows rows)) by (apply Hd; constructor).
  split; [exact Hd'|]. split; [apply Hn; constructor|].
  assert (Hg' : forall k,
             get_or_empty k (group_rows rows)
             = map snd (filter (fun kv => (fst kv =? k)%string) rows))
    by (intros k; now rewrite Hg).
  split; [exact Hg'|].
  intros k l Hin. rewrite <- (Hg' k).
  unfold get_or_empty. now rewrite (In_is_dict_get k l _ Hd' Hin).
Qed.

(** ** Loading the refresh history *)

Section LoadFacts.

Lemma StronglySorted_filter {A} (R : A -> A -> Prop) (p : A -> bool) (l : list A) :
  StronglySorted R l -> StronglySorted R (filter p l).
Proof.
  induction 1 as [|a l Hs IH Ha]; simpl; [constructor|].
  destruct (p a); [|exact IH]. constructor; [exact IH|].
  rewrite Forall_forall in *. intros b Hb. apply Ha.
  now apply filter_In in Hb.
Qed.

Lemma StronglySorted_map {A B} (R : B -> B -> Prop) (g : A -> B) (l : list A) :
  StronglySorted (fun a b => R (g a) (g b)) l -> StronglySorted R (map g l).
Proof.
  induction 1 as [|a l Hs IH Ha]; simpl; constructor; [exact IH|].
  now apply Forall_map.
Qed.

Lemma select_refreshes_sorted (table : list RefreshRow) (workspace_id : string) :
  StronglySorted
    (fun a b => (row_start_time b <=? row_start_time a) = true)
    (select_refreshes table workspace_id).
Proof.
  unfold select_refreshes.
  eapply StronglySorted_impl; [|apply sort_stable_sorted].
  - unfold in_order. intros a b. apply string_ltb_leb.
  - intros a b. apply string_ltb_asym.
  - unfold in_order. intros a b c Hab Hbc.
    apply string_ltb_leb in Hab. apply string_ltb_leb in Hbc.
    apply string_ltb_leb. now apply string_leb_trans with (row_start_time b).
Qed.

Lemma select_refreshes_In (table : list RefreshRow) (workspace_id : string)
    (row : RefreshRow) :
  In row (select_refreshes table workspace_id)
  <-> In row table /\ row_workspace_id row = workspace_id.
Proof.
  unfold select_refreshes. rewrite sort_stable_In, filter_In.
  now rewrite String.eqb_eq.
Qed.

(** The list of one dataset: the selected rows of that dataset. *)
Lemma load_refreshes_dataset (table : list RefreshRow)
    (workspace_id dataset_id : string) :
  get_or_empty dataset_id (load_refreshes table workspace_id)
  = map record_of_row
      (filter (fun row => (row_dataset_id row =? dataset_id)%string)
         (select_refreshes table workspace_id)).
Proof.
  unfold load_refreshes.
  destruct (group_rows_acc
              (map (fun row => (row_dataset_id row, record_of_row row))
                 (select_refreshes table workspace_id)) [])
    as (_ & Hg & _).
  cbn zeta in Hg. fold (group_rows
                          (map (fun row => (row_dataset_id row, record_of_row row))
                             (select_refreshes table workspace_id))) in Hg.
  rewrite Hg. unfold get_or_empty at 1. cbn [dict_get app].
  rewrite filter_map_swap, map_map. reflexivity.
Qed.

Lemma fold_left_map {A B C} (f : A -> C -> A) (g : B -> C) (l : list B) (a : A) :
  fold_left f (map g l) a = fold_left (fun x b => f x (g b)) l a.
Proof.
  revert a. induction l as [|b l IH]; simpl; intros a; [reflexivity|apply IH].
Qed.

End LoadFacts.

(** [load_refreshes] returns a dictionary with distinct dataset keys and
    no empty list; the list of a dataset holds exactly the rows of that
    workspace and dataset, in descending order of their [start_time]
    strings, the newest first. *)
Theorem load_refreshes_newest_first
    (table : list RefreshRow) (workspace_id : string) :
  let loaded := load_refreshes table workspace_id in
  is_dict loaded
  /\ Forall
       (fun kv =>
          snd kv <> []
          /\ StronglySorted
               (fun a b => (Py.text (r_start_time b) <=? Py.text (r_start_time a))
                           = true)
               (snd kv))
       loaded
  /\ (forall dataset_id rec,
         In rec (get_or_empty dataset_id loaded)
         <-> exists row,
               In row table /\ row_workspace_id row = workspace_id
               /\ row_dataset_id row = dataset_id /\ rec = record_of_row row).
Proof.
  intros loaded.
  pose proof (group_rows_acc
                (map (fun row => (row_dataset_id row, record_of_row row))
                   (select_refreshes table workspace_id)) []) as (Hd & _ & Hn).
  cbn zeta in Hd, Hn.
  assert (Hdict : is_dict loaded) by (apply Hd; constructor).
  split; [exact Hdict|]. split.
  - apply Forall_forall. intros [k l] Hin. cbn [snd].
    split.
    + specialize (Hn (Forall_nil _)). rewrite Forall_forall in Hn.
      exact (Hn _ Hin).
    + assert (El : l = get_or_empty k loaded).
      { unfold get_or_empty. now rewrite (In_is_dict_get k l _ Hdict Hin). }
      rewrite El. unfold loaded. rewrite load_refreshes_dataset.
      apply StronglySorted_map. apply StronglySorted_filter.
      apply select_refreshes_sorted.
  - intros dataset_id rec. unfold loaded. rewrite load_refreshes_dataset.
    rewrite in_map_iff. split.
    + intros (row & <- & Hrow). apply filter_In in Hrow.
      destruct Hrow as [Hsel Hds]. apply select_refreshes_In in Hsel.
      apply String.eqb_eq in Hds. exists row. tauto.
    + intros (row & Hin & Hws & Hds & ->). exists row. split; [reflexivity|].
      apply filter_In. split; [now apply select_refreshes_In|].
      now apply String.eqb_eq.
Qed.

(** The refresh mapping that the routes build with a dictionary
    comprehension over workspace identifiers is a dictionary of
    dictionaries, whatever the table and the identifiers, and holds for
    each identifier what [load_refreshes] returns for it. *)
Theorem preloaded_refreshes_are_well_formed
    (table : list RefreshRow) (ws_ids : list string) :
  well_formed (preload_refreshes table ws_ids)
  /\ (forall ws_id,
         dict_get ws_id (preload_refreshes table ws_ids)
         = if existsb (String.eqb ws_id) ws_ids
           then Some (load_refreshes table ws_id) else None).
Proof.
  split; [split|].
  - unfold preload_refreshes.
    rewrite <- (fold_left_map
                  (fun a kv => dict_set (fst kv) (snd kv) a)
                  (fun ws_id => (ws_id, load_refreshes table ws_id))).
    apply is_dict_fold_set. constructor.
  - unfold preload_refreshes.
    assert (H : forall l acc,
               Forall (fun kv : string * dict string (list RefreshRecord) =>
                         is_dict (snd kv)) acc ->
               Forall (fun kv : string * dict string (list RefreshRecord) =>
                         is_dict (snd kv))
                 (fold_left
                    (fun d ws_id => dict_set ws_id (load_refreshes table ws_id) d)
                    l acc)).
    { induction l as [|ws_id l IH]; intros acc Hacc; [exact Hacc|].
      cbn [fold_left]. apply IH.
      apply (Forall_dict_set (fun d => is_dict d)); [exact Hacc|].
      destruct (group_rows_acc
                  (map (fun row => (row_dataset_id row, record_of_row row))
                     (select_refreshes table ws_id)) []) as (Hd & _).
      apply Hd. constructor. }
    apply H. constructor.
  - intros ws_id. unfold preload_refreshes.
    rewrite (dict_get_fold_set (fun a : string => a)
               (fun a => load_refreshes table a) ws_id ws_ids).
    cbn [key_eqb string_key].
    destruct (find (fun a => (a =? ws_id)%string) (rev ws_ids)) as [a|] eqn:Ef.
    + apply find_some in Ef. destruct Ef as [Hin Ea].
      apply String.eqb_eq in Ea. subst a. cbn [option_map].
      replace (existsb (String.eqb ws_id) ws_ids) with true; [reflexivity|].
      symmetry. apply existsb_exists. exists ws_id.
      split; [now apply in_rev|apply String.eqb_refl].
    + cbn [option_map].
      destruct (existsb (String.eqb ws_id) ws_ids) eqn:Ee; [|reflexivity].
      apply existsb_exists in Ee. destruct Ee as (a & Hin & Ea).
      apply String.eqb_eq in Ea. subst a.
      apply in_rev in Hin.
      pose proof (find_none _ _ Ef ws_id Hin) as Hn. cbn in Hn.
      rewrite String.eqb_refl in Hn. discriminate.
Qed.

(** ** Saving the refresh history *)

Section SaveFacts.
Variable fromisoformat : string -> option datetime.

Lemma same_key_iff (a b : RefreshRow) :
  same_key a b = true <-> row_key a = row_key b.
Proof.
  unfold same_key, row_key. rewrite !andb_true_iff, !String.eqb_eq.
  split; [intros [[-> ->] ->]; reflexivity|intros [= -> -> ->]; tauto].
Qed.

Lemma save_refreshes_app (table : list RefreshRow) (ws ds : string)
    (l1 l2 : list ApiRefresh) :
  save_refreshes fromisoformat table ws ds (l1 ++ l2)
  = match save_refreshes fromisoformat table ws ds l1 with
    | Some t1 => save_refreshes fromisoformat t1 ws ds l2
    | None => None
    end.
Proof.
  revert table. induction l1 as [|r l1 IH]; intros table; [reflexivity|].
  cbn [app save_refreshes].
  destruct (row_of_refresh fromisoformat ws ds r); [apply IH|reflexivity].
Qed.

Lemma row_of_refresh_key (ws ds : string) (r : ApiRefresh) (row : RefreshRow) :
  row_of_refresh fromisoformat ws ds r = Some row ->
  row_workspace_id row = ws /\ row_dataset_id row = ds
  /\ a_startTime r = Some (row_start_time row).
Proof.
  unfold row_of_refresh. destruct (a_startTime r); [|discriminate].
  intros [= <-]. auto.
Qed.

Lemma row_of_refresh_record (ws ds : string) (r : ApiRefresh) (row : RefreshRow) :
  row_of_refresh fromisoformat ws ds r = Some row ->
  {| r_start_time := Some (row_start_time row);
     r_startTime := None;
     r_end_time := a_endTime r;
     r_status := a_status r;
     r_duration_seconds :=
       stored_duration fromisoformat (a_startTime r) (a_endTime r) |}
  = record_of_row row.
Proof.
  unfold row_of_refresh. destruct (a_startTime r) eqn:E; [|discriminate].
  intros [= <-]. reflexivity.
Qed.

(** A row stays in the table while no later refresh has its key. *)
Lemma save_refreshes_keeps_row (table table' : list RefreshRow) (ws ds : string)
    (rest : list ApiRefresh) (row : RefreshRow) :
  save_refreshes fromisoformat table ws ds rest = Some table' ->
  In row table ->
  (row_workspace_id row = ws -> row_dataset_id row = ds ->
   forall r, In r rest -> a_startTime r <> Some (row_start_time row)) ->
  In row table'.
Proof.
  revert table. induction rest as [|r rest IH]; intros table Hs Hin Hlater.
  - now injection Hs as <-.
  - cbn [save_refreshes] in Hs.
    destruct (row_of_refresh fromisoformat ws ds r) as [new|] eqn:Er;
      [|discriminate].
    apply (IH _ Hs).
    + unfold insert_or_replace. apply in_or_app. left. apply filter_In.
      split; [exact Hin|]. apply negb_true_iff.
      destruct (same_key row new) eqn:Ek; [|reflexivity].
      apply same_key_iff in Ek. injection Ek as Ew Ed Est.
      destruct (row_of_refresh_key _ _ _ _ Er) as (Hw & Hd & Hst).
      exfalso. apply (Hlater (eq_trans Ew Hw) (eq_trans Ed Hd) r (or_introl eq_refl)).
      now rewrite Hst, Est.
    + intros Hw Hd r' Hr'. apply (Hlater Hw Hd). now right.
Qed.



End SaveFacts.

(** Saving and loading round trip.  After [save_refreshes] has
    committed, a saved refresh that no later refresh of the same call
    overwrites is in the list that [load_refreshes] returns for the
    dataset, with its start, end and status and the duration computed
    from them. *)
Theorem save_then_load_finds_refresh
    (fromisoformat : string -> option datetime)
    (table table' : list RefreshRow) (workspace_id dataset_id : string)
    (before : list ApiRefresh) (r : ApiRefresh) (later : list ApiRefresh) :
  save_refreshes fromisoformat table workspace_id dataset_id
    (before ++ r :: later) = Some table' ->
  (forall r', In r' later -> a_startTime r' <> a_startTime r) ->
  exists start_time,
    a_startTime r = Some start_time
    /\ In {| r_start_time := Some start_time;
             r_startTime := None;
             r_end_time := a_endTime r;
             r_status := a_status r;
             r_duration_seconds :=
               stored_duration fromisoformat (a_startTime r) (a_endTime r) |}
         (get_or_empty dataset_id (load_refreshes table' workspace_id)).
Proof.
  intros Hs Hlater. rewrite save_refreshes_app in Hs.
  destruct (save_refreshes fromisoformat table workspace_id dataset_id before)
    as [t1|]; [|discriminate].
  cbn [save_refreshes] in Hs.
  destruct (row_of_refresh fromisoformat workspace_id dataset_id r)
    as [row|] eqn:Er; [|discriminate].
  destruct (row_of_refresh_key _ _ _ _ _ Er) as (Hw & Hd & Hst).
  assert (Hin : In row table').
  { apply (save_refreshes_keeps_row fromisoformat _ _ _ _ _ row Hs).
    - unfold insert_or_replace. apply in_or_app. right. now left.
    - intros _ _ r' Hr'. rewrite <- Hst. now apply Hlater. }
  exists (row_start_time row). split; [exact Hst|].
  rewrite load_refreshes_dataset. apply in_map_iff. exists row. split.
  - symmetry. exact (row_of_refresh_record fromisoformat _ _ _ _ Er).
  - apply filter_In. split; [now apply select_refreshes_In|].
    now apply String.eqb_eq.
Qed.

Lemma save_then_load_finds_refresh_witness :
  let r := {| a_startTime := Some "2024-01-02T00:00:00Z";
              a_endTime := Some "2024-01-02T00:02:00Z";
              a_status := Some "Completed" |} in
  let old := {| a_startTime := Some "2024-01-02T00:00:00Z";
                a_endTime := None; a_status := Some "Unknown" |} in
  exists table',
    save_refreshes Iso.fromisoformat [] "ws1" "m1" ([old] ++ r :: []) = Some table'
    /\ get_or_empty "m1" (load_refreshes table' "ws1")
       = [ {| r_start_time := Some "2024-01-02T00:00:00Z";
              r_startTime := None;
              r_end_time := Some "2024-01-02T00:02:00Z";
              r_status := Some "Completed";
              r_duration_seconds := Some (seconds_of 120000000) |} ]
    /\ exists start_time,
         a_startTime r = Some start_time
         /\ In {| r_start_time := Some start_time;
                  r_startTime := None;
                  r_end_time := a_endTime r;
                  r_status := a_status r;
                  r_duration_seconds :=
                    stored_duration Iso.fromisoformat (a_startTime r)
                      (a_endTime r) |}
              (get_or_empty "m1" (load_refreshes table' "ws1")).
Proof.
  intros r old. eexists. split; [reflexivity|].
  split.
  - vm_compute. reflexivity.
  - apply (save_then_load_finds_refresh Iso.fromisoformat [] _ "ws1" "m1"
             [old] r []); [reflexivity|].
    intros r' [].
Defined.


(** ** The workspace cache *)

(** After [fetch_workspaces] has returned a list, a call before the
    expiry of the cache returns the same list and leaves the cache as it
    is, whatever the script would do; a call at or after the expiry with
    a failing script raises and serves no stale list. *)
Theorem fetch_workspaces_serves_cache_until_expiry
    (cache_seconds : Z) (cache cache' : WorkspaceCache) (now after : Q)
    (script : option (option (list Workspace))) (data : list Workspace)
    (t after' : Q) (script' : option (option (list Workspace))) :
  fetch_workspaces cache_seconds cache now script after
  = (Returned (Some data), cache') ->
  ((t < cache_expires cache')%Q ->
   fetch_workspaces cache_seconds cache' t script' after'
   = (Returned (Some data), cache'))
  /\ ((cache_expires cache' <= t)%Q ->
      fetch_workspaces cache_seconds cache' t None after' = (Raised, cache')).
Proof.
  unfold fetch_workspaces. intros Hfirst.
  assert (Hdata : cache_data cache' = Some data).
  { destruct (is_fresh cache now).
    - injection Hfirst as Hd <-. exact Hd.
    - destruct script as [fetched|]; [|discriminate].
      injection Hfirst as -> <-. reflexivity. }
  split; intros Ht.
  - unfold is_fresh. rewrite Hdata, (proj2 (Qgt_bool_iff _ _) Ht). reflexivity.
  - unfold is_fresh. rewrite Hdata, (proj2 (Qgt_bool_false _ _) Ht). reflexivity.
Qed.

Lemma fetch_workspaces_serves_cache_until_expiry_witness :
  let empty := {| cache_data := None; cache_expires := 0 |} in
  let data := [Sample.workspace "ws1" "Sales"] in
  let cache' := {| cache_data := Some data; cache_expires := 1300 |} in
  fetch_workspaces 300 empty 1000 (Some (Some data)) 1000
  = (Returned (Some data), cache')
  /\ fetch_workspaces 300 cache' 1299 None 1299 = (Returned (Some data), cache')
  /\ fetch_workspaces 300 cache' 1300 None 1300 = (Raised, cache').
Proof.
  intros empty data cache'.
  assert (H : fetch_workspaces 300 empty 1000 (Some (Some data)) 1000
              = (Returned (Some data), cache')) by reflexivity.
  split; [exact H|].
  destruct (fetch_workspaces_serves_cache_until_expiry 300 empty cache' 1000 1000
              (Some (Some data)) data 1299 1299 None H) as [Hhit _].
  destruct (fetch_workspaces_serves_cache_until_expiry 300 empty cache' 1000 1000
              (Some (Some data)) data 1300 1300 None H) as [_ Hmiss].
  split; [apply Hhit; reflexivity|apply Hmiss; discriminate].
Defined.

(** ** Categories *)

Section CategoryFacts.

Lemma valid_env_cases (env : string) :
  valid_env env = true <-> env = "dev" \/ env = "uat" \/ env = "prod".
Proof.
  unfold valid_env. rewrite !orb_true_iff, !String.eqb_eq. tauto.
Qed.

Lemma bulk_fold (items : list CategoryItem) (updated : list string)
    (table : dict string Category) :
  fold_left
    (fun acc item =>
       if item_ok item
       then (fst acc ++ [Py.text (i_id item)],
             upsert_category (Py.text (i_id item))
               (Py.lower (Py.or_default (i_env item) ""))
               (Some (Py.or_default (i_module item) "")) (snd acc))
       else acc)
    items (updated, table)
  = (updated ++ map (fun item => Py.text (i_id item)) (filter item_ok items),
     fold_left
       (fun table item =>
          upsert_category (Py.text (i_id item))
            (Py.lower (Py.or_default (i_env item) ""))
            (Some (Py.or_default (i_module item) "")) table)
       (filter item_ok items) table).
Proof.
  revert updated table. induction items as [|item items IH]; intros updated table.
  - cbn. now rewrite app_nil_r.
  - cbn [fold_left filter]. destruct (item_ok item).
    + rewrite IH. cbn [fst snd map fold_left]. now rewrite <- app_assoc.
    + apply IH.
Qed.

Lemma categorize_bulk_step (categories : dict string Category)
    (items : list CategoryItem) :
  categorize_bulk categories items
  = (map (fun item => Py.text (i_id item)) (filter item_ok items),
     fold_left
       (fun table item =>
          upsert_category (Py.text (i_id item))
            (Py.lower (Py.or_default (i_env item) ""))
            (Some (Py.or_default (i_module item) "")) table)
       (filter item_ok items) categories).
Proof.
  unfold categorize_bulk.
  transitivity
    (fold_left
       (fun acc item =>
          if item_ok item
          then (fst acc ++ [Py.text (i_id item)],
                upsert_category (Py.text (i_id item))
                  (Py.lower (Py.or_default (i_env item) ""))
                  (Some (Py.or_default (i_module item) "")) (snd acc))
          else acc)
       items ([], categories)); [|apply bulk_fold].
  apply fold_left_ext. intros [updated table] item. unfold item_ok.
  cbn [fst snd].
  destruct (Py.truthy (i_id item)); [|reflexivity].
  destruct (valid_env _); reflexivity.
Qed.

End CategoryFacts.

(** [categorize_bulk] writes only valid environments: it skips every
    item without an identifier or whose environment, lowered, is not
    ["dev"], ["uat"] or ["prod"]; [updated] lists the accepted
    identifiers in order; categories that held a valid environment still
    do, distinct keys stay distinct, and a workspace that is not in
    [updated] keeps its category. *)
Theorem categorize_bulk_writes_valid_environments
    (categories : dict string Category) (items : list CategoryItem) :
  let updated := fst (categorize_bulk categories items) in
  let table := snd (categorize_bulk categories items) in
  updated = map (fun item => Py.text (i_id item)) (filter item_ok items)
  /\ (Forall (fun kv => env_is_valid (snd kv)) categories ->
      Forall (fun kv => env_is_valid (snd kv)) table)
  /\ (is_dict categories -> is_dict table)
  /\ (forall ws_id, ~ In ws_id updated ->
         dict_get ws_id table = dict_get ws_id categories)
  /\ (forall ws_id, In ws_id updated ->
         exists cat, dict_get ws_id table = Some cat /\ env_is_valid cat).
Proof.
  intros updated table. subst updated table.
  rewrite categorize_bulk_step. cbn [fst snd].
  set (ok := filter item_ok items).
  assert (Hok : Forall (fun item => item_ok item = true) ok).
  { apply Forall_forall. intros item Hin. now apply filter_In in Hin. }
  clearbody ok. split; [reflexivity|].
  revert categories. induction Hok as [|item ok Hitem _ IH]; intros categories.
  - cbn. split; [tauto|split; [tauto|split; [reflexivity|intros ws_id []]]].
  - cbn [fold_left map].
    set (wsid := Py.text (i_id item)).
    set (env := Py.lower (Py.or_default (i_env item) "")).
    set (cat := {| c_env := Some env;
                   c_module := Some (Py.or_default (i_module item) "") |}).
    assert (Hcat : env_is_valid cat).
    { exists env. split; [reflexivity|].
      unfold item_ok in Hitem. apply andb_true_iff in Hitem. tauto. }
    destruct (IH (upsert_category wsid env
                    (Some (Py.or_default (i_module item) "")) categories))
      as (Hv & Hd & Hn & Hu).
    split; [|split; [|split]].
    + intros Hc. apply Hv. unfold upsert_category.
      now apply (Forall_dict_set env_is_valid).
    + intros Hc. apply Hd. now apply is_dict_dict_set.
    + intros ws_id Hnot. rewrite Hn by (intros H; apply Hnot; now right).
      unfold upsert_category. apply dict_get_set_other.
      intros E. apply Hnot. now left.
    + intros ws_id Hin.
      destruct (in_dec string_dec ws_id
                  (map (fun item0 => Py.text (i_id item0)) ok)) as [Hlater|Hnot].
      * now apply Hu.
      * destruct Hin as [<-|Hin]; [|contradiction].
        exists cat. split; [|exact Hcat]. rewrite (Hn _ Hnot).
        unfold upsert_category. apply dict_get_set_same.
Qed.

(** [categorize_api] answers 400 exactly when the payload is empty, has
    no identifier or has an environment that, lowered, is not one of the
    three; otherwise the category it returns is the one it stored for
    the workspace, with the lowered environment and the module as
    given. *)
Theorem categorize_api_stores_what_it_returns
    (categories : dict string Category) (payload : option CategoryItem) :
  match categorize_api categories payload with
  | BadRequest =>
      payload = None \/ exists item, payload = Some item /\ item_ok item = false
  | Categorized category table =>
      exists item env,
        payload = Some item /\ item_ok item = true
        /\ env = Py.lower (Py.or_default (i_env item) "")
        /\ (env = "dev" \/ env = "uat" \/ env = "prod")
        /\ category = Some {| c_env := Some env; c_module := i_module item |}
        /\ dict_get (Py.text (i_id item)) table = category
        /\ (forall other, other <> Py.text (i_id item) ->
               dict_get other table = dict_get other categories)
  end.
Proof.
  unfold categorize_api. destruct payload as [item|]; [|now left].
  destruct (negb (Py.truthy (i_id item))
            || negb (valid_env (Py.lower (Py.or_default (i_env item) ""))))
    eqn:E.
  - right. exists item. split; [reflexivity|]. unfold item_ok.
    apply orb_true_iff in E. destruct E as [E|E]; apply negb_true_iff in E;
      rewrite E; [reflexivity|apply andb_false_r].
  - apply orb_false_iff in E. destruct E as [E1 E2].
    apply negb_false_iff in E1. apply negb_false_iff in E2.
    exists item, (Py.lower (Py.or_default (i_env item) "")).
    split; [reflexivity|]. split; [unfold item_ok; now rewrite E1, E2|].
    split; [reflexivity|]. split; [now apply valid_env_cases|].
    unfold upsert_category. rewrite dict_get_set_same.
    split; [reflexivity|]. split; [reflexivity|].
    intros other Hne. apply dict_get_set_other. congruence.
Qed.

(** ** Semantic models and their soft deletion *)

Section ModelFacts.

Lemma dict_get_upsert_model_same (mid name added_at : string)
    (table : dict string ModelRow) :
  dict_get mid (upsert_model mid name added_at table)
  = Some {| mr_name := name;
            mr_added_at := match dict_get mid table with
                           | Some row => mr_added_at row
                           | None => added_at
                           end;
            mr_deleted_at := None |}.
Proof.
  unfold upsert_model. destruct (dict_get mid table); apply dict_get_set_same.
Qed.

Lemma dict_get_upsert_model_other (mid other name added_at : string)
    (table : dict string ModelRow) :
  other <> mid ->
  dict_get mid (upsert_model other name added_at table) = dict_get mid table.
Proof.
  intros Hne. unfold upsert_model.
  destruct (dict_get other table); now apply dict_get_set_other.
Qed.

Lemma dict_get_mark_deleted_same (now mid : string) (table : dict string ModelRow) :
  dict_get mid (mark_deleted now mid table)
  = option_map (fun row => {| mr_name := mr_name row;
                              mr_added_at := mr_added_at row;
                              mr_deleted_at := Some now |})
      (dict_get mid table).
Proof.
  unfold mark_deleted. destruct (dict_get mid table) as [row|] eqn:E.
  - apply dict_get_set_same.
  - now rewrite E.
Qed.

Lemma dict_get_mark_deleted_other (now mid other : string)
    (table : dict string ModelRow) :
  other <> mid ->
  dict_get mid (mark_deleted now other table) = dict_get mid table.
Proof.
  intros Hne. unfold mark_deleted.
  destruct (dict_get other table); [now apply dict_get_set_other|reflexivity].
Qed.

Lemma upsert_incoming_fold (existing : dict string ModelRow) (now : string)
    (models : list ApiModel) :
  upsert_incoming existing now models
  = fold_left (incoming_step existing now) models (existing, []).
Proof.
  unfold upsert_incoming. apply fold_left_ext. intros [table ids] model.
  unfold incoming_step. cbn [fst snd].
  destruct (Py.truthy (api_mid model)); reflexivity.
Qed.

Lemma fetched_as_app (models : list ApiModel) (model : ApiModel) (mid : string) :
  fetched_as (models ++ [model]) mid
  = if Py.truthy (api_mid model) && (Py.text (api_mid model) =? mid)%string
    then Some model else fetched_as models mid.
Proof.
  unfold fetched_as. rewrite rev_app_distr. reflexivity.
Qed.

(** After the first loop a fetched model has a live row with the fetched
    name, any other row is as it was, and [incoming_ids] holds the
    fetched identifiers. *)
Lemma upsert_incoming_lookup (existing : dict string ModelRow) (now : string)
    (models : list ApiModel) (mid : string) :
  dict_get mid (fst (upsert_incoming existing now models))
  = match fetched_as models mid with
    | Some model =>
        Some {| mr_name := api_name model;
                mr_added_at := match dict_get mid existing with
                               | Some current => mr_added_at current
                               | None => now
                               end;
                mr_deleted_at := None |}
    | None => dict_get mid existing
    end
  /\ existsb (String.eqb mid) (snd (upsert_incoming existing now models))
     = match fetched_as models mid with
       | Some _ => true
       | None => false
       end.
Proof.
  rewrite upsert_incoming_fold.
  induction models as [|model models IH] using rev_ind; [now split|].
  destruct IH as [IHt IHi].
  rewrite fold_left_app, fetched_as_app. cbn [fold_left].
  unfold incoming_step at 1 3.
  destruct (Py.truthy (api_mid model)) eqn:Et; cbn [andb fst snd];
    [|now split].
  destruct (Py.text (api_mid model) =? mid)%string eqn:E.
  - apply String.eqb_eq in E. rewrite E. split.
    + rewrite dict_get_upsert_model_same, IHt.
      destruct (fetched_as models mid); [reflexivity|].
      destruct (dict_get mid existing); reflexivity.
    + cbn [existsb]. now rewrite String.eqb_refl.
  - split.
    + rewrite dict_get_upsert_model_other; [exact IHt|].
      intros Heq. apply String.eqb_neq in E. contradiction.
    + cbn [existsb]. rewrite String.eqb_sym, E. exact IHi.
Qed.

Lemma deletion_step_other (now : string) (incoming_ids : list string)
    (table : dict string ModelRow) (kv : string * ModelRow) (mid : string) :
  fst kv <> mid ->
  dict_get mid (deletion_step now incoming_ids table kv) = dict_get mid table.
Proof.
  intros Hne. unfold deletion_step.
  destruct (existsb _ incoming_ids); [reflexivity|].
  destruct (mr_deleted_at (snd kv)); [reflexivity|].
  now apply dict_get_mark_deleted_other.
Qed.

Lemma deletion_fold_other (now : string) (incoming_ids : list string)
    (rows : dict string ModelRow) (table : dict string ModelRow) (mid : string) :
  ~ In mid (keys rows) ->
  dict_get mid (fold_left (deletion_step now incoming_ids) rows table)
  = dict_get mid table.
Proof.
  revert table. induction rows as [|kv rows IH]; intros table Hn; [reflexivity|].
  cbn [fold_left]. rewrite IH by (intros Hin; apply Hn; now right).
  apply deletion_step_other. intros Heq. apply Hn. now left.
Qed.

Lemma deletion_fold_fetched (now : string) (incoming_ids : list string)
    (rows : dict string ModelRow) (table : dict string ModelRow) (mid : string) :
  existsb (String.eqb mid) incoming_ids = true ->
  dict_get mid (fold_left (deletion_step now incoming_ids) rows table)
  = dict_get mid table.
Proof.
  intros Hin. revert table. induction rows as [|kv rows IH]; intros table;
    [reflexivity|].
  cbn [fold_left]. rewrite IH.
  destruct (string_dec (fst kv) mid) as [Heq|Hne].
  - unfold deletion_step. now rewrite Heq, Hin.
  - now apply deletion_step_other.
Qed.

Lemma deletion_fold_missing (now : string) (incoming_ids : list string)
    (rows : dict string ModelRow) (table : dict string ModelRow) (mid : string) :
  is_dict rows ->
  existsb (String.eqb mid) incoming_ids = false ->
  dict_get mid (fold_left (deletion_step now incoming_ids) rows table)
  = match dict_get mid rows with
    | Some row =>
        match mr_deleted_at row with
        | None => dict_get mid (mark_deleted now mid table)
        | Some _ => dict_get mid table
        end
    | None => dict_get mid table
    end.
Proof.
  intros Hd Hout. revert table.
  induction rows as [|[k row] rows IH]; intros table; [reflexivity|].
  inversion Hd as [|? ? Hk Hrows]; subst. cbn [fold_left dict_get].
  destruct (key_eqb k mid) eqn:E.
  - apply key_eqb_eq in E. subst k.
    rewrite deletion_fold_other by exact Hk.
    unfold deletion_step. cbn [fst snd]. rewrite Hout.
    destruct (mr_deleted_at row); reflexivity.
  - apply key_eqb_neq in E. rewrite (IH Hrows).
    rewrite !dict_get_mark_deleted_same.
    rewrite (deletion_step_other now incoming_ids table (k, row) mid E).
    reflexivity.
Qed.

Lemma update_semantic_models_fold (existing : dict string ModelRow)
    (now : string) (models : list ApiModel) :
  update_semantic_models existing now models
  = fold_left
      (deletion_step now (snd (upsert_incoming existing now models)))
      existing (fst (upsert_incoming existing now models)).
Proof.
  unfold update_semantic_models.
  destruct (upsert_incoming existing now models) as [table ids].
  reflexivity.
Qed.

End ModelFacts.

(** A model of the fetch is live afterwards: its row has the name of the
    last fetched entry with its identifier, ["(unnamed)"] for none, no
    deletion time, and the [added_at] it had before, the time of the
    call for a new model.  A model that was deleted and is fetched again
    is restored with its first [added_at]. *)
Theorem fetched_models_are_live
    (existing : dict string ModelRow) (now : string) (models : list ApiModel)
    (mid : string) (model : ApiModel) :
  fetched_as models mid = Some model ->
  dict_get mid (update_semantic_models existing now models)
  = Some {| mr_name := api_name model;
            mr_added_at := match dict_get mid existing with
                           | Some current => mr_added_at current
                           | None => now
                           end;
            mr_deleted_at := None |}.
Proof.
  intros Hf. rewrite update_semantic_models_fold.
  destruct (upsert_incoming_lookup existing now models mid) as [Ht Hi].
  rewrite Hf in Ht, Hi. now rewrite deletion_fold_fetched.
Qed.

Lemma fetched_models_are_live_witness :
  let existing :=
    [("m1", {| mr_name := "Orders"; mr_added_at := "2024-01-01T00:00:00";
               mr_deleted_at := Some "2024-02-01T00:00:00" |})] in
  let model :=
    {| am_id := Some "m1"; am_model_id := None;
       am_name := None; am_displayName := Some "Orders v2" |} in
  fetched_as [model] "m1" = Some model
  /\ dict_get "m1" (update_semantic_models existing "2024-03-01T00:00:00" [model])
     = Some {| mr_name := "Orders v2"; mr_added_at := "2024-01-01T00:00:00";
               mr_deleted_at := None |}.
Proof.
  intros existing model.
  assert (Hf : fetched_as [model] "m1" = Some model) by reflexivity.
  split; [exact Hf|].
  exact (fetched_models_are_live existing "2024-03-01T00:00:00" [model] "m1"
           model Hf).
Defined.

(** A model that is stored and not in the fetch is kept and marked as
    deleted: its name and [added_at] are unchanged, and its deletion
    time is the one it had, the time of the call when it was live.  No
    row appears for an identifier that is neither stored nor fetched. *)
Theorem missing_models_are_soft_deleted
    (existing : dict string ModelRow) (now : string) (models : list ApiModel)
    (mid : string) :
  is_dict existing ->
  fetched_as models mid = None ->
  dict_get mid (update_semantic_models existing now models)
  = option_map
      (fun row => {| mr_name := mr_name row;
                     mr_added_at := mr_added_at row;
                     mr_deleted_at := Some match mr_deleted_at row with
                                           | Some deleted_at => deleted_at
                                           | None => now
                                           end |})
      (dict_get mid existing).
Proof.
  intros Hd Hf. rewrite update_semantic_models_fold.
  destruct (upsert_incoming_lookup existing now models mid) as [Ht Hi].
  rewrite Hf in Ht, Hi. rewrite (deletion_fold_missing _ _ _ _ _ Hd Hi).
  rewrite dict_get_mark_deleted_same, Ht.
  destruct (dict_get mid existing) as [row|]; [|reflexivity].
  destruct row as [name added_at [deleted_at|]]; reflexivity.
Qed.

Lemma missing_models_are_soft_deleted_witness :
  let existing :=
    [("m1", {| mr_name := "Orders"; mr_added_at := "2024-01-01T00:00:00";
               mr_deleted_at := None |});
     ("m2", {| mr_name := "Stock"; mr_added_at := "2024-01-02T00:00:00";
               mr_deleted_at := Some "2024-02-01T00:00:00" |})] in
  let models :=
    [{| am_id := None; am_model_id := Some "m3";
        am_name := Some "Prices"; am_displayName := None |}] in
  is_dict existing
  /\ fetched_as models "m1" = None
  /\ dict_get "m1" (update_semantic_models existing "2024-03-01T00:00:00" models)
     = Some {| mr_name := "Orders"; mr_added_at := "2024-01-01T00:00:00";
               mr_deleted_at := Some "2024-03-01T00:00:00" |}.
Proof.
  intros existing models.
  assert (Hd : is_dict existing).
  { repeat constructor; simpl; intuition discriminate. }
  split; [exact Hd|]. split; [reflexivity|].
  apply (missing_models_are_soft_deleted existing "2024-03-01T00:00:00" models
           "m1" Hd).
  reflexivity.
Defined.

(** ** Scheduling a workspace *)

Section ScheduleFacts.
Variables takeover update save : string -> outcome.

Lemma schedule_fold (semantic_models : list SemanticModel) :
  set_workspace_schedule semantic_models takeover update save
  = fold_left
      (fun acc m =>
         if Py.truthy (mid_of m) then
           match update (Py.text (mid_of m)) with
           | Done => (fst acc ++ [Py.text (mid_of m)], snd acc)
           | Failed message =>
               (fst acc, dict_set (Py.text (mid_of m)) message (snd acc))
           end
         else acc)
      semantic_models ([], []).
Proof.
  unfold set_workspace_schedule. apply fold_left_ext. intros [updated failed] m.
  cbn [fst snd]. destruct (Py.truthy (mid_of m)); [|reflexivity].
  unfold swallowed, and_then.
  destruct (update (Py.text (mid_of m))); reflexivity.
Qed.

Lemma scheduled_ids_app (semantic_models : list SemanticModel) (m : SemanticModel) :
  scheduled_ids (semantic_models ++ [m])
  = scheduled_ids semantic_models
    ++ (if Py.truthy (mid_of m) then [Py.text (mid_of m)] else []).
Proof.
  unfold scheduled_ids. rewrite filter_app, map_app. cbn [filter].
  destruct (Py.truthy (mid_of m)); reflexivity.
Qed.

End ScheduleFacts.

(** [set_workspace_schedule] sorts the models that have an identifier by
    the schedule update alone: [updated] lists, in the order of the
    models, those whose update returns, and [failed] holds the message
    of the update for the others.  A takeover or a save that raises
    changes neither, and a model without an identifier is in neither. *)
Theorem schedule_outcome_follows_update
    (semantic_models : list SemanticModel)
    (takeover update save : string -> outcome) :
  let answer := set_workspace_schedule semantic_models takeover update save in
  fst answer
  = filter (fun mid => match update mid with
                       | Done => true
                       | Failed _ => false
                       end)
      (scheduled_ids semantic_models)
  /\ (forall mid message,
        dict_get mid (snd answer) = Some message
        <-> In mid (scheduled_ids semantic_models)
            /\ update mid = Failed message).
Proof.
  intros answer. subst answer. rewrite schedule_fold.
  induction semantic_models as [|m semantic_models IH] using rev_ind.
  - split; [reflexivity|]. intros mid message. cbn. split; [discriminate|tauto].
  - destruct IH as [IHu IHf].
    rewrite fold_left_app, scheduled_ids_app, filter_app. cbn [fold_left].
    destruct (Py.truthy (mid_of m)) eqn:Et.
    + cbn [filter]. destruct (update (Py.text (mid_of m))) as [|failure] eqn:Eu;
        cbn [fst snd].
      * split; [now rewrite IHu|].
        intros mid message. rewrite IHf, in_app_iff. cbn [In].
        split; [tauto|]. intros [[Hin|[Heq|[]]] Hup]; [tauto|].
        subst mid. congruence.
      * split; [now rewrite IHu, app_nil_r|].
        intros mid message. rewrite in_app_iff. cbn [In].
        destruct (string_dec (Py.text (mid_of m)) mid) as [Heq|Hne].
        -- subst mid. rewrite dict_get_set_same, Eu.
           split; [intros [= <-]; tauto|]. intros [_ [= <-]]. reflexivity.
        -- rewrite dict_get_set_other by exact Hne. rewrite IHf. tauto.
    + cbn [filter]. rewrite !app_nil_r. split; [exact IHu|exact IHf].
Qed.
